(** * CrossFlow agent: route ranking, guardrails, transfer sessions, alerts

    A shallow embedding of the JavaScript sources

      - [src/chains/chainDetector.js]   (module [ChainDetector])
      - [src/bridges/bridgeRouter.js]   (module [BridgeRouter]);
                                        the file [unnamed/part_002]
      - [src/utils/validator.js]        (module [Validator])
      - [src/trading/alertEngine.js]    (module [AlertEngine]);
                                        the last part of [src/bridges/layerzero.js]
      - [src/agent/orchestrator.js]     (module [Orchestrator]);
                                        the file [unnamed/part_001]
      - the alert wiring of [server.js] (module [Server]);
                                        the file [unnamed/part_000]
      - [src/payments/x402Payment.js]   (module [X402])
      - [src/bridges/axelar.js], [src/bridges/celer.js] and the head of
        [src/bridges/layerzero.js]      (module [Executors])
      - [src/trading/swapRouter.js]     (module [SwapRouter]);
                                        the middle part of [src/bridges/layerzero.js]

    Modelling conventions.

    - JavaScript numbers are finite and their arithmetic is exact: a number
      is a rational [Q].  The one operation that leaves the finite numbers
      here is division (by zero); its result is a [jsnum].
    - A lookup in an object literal by a computed name also finds what the
      object inherits.  The token lookup of the validator is modelled with
      it; the chain tables of the bridge executors are modelled without
      (see there).
    - Strings are sequences of 8-bit characters; [toLowerCase],
      [toUpperCase] and [trim] act on the ASCII range.
    - An optional field is an [option]: [None] is JavaScript's [undefined].
    - Template-literal messages are kept as a constructor holding the
      interpolated values; number formatting is not modelled.
    - An [async] function is run to completion; what the outside world
      answers (HTTP replies, the language model, the chain) is an explicit
      argument, so every statement quantifies over all possible answers. *)

From Stdlib Require Import QArith Qminmax Lqa String Ascii List Sorted Permutation Lia.
From stdpp Require Import base strings list gmap pretty.

(** ** JavaScript primitives *)

Module JS.

(** *** Strings *)

Definition is_upper (c : ascii) : bool :=
  Nat.leb 65 (nat_of_ascii c) && Nat.leb (nat_of_ascii c) 90.

Definition is_lower (c : ascii) : bool :=
  Nat.leb 97 (nat_of_ascii c) && Nat.leb (nat_of_ascii c) 122.

Definition is_digit (c : ascii) : bool :=
  Nat.leb 48 (nat_of_ascii c) && Nat.leb (nat_of_ascii c) 57.

Definition lower_char (c : ascii) : ascii :=
  if is_upper c then ascii_of_nat (nat_of_ascii c + 32) else c.

Definition upper_char (c : ascii) : ascii :=
  if is_lower c then ascii_of_nat (nat_of_ascii c - 32) else c.

Fixpoint map_string (f : ascii → ascii) (s : string) : string :=
  match s with
  | EmptyString => EmptyString
  | String c r => String (f c) (map_string f r)
  end.

Definition toLowerCase : string → string := map_string lower_char.
Definition toUpperCase : string → string := map_string upper_char.

Fixpoint ltrim (s : string) : string :=
  match s with
  | String c r => if Ascii.is_space c then ltrim r else s
  | EmptyString => EmptyString
  end.

Definition trim (s : string) : string :=
  String.rev (ltrim (String.rev (ltrim s))).

(** [s.includes(w)] *)
Definition includes (s w : string) : bool :=
  match String.index 0 w s with Some _ => true | None => false end.

(** [s.startsWith(w)] *)
Definition startsWith (s w : string) : bool := String.prefix w s.

(** [s.slice(0, n)] *)
Definition slice0 (n : nat) (s : string) : string := String.substring 0 n s.

Fixpoint forallb_string (p : ascii → bool) (s : string) : bool :=
  match s with
  | EmptyString => true
  | String c r => p c && forallb_string p r
  end.

(** [xs.some(p)] *)
Definition some {A} (p : A → bool) (xs : list A) : bool := existsb p xs.

(** *** Numbers *)

(** The value of a division: finite, an infinity, or NaN. *)
Inductive jsnum := Fin (q : Q) | PosInf | NegInf | NaN.

Definition Qpos_b (q : Q) : bool := negb (Qle_bool q 0).
Definition Qneg_b (q : Q) : bool := negb (Qle_bool 0 q).
Definition Qzero_b (q : Q) : bool := Qeq_bool q 0.

(** [a / b] on finite operands. *)
Definition div (a b : Q) : jsnum :=
  if Qzero_b b then
    (if Qzero_b a then NaN else if Qpos_b a then PosInf else NegInf)
  else Fin (a / b).

(** [x * c] for a finite positive constant [c]. *)
Definition mul_pos (x : jsnum) (c : Q) : jsnum :=
  match x with Fin q => Fin (q * c) | other => other end.

(** [x > c] for a finite [c]; every comparison with NaN is false. *)
Definition gt (x : jsnum) (c : Q) : bool :=
  match x with
  | Fin q => Qpos_b (q - c)
  | PosInf => true
  | NegInf | NaN => false
  end.

(** [a < b], [a > b], [a <= b] on finite numbers. *)
Definition ltb (a b : Q) : bool := negb (Qle_bool b a).
Definition gtb (a b : Q) : bool := negb (Qle_bool a b).
Definition leb (a b : Q) : bool := Qle_bool a b.

(** Truthiness of a finite number: [!x] holds exactly for zero. *)
Definition truthy (x : Q) : bool := negb (Qzero_b x).

(** Truthiness of an optional identifier or name. *)
Definition truthyZ (x : option Z) : bool :=
  match x with Some z => negb (Z.eqb z 0) | None => false end.
Definition truthyS (x : option string) : bool :=
  match x with Some s => negb (String.eqb s "") | None => false end.

(** *** Exceptions and promises *)

(** The outcome of running a block: a value, or a thrown error. *)
Inductive res (A : Type) := Ret (a : A) | Throw (e : string).
Arguments Ret {A} a.
Arguments Throw {A} e.

(** An element of the array [Promise.allSettled] resolves to. *)
Inductive Settled (A : Type) := Fulfilled (value : A) | Rejected (e : string).
Arguments Fulfilled {A} value.
Arguments Rejected {A} e.

Definition settle {A} (r : res A) : Settled A :=
  match r with Ret a => Fulfilled a | Throw e => Rejected e end.

(** What [await fetch(url)] followed by [response.json()] can do: reject
    (network error, timeout, unparsable body), answer with a non-2xx
    status, or deliver the decoded body. *)
Inductive Http (A : Type) := NetError (e : string) | NotOk | Ok (data : A).
Arguments NetError {A} e.
Arguments NotOk {A}.
Arguments Ok {A} data.

(** *** [Array.prototype.sort]

    The sort is stable (ECMAScript 2019).  For a comparator that is the
    difference of a numeric key, as every comparator in this program is,
    the stable sorted arrangement is unique ([stable_sorted_unique] below),
    so any stable algorithm is a model of it; we take insertion.  [insert cmp x l] puts [x], which
    stood before the elements of [l] in the input, in front of the first
    [y] with [cmp x y <= 0]. *)

Fixpoint insert {A} (cmp : A → A → Q) (x : A) (l : list A) : list A :=
  match l with
  | [] => [x]
  | y :: l' =>
      if Qle_bool (cmp x y) 0 then x :: y :: l'
      else y :: insert cmp x l'
  end.

Fixpoint sort {A} (cmp : A → A → Q) (l : list A) : list A :=
  match l with
  | [] => []
  | x :: l' => insert cmp x (sort cmp l')
  end.

End JS.

(** ** chainDetector.js *)

Module ChainDetector.
Import JS.

Definition between (lo hi : nat) (c : ascii) : bool :=
  Nat.leb lo (nat_of_ascii c) && Nat.leb (nat_of_ascii c) hi.

(** Character classes of [CHAIN_PATTERNS]. *)
(** [[1-9A-HJ-NP-Za-km-z]] *)
Definition base58 (c : ascii) : bool :=
  between 49 57 c || between 65 72 c || between 74 78 c || between 80 90 c
  || between 97 107 c || between 109 122 c.
(** [[a-zA-Z0-9]] *)
Definition alnum (c : ascii) : bool := is_lower c || is_upper c || is_digit c.
(** [[a-fA-F0-9]] *)
Definition hex (c : ascii) : bool := between 97 102 c || between 65 70 c || is_digit c.
(** [[a-z0-9]] *)
Definition lower_alnum (c : ascii) : bool := is_lower c || is_digit c.
(** [[a-f0-9]] *)
Definition lower_hex (c : ascii) : bool := between 97 102 c || is_digit c.
(** [[a-z0-9_-]] *)
Definition near_char (c : ascii) : bool :=
  is_lower c || is_digit c || Nat.eqb (nat_of_ascii c) 95 || Nat.eqb (nat_of_ascii c) 45.

(** [^[cls]{lo,hi}$] *)
Definition rep (cls : ascii → bool) (lo hi : nat) (s : string) : bool :=
  forallb_string cls s && Nat.leb lo (String.length s) && Nat.leb (String.length s) hi.

Fixpoint strip_prefix (p s : string) : option string :=
  match p, s with
  | EmptyString, _ => Some s
  | String a p', String b s' => if Ascii.eqb a b then strip_prefix p' s' else None
  | String _ _, EmptyString => None
  end.

Definition strip_suffix (p s : string) : option string :=
  String.rev <$> strip_prefix (String.rev p) (String.rev s).

(** [^p rest$] where [rest] is matched by [k]. *)
Definition after (p : string) (k : string → bool) (s : string) : bool :=
  match strip_prefix p s with Some r => k r | None => false end.

(** [^rest p$] where [rest] is matched by [k]. *)
Definition before (p : string) (k : string → bool) (s : string) : bool :=
  match strip_suffix p s with Some r => k r | None => false end.

(** [CHAIN_PATTERNS.X.test(s)] *)
Definition SOLANA : string → bool := rep base58 32 44.
Definition BITCOIN (s : string) : bool :=
  after "1" (rep alnum 25 33) s || after "3" (rep alnum 25 33) s
  || after "bc1" (rep alnum 25 90) s.
Definition EVM : string → bool := after "0x" (rep hex 40 40).
Definition TRON : string → bool := after "T" (rep alnum 33 33).
Definition NEAR (s : string) : bool :=
  before ".near" (rep near_char 2 64) s || before ".testnet" (rep near_char 2 64) s
  || rep lower_hex 64 64 s.
Definition COSMOS : string → bool := after "cosmos" (rep lower_alnum 39 39).
Definition OSMOSIS : string → bool := after "osmo" (rep lower_alnum 39 39).

(** What [detectChainFromAddress] returns.  Of its fields the callers read
    [chain] and the truthiness of [unsupported]; [chainId], [nativeToken],
    [rpcKey], [confidence], [evmCandidates] and the [note] text are left
    out. *)
Record ChainInfo := mkChainInfo { chain : string; unsupported : bool }.

Definition detectEVMChainFromContext (hint : string) : ChainInfo :=
  if includes hint "base" then mkChainInfo "base" false
  else if includes hint "celo" then mkChainInfo "celo" false
  else if includes hint "polygon" || includes hint "matic" then mkChainInfo "polygon" false
  else if includes hint "arbitrum" then mkChainInfo "arbitrum" false
  else if includes hint "optimism" then mkChainInfo "optimism" false
  else if includes hint "avalanche" || includes hint "avax" then mkChainInfo "avalanche" false
  else if includes hint "bnb" || includes hint "bsc" then mkChainInfo "bnb" false
  else mkChainInfo "ethereum" false.

Definition detectChainFromAddress (address contextHint : string) : ChainInfo :=
  let addr := trim address in
  if SOLANA addr && negb (startsWith addr "0x") then mkChainInfo "solana" false
  else if EVM addr then detectEVMChainFromContext (toLowerCase contextHint)
  else if BITCOIN addr then mkChainInfo "bitcoin" true
  else if TRON addr then mkChainInfo "tron" false
  else if NEAR addr then mkChainInfo "near" false
  else if COSMOS addr then mkChainInfo "cosmos" false
  else if OSMOSIS addr then mkChainInfo "osmosis" false
  else mkChainInfo "unknown" false.

Inductive Reason :=
| InvalidSolanaFormat
| InvalidEVMAddressFor (chain : string)
| InvalidTronFormat
| ChainNotSupported (chain : string).

Record AddrCheck := mkAddrCheck { valid : bool; reason : option Reason }.

Definition validateAddressForChain (address chain : string) : AddrCheck :=
  if String.eqb chain "solana" then
    if SOLANA (trim address) then mkAddrCheck true None
    else mkAddrCheck false (Some InvalidSolanaFormat)
  else if existsb (String.eqb chain)
            ["ethereum"; "base"; "celo"; "polygon"; "arbitrum"; "optimism"; "bnb"; "avalanche"]
  then
    if EVM (trim address) then mkAddrCheck true None
    else mkAddrCheck false (Some (InvalidEVMAddressFor chain))
  else if String.eqb chain "tron" then
    if TRON (trim address) then mkAddrCheck true None
    else mkAddrCheck false (Some InvalidTronFormat)
  else mkAddrCheck false (Some (ChainNotSupported chain)).

End ChainDetector.

(** ** config/keys.js

    The configuration module (in [unnamed/part_000]) takes part of its
    values from the environment.  What the modelled code reads from it is a
    parameter, so that the statements hold for every configuration, the
    shipped one included. *)

Module Config.
Record t := mk {
  (** [config.TOKENS[CHAIN]?.[token]] *)
  TOKENS : string → string → option string;
}.
End Config.

(** ** bridgeRouter.js *)

Module BridgeRouter.
Import JS.

Record ChainIds := mkIds {
  evmId       : option Z;
  wormholeId  : option Z;
  axelarName  : option string;
  layerzeroId : option Z;
  acrossId    : option Z;
}.

Definition CHAIN_IDS (chain : string) : option ChainIds :=
  if String.eqb chain "ethereum" then
    Some (mkIds (Some 1%Z) (Some 2%Z) (Some "ethereum") (Some 101%Z) (Some 1%Z))
  else if String.eqb chain "base" then
    Some (mkIds (Some 8453%Z) (Some 30%Z) (Some "base") (Some 184%Z) (Some 8453%Z))
  else if String.eqb chain "celo" then
    Some (mkIds (Some 42220%Z) (Some 14%Z) (Some "celo") (Some 125%Z) None)
  else if String.eqb chain "polygon" then
    Some (mkIds (Some 137%Z) (Some 5%Z) (Some "polygon") (Some 109%Z) (Some 137%Z))
  else if String.eqb chain "arbitrum" then
    Some (mkIds (Some 42161%Z) (Some 23%Z) (Some "arbitrum") (Some 110%Z) (Some 42161%Z))
  else if String.eqb chain "optimism" then
    Some (mkIds (Some 10%Z) (Some 24%Z) (Some "optimism") (Some 111%Z) (Some 10%Z))
  else if String.eqb chain "solana" then
    Some (mkIds None (Some 1%Z) None None None)
  else if String.eqb chain "bnb" then
    Some (mkIds (Some 56%Z) (Some 4%Z) (Some "binance") (Some 102%Z) None)
  else None.

(** A normalized bridge quote.  [rawQuote] and [note] are opaque payloads
    that no modelled code reads; they are left out. *)
Record Quote := mkQuote {
  bridge           : string;
  feeUSD           : Q;
  estimatedMinutes : Q;
  successRate      : Q;
  liquidityUSD     : Q;
  executionMethod  : string;
  executionReady   : bool;
}.

(** The parameter object of [getBestBridgeRoute]. *)
Record Request := mkRequest {
  fromChain : string;
  toChain   : string;
  token     : string;
  amount    : Q;
  priority  : option string;
}.

(** Decoded bodies of the providers' replies.  A field of type [option Q]
    is [Some q] for a truthy JSON value that [parseFloat] reads as the
    number [q] and [None] for a missing or falsy one.  A quote holds
    numbers, as the convention above has it: a reply with a truthy field
    that [parseFloat] does not read as a number (the quote built from it
    would hold [NaN]) is outside these types, and no statement below
    speaks of one. *)
Record AcrossData := mkAcross {
  relayFeePct : Q; capitalFeePct : Q; totalRelayFee_total : option Q }.
Record WormholeData := mkWormhole { fee_usd : option Q; liquidity : option Q }.
Record AxelarData := mkAxelar { fee_total : option Q }.
Record CelerData := mkCeler { err : bool; fee : option Q; liq_amt : option Q }.

(** The replies of the four remote quoting services to one request. *)
Record Replies := mkReplies {
  across   : Http AcrossData;
  wormhole : Http WormholeData;
  axelar   : Http AxelarData;
  celer    : Http CelerData;
}.

(** [try { body } catch (err) { return null; }] *)
Definition catch_null {A} (body : res (option A)) : option A :=
  match body with Ret v => v | Throw _ => None end.

Section Providers.
Variable config : Config.t.

(** The providers.  What they compute between the early returns and the
    request (the amount in token units, the URL) cannot throw on a finite
    amount and only shapes the request; it is left out. *)
Definition getAcrossQuote (rq : Request) (reply : Http AcrossData) : option Quote :=
  catch_null (
    let fromChainId := CHAIN_IDS (fromChain rq) ≫= acrossId in
    let toChainId   := CHAIN_IDS (toChain rq) ≫= acrossId in
    if negb (truthyZ fromChainId) || negb (truthyZ toChainId) then Ret None else
    let inputToken  := Config.TOKENS config (toUpperCase (fromChain rq)) (token rq) in
    let outputToken := Config.TOKENS config (toUpperCase (toChain rq)) (token rq) in
    if negb (truthyS inputToken) || negb (truthyS outputToken) then Ret None else
    match reply with
    | NetError e => Throw e
    | NotOk => Ret None
    | Ok data =>
        let feeUSD := (relayFeePct data * amount rq / 100)%Q in
        let capitalFeeUSD := (capitalFeePct data * amount rq / 100)%Q in
        let totalFeeUSD := (feeUSD + capitalFeeUSD)%Q in
        Ret (Some {|
          bridge := "Across";
          feeUSD := totalFeeUSD;
          estimatedMinutes := 2;
          successRate := 0.98;
          liquidityUSD := (default 999999 (totalRelayFee_total data) / 1000000)%Q;
          executionMethod := "across_relay";
          executionReady := false;
        |})
    end).

Definition getWormholeQuote (rq : Request) (reply : Http WormholeData) : option Quote :=
  catch_null (
    let fromId := CHAIN_IDS (fromChain rq) ≫= wormholeId in
    let toId   := CHAIN_IDS (toChain rq) ≫= wormholeId in
    if negb (truthyZ fromId) || negb (truthyZ toId) then Ret None else
    match reply with
    | NetError e => Throw e
    | NotOk =>
        Ret (Some {|
          bridge := "Wormhole";
          feeUSD := (amount rq * 0.001 + 0.5)%Q;
          estimatedMinutes := 15;
          successRate := 0.97;
          liquidityUSD := 10000000;
          executionMethod := "wormhole_ntt";
          executionReady := true;
        |})
    | Ok data =>
        Ret (Some {|
          bridge := "Wormhole";
          feeUSD := default (amount rq * 0.001 + 0.5)%Q (fee_usd data);
          estimatedMinutes := 15;
          successRate := 0.97;
          liquidityUSD := default 10000000%Q (liquidity data);
          executionMethod := "wormhole_ntt";
          executionReady := true;
        |})
    end).

Definition getAxelarQuote (rq : Request) (reply : Http AxelarData) : option Quote :=
  catch_null (
    let fromName := CHAIN_IDS (fromChain rq) ≫= axelarName in
    let toName   := CHAIN_IDS (toChain rq) ≫= axelarName in
    if negb (truthyS fromName) || negb (truthyS toName) then Ret None else
    match reply with
    | NetError e => Throw e
    | NotOk => Ret None
    | Ok data =>
        Ret (Some {|
          bridge := "Axelar";
          feeUSD := default (amount rq * 0.002)%Q (fee_total data);
          estimatedMinutes := 5;
          successRate := 0.96;
          liquidityUSD := 5000000;
          executionMethod := "axelar_gmp";
          executionReady := true;
        |})
    end).

Definition getCelerQuote (rq : Request) (reply : Http CelerData) : option Quote :=
  catch_null (
    let fromId := CHAIN_IDS (fromChain rq) ≫= evmId in
    let toId   := CHAIN_IDS (toChain rq) ≫= evmId in
    if negb (truthyZ fromId) || negb (truthyZ toId) then Ret None else
    let tokenAddr := Config.TOKENS config (toUpperCase (fromChain rq)) (token rq) in
    if negb (truthyS tokenAddr) then Ret None else
    match reply with
    | NetError e => Throw e
    | NotOk => Ret None
    | Ok data =>
        if err data then Ret None else
        Ret (Some {|
          bridge := "Celer";
          feeUSD := default (amount rq * 0.003)%Q (fee data);
          estimatedMinutes := 5;
          successRate := 0.95;
          liquidityUSD := (default 1000000 (liq_amt data) / 1000000)%Q;
          executionMethod := "celer_cbridge";
          executionReady := true;
        |})
    end).

Definition getLayerZeroQuote (rq : Request) : option Quote :=
  catch_null (
    let fromId := CHAIN_IDS (fromChain rq) ≫= layerzeroId in
    let toId   := CHAIN_IDS (toChain rq) ≫= layerzeroId in
    if negb (truthyZ fromId) || negb (truthyZ toId) then Ret None else
    let estimatedFee := (amount rq * 0.0006 + 0.45)%Q in
    Ret (Some {|
      bridge := "LayerZero/Stargate";
      feeUSD := estimatedFee;
      estimatedMinutes := 3;
      successRate := 0.97;
      liquidityUSD := 50000000;
      executionMethod := "layerzero_stargate";
      executionReady := true;
    |})).

(** The balanced score, in the order the source computes it. *)
Definition score (a : Quote) : Q :=
  (feeUSD a * 0.4 + estimatedMinutes a * 0.4 + (1 - successRate a) * 100 * 0.2)%Q.

(** The comparator handed to [sort] by [rankQuotes]. *)
Definition rankCompare (priority : string) (a b : Quote) : Q :=
  if String.eqb priority "cheapest" then (feeUSD a - feeUSD b)%Q
  else if String.eqb priority "fastest" then (estimatedMinutes a - estimatedMinutes b)%Q
  else if String.eqb priority "safest" then (successRate b - successRate a)%Q
  else (score a - score b)%Q.

Definition rankQuotes (quotes : list Quote) (priority : string) : list Quote :=
  JS.sort (rankCompare priority) quotes.

Inductive Warning :=
| NoSupportedRoute (token fromChain toChain : string)
| SdkNotInstalled (bridges : list string)
| LowLiquidity (bridge : string) (liquidityUSD : Q)
| HighFee (bridge : string) (feeUSD : Q) (percent : jsnum).

Record Routes := mkRoutes {
  best     : option Quote;
  all      : list Quote;
  warnings : list Warning;
}.

Definition fulfilled_value {A} (q : Settled (option A)) : option A :=
  match q with Fulfilled (Some v) => Some v | _ => None end.

Definition getBestBridgeRoute (rq : Request) (net : Replies) : Routes :=
  let priority := default "cheapest" (priority rq) in
  let quotes : list (Settled (option Quote)) := [
    Fulfilled (getAcrossQuote rq (across net));
    Fulfilled (getWormholeQuote rq (wormhole net));
    Fulfilled (getAxelarQuote rq (axelar net));
    Fulfilled (getCelerQuote rq (celer net));
    Fulfilled (getLayerZeroQuote rq)
  ] in
  (* Filter out failed/null quotes *)
  let allQuotes := omap fulfilled_value quotes in
  (* Only offer bridges that can actually execute *)
  let validQuotes := List.filter (λ q, Bool.eqb (executionReady q) true) allQuotes in
  (* If no ready bridges, fall back to all quotes but warn *)
  let useQuotes :=
    if Nat.ltb 0 (length validQuotes) then validQuotes else allQuotes in
  if Nat.eqb (length useQuotes) 0 then
    {| best := None;
       all := [];
       warnings := [NoSupportedRoute (token rq) (fromChain rq) (toChain rq)] |}
  else
  (* Flag not-yet-ready bridges *)
  let notReady := List.filter (λ q, Bool.eqb (executionReady q) false) allQuotes in
  let warnings1 :=
    if Nat.ltb 0 (length notReady) && Nat.eqb (length validQuotes) 0
    then [SdkNotInstalled (bridge <$> notReady)] else [] in
  (* Flag low liquidity *)
  let warnings2 :=
    flat_map (λ q,
      (if JS.ltb (liquidityUSD q) (amount rq * 2)
       then [LowLiquidity (bridge q) (liquidityUSD q)] else []) ++
      (if JS.gtb (feeUSD q) (amount rq * 0.05)
       then [HighFee (bridge q) (feeUSD q) (mul_pos (div (feeUSD q) (amount rq)) 100)]
       else [])) useQuotes in
  (* Score and rank *)
  let ranked := rankQuotes useQuotes priority in
  {| best := head ranked;
     all := ranked;
     warnings := warnings1 ++ warnings2 |}.
End Providers.

End BridgeRouter.

(** ** Intents, as [parseIntent] delivers them *)

Module Intent.
(** TYPE 1 of the parser's schema.  [toChain] is the field of the parsed
    object; [processTransfer] overwrites it with the detected chain. *)
Record Transfer := mkTransfer {
  toAddress   : option string;
  token       : string;
  amount      : Q;
  fromChain   : option string;
  toChain     : option string;
  priority    : option string;
  rawMessage  : option string;
  fromAddress : option string;
}.

(** TYPE 2. *)
Record Alert := mkAlert {
  condition   : string;
  threshold   : option Q;
  alertToken  : option string;
  targetChain : string;
  action      : string;
  alertFromChain : option string;
  alertAmount : option Q;
}.

(** TYPE 3. *)
Record Swap := mkSwap {
  fromToken     : string;
  toToken       : string;
  swapFromChain : option string;
  swapToChain   : option string;
  swapAmount    : Q;
  swapToAddress : option string;
  swapPriority  : option string;
}.

(** TYPE 4. *)
Record Query := mkQuery {
  queryType  : string;
  queryToken : string;
  queryChain : string;
}.

(** TYPE 5. *)
Record Clarification := mkClarification { missingFields : list string }.

Inductive t :=
| transfer (i : Transfer)
| swap_and_transfer (i : Swap)
| alert (i : Alert)
| query (i : Query)
| clarification_needed (i : Clarification)
| other (type : string).
End Intent.

(** ** validator.js *)

Module Validator.
Import JS.
Import ChainDetector.

(** [TOKEN_SUPPORT_MATRIX[chain]], with the keys in source order.  The
    chain looked up is a detected chain or, when detection fails (and the
    verdict is invalid whatever the lookup gives), [intent.toChain]. *)
Definition TOKEN_SUPPORT_MATRIX (chain : string) : option (list (string * bool)) :=
  let row (usdc usdt usdm celo : bool) :=
    Some [("USDC", usdc); ("USDT", usdt); ("USDm", usdm); ("CELO", celo)] in
  if String.eqb chain "solana" then row true true false false
  else if String.eqb chain "base" then row true true false false
  else if String.eqb chain "ethereum" then row true true false false
  else if String.eqb chain "polygon" then row true true false false
  else if String.eqb chain "arbitrum" then row true true false false
  else if String.eqb chain "celo" then row true true true true
  else if String.eqb chain "optimism" then row true true false false
  else if String.eqb chain "bnb" then row true true false false
  else if String.eqb chain "tron" then row false true false false
  else None.

(** The properties every object literal inherits from [Object.prototype].
    Each holds a function or an object: a truthy value. *)
Definition OBJECT_PROTOTYPE_KEYS : list string :=
  ["constructor"; "hasOwnProperty"; "isPrototypeOf"; "propertyIsEnumerable";
   "toLocaleString"; "toString"; "valueOf"; "__proto__"; "__defineGetter__";
   "__defineSetter__"; "__lookupGetter__"; "__lookupSetter__"].

Definition inherited (key : string) : bool :=
  existsb (String.eqb key) OBJECT_PROTOTYPE_KEYS.

(** [tokenSupport[token]], read for its truthiness: the row's own entry
    for the token, and without one what the row inherits under that
    name. *)
Fixpoint supports (tokenSupport : list (string * bool)) (token : string) : bool :=
  match tokenSupport with
  | [] => inherited token
  | (k, v) :: rest => if String.eqb k token then v else supports rest token
  end.

(** [THRESHOLDS] *)
Definition HIGH_FEE_PERCENT : Q := 5.
Definition LOW_LIQUIDITY_RATIO : Q := 2.
Definition MIN_TRANSFER_USD : Q := 1.
Definition MAX_SINGLE_TX_USD : Q := 50000.

(** The texts pushed to [errors], [warnings] and [suggestions], one
    constructor per template, holding the interpolated values. *)
Inductive Msg :=
| CannotIdentifyChain (addressStart : string)
| CopyFullAddress
| AddressValidationFailed (reason : option Reason)
| TokenSupportUnavailable (chain : option string)
| TokenNotSupported (token : string) (chain : option string)
| YouCanUse (chain : option string) (supported : list string)
| AmountMustBePositive
| MinimumTransfer (minimum : Q)
| LargeTransfer (amount : Q)
| NoBridgeRoute (token fromChain : string) (chain : option string)
| TryDifferentToken
| FeeUnusuallyHigh (feePercent : jsnum) (feeUSD : Q)
| ConsiderWaiting
| LowLiquidityOn (bridge : string) (liquidityUSD amount : Q)
| TryDifferentBridge
| LowSuccessRate (bridge : string) (successRate : Q)
| USDmOnlyOnCelo
| SwapUSDmFirst
| SameAddress
| SelfTransferCostsGas.

(** The three local arrays the checks push to. *)
Module Arrays.
Record t := mk {
  errors      : list Msg;
  warnings    : list Msg;
  suggestions : list Msg;
}.
End Arrays.

Definition push_error (m : Msg) (l : Arrays.t) : Arrays.t :=
  Arrays.mk (Arrays.errors l ++ [m]) (Arrays.warnings l) (Arrays.suggestions l).
Definition push_warning (m : Msg) (l : Arrays.t) : Arrays.t :=
  Arrays.mk (Arrays.errors l) (Arrays.warnings l ++ [m]) (Arrays.suggestions l).
Definition push_suggestion (m : Msg) (l : Arrays.t) : Arrays.t :=
  Arrays.mk (Arrays.errors l) (Arrays.warnings l) (Arrays.suggestions l ++ [m]).

(** [if (c) { ... }] over the arrays. *)
Definition when (c : bool) (f : Arrays.t → Arrays.t) (l : Arrays.t) : Arrays.t :=
  if c then f l else l.

Inductive Summary :=
| AllChecksPassed
| Sections (errors warnings suggestions : list Msg).

Definition buildValidationSummary (errors warnings suggestions : list Msg) : Summary :=
  if Nat.eqb (length errors) 0 && Nat.eqb (length warnings) 0 then AllChecksPassed
  else Sections errors warnings suggestions.

Record Verdict := mkVerdict {
  valid         : bool;
  detectedChain : ChainInfo;
  errors        : list Msg;
  warnings      : list Msg;
  suggestions   : list Msg;
  summary       : Summary;
}.

Definition validateTransfer (intent : Intent.Transfer)
    (bridgeQuote : option BridgeRouter.Quote) : res Verdict :=
  let token := Intent.token intent in
  let amount := Intent.amount intent in
  let fromChain := default "celo" (Intent.fromChain intent) in
  let toChain := Intent.toChain intent in
  match Intent.toAddress intent with
  | None => Throw "TypeError: Cannot read properties of undefined (reading 'trim')"
  | Some toAddress =>
    let l := Arrays.mk [] [] [] in
    (* 1. Address format validation *)
    let detectedChain :=
      detectChainFromAddress toAddress (default "" (Intent.rawMessage intent)) in
    let unknown := String.eqb (chain detectedChain) "unknown" in
    let l := when unknown (λ l,
      push_suggestion CopyFullAddress
        (push_error (CannotIdentifyChain (slice0 10 toAddress)) l)) l in
    let l := when (negb unknown) (λ l,
      let addrCheck := validateAddressForChain toAddress (chain detectedChain) in
      when (negb (ChainDetector.valid addrCheck))
        (push_error (AddressValidationFailed (reason addrCheck))) l) l in
    (* 2. Token support check *)
    let chain := if negb unknown then Some (chain detectedChain) else toChain in
    let tokenSupport := chain ≫= TOKEN_SUPPORT_MATRIX in
    let l :=
      match tokenSupport with
      | None => push_warning (TokenSupportUnavailable chain) l
      | Some tokenSupport =>
          when (negb (supports tokenSupport token)) (λ l,
            let l := push_error (TokenNotSupported token chain) l in
            let supported := fst <$> List.filter snd tokenSupport in
            when (Nat.ltb 0 (length supported))
              (push_suggestion (YouCanUse chain supported)) l) l
      end in
    (* 3. Amount validation *)
    let l := when (negb (truthy amount) || leb amount 0)
               (push_error AmountMustBePositive) l in
    let l := when (ltb amount MIN_TRANSFER_USD)
               (push_error (MinimumTransfer MIN_TRANSFER_USD)) l in
    let l := when (gtb amount MAX_SINGLE_TX_USD)
               (push_warning (LargeTransfer amount)) l in
    (* 4. Bridge and fee validation *)
    let l :=
      match bridgeQuote with
      | None =>
          push_suggestion TryDifferentToken
            (push_error (NoBridgeRoute token fromChain chain) l)
      | Some bridgeQuote =>
          let feePercent := mul_pos (div (BridgeRouter.feeUSD bridgeQuote) amount) 100 in
          let l := when (gt feePercent HIGH_FEE_PERCENT) (λ l,
            push_suggestion ConsiderWaiting
              (push_warning
                 (FeeUnusuallyHigh feePercent (BridgeRouter.feeUSD bridgeQuote)) l)) l in
          let l := when (ltb (BridgeRouter.liquidityUSD bridgeQuote)
                           (amount * LOW_LIQUIDITY_RATIO)) (λ l,
            push_suggestion TryDifferentBridge
              (push_warning
                 (LowLiquidityOn (BridgeRouter.bridge bridgeQuote)
                    (BridgeRouter.liquidityUSD bridgeQuote) amount) l)) l in
          when (ltb (BridgeRouter.successRate bridgeQuote) 0.95)
            (push_warning
               (LowSuccessRate (BridgeRouter.bridge bridgeQuote)
                  (BridgeRouter.successRate bridgeQuote))) l
      end in
    (* 5. USDm special case *)
    let l := when (String.eqb token "USDm" && negb (bool_decide (chain = Some "celo")))
      (λ l, push_suggestion SwapUSDmFirst (push_error USDmOnlyOnCelo l)) l in
    (* 6. Self-transfer check *)
    let fromAddr := toLowerCase <$> Intent.fromAddress intent in
    let toAddr := toLowerCase toAddress in
    let l := when (truthyS fromAddr && truthyS (Some toAddr)
                   && bool_decide (fromAddr = Some toAddr)
                   && bool_decide (Some fromChain = chain))
      (λ l, push_suggestion SelfTransferCostsGas (push_warning SameAddress l)) l in
    Ret {|
      valid := Nat.eqb (length (Arrays.errors l)) 0;
      detectedChain := detectedChain;
      errors := Arrays.errors l;
      warnings := Arrays.warnings l;
      suggestions := Arrays.suggestions l;
      summary :=
        buildValidationSummary (Arrays.errors l) (Arrays.warnings l) (Arrays.suggestions l);
    |}
  end.

End Validator.

(** ** alertEngine.js (price monitor and alert engine) *)

Module AlertEngine.
Import JS.

(** *** Price monitor *)

Record Fees := mkFees {
  minFeeUSD     : option Q;
  maxFeeUSD     : option Q;
  averageFeeUSD : option Q;
  bridges       : list (string * Q * Q);
}.

(** [Math.min(...fees)] and [Math.max(...fees)] of a non-empty array of
    numbers. *)
Definition minimum (x : Q) (xs : list Q) : Q := foldr Qmin x xs.
Definition maximum (x : Q) (xs : list Q) : Q := foldr Qmax x xs.

Definition getCurrentBridgeFees (config : Config.t)
    (fromChain toChain token : string) (amount : Q)
    (net : BridgeRouter.Replies) : Fees :=
  let quotes :=
    BridgeRouter.all
      (BridgeRouter.getBestBridgeRoute config
         (BridgeRouter.mkRequest fromChain toChain token amount (Some "cheapest")) net) in
  match BridgeRouter.feeUSD <$> quotes with
  | [] => mkFees None None None []
  | fee :: fees =>
      mkFees (Some (minimum fee fees)) (Some (maximum fee fees))
             (Some (foldl Qplus 0 (fee :: fees) / inject_Z (Z.of_nat (length (fee :: fees))))%Q)
             ((λ q, (BridgeRouter.bridge q, BridgeRouter.feeUSD q,
                     BridgeRouter.estimatedMinutes q)) <$> quotes)
  end.

Definition COINGECKO_IDS (symbol : string) : option string :=
  if String.eqb symbol "USDT" then Some "tether"
  else if String.eqb symbol "USDC" then Some "usd-coin"
  else if String.eqb symbol "CELO" then Some "celo"
  else if String.eqb symbol "USDm" then Some "tether"
  else if String.eqb symbol "ETH" then Some "ethereum"
  else if String.eqb symbol "MATIC" then Some "matic-network"
  else if String.eqb symbol "SOL" then Some "solana"
  else None.

(** [getTokenPrice].  [reply] is what the request to the price service
    yields: a thrown error, or the value of [data[coinId]?.usd || null]. *)
Definition getTokenPrice (tokenSymbol : option string) (reply : res (option Q))
    : res (option Q) :=
  match tokenSymbol with
  | None => Throw "TypeError: Cannot read properties of undefined (reading 'toUpperCase')"
  | Some tokenSymbol =>
      match COINGECKO_IDS (toUpperCase tokenSymbol) with
      | None => Ret None
      | Some coinId =>
          match reply with
          | Ret price => Ret price
          | Throw _ => Ret None
          end
      end
  end.

(** *** Alert engine *)

(** An entry of [activeAlerts]: the spread alert intent and the fields
    [registerAlert] and the polling loop add. *)
Record Alert := mkAlert {
  intent      : Intent.Alert;
  sessionId   : string;
  alertId     : string;
  triggered   : bool;
  createdAt   : N;
  triggeredAt : option N;
}.

(** [activeAlerts] is a [Map]: it iterates in insertion order, and [set]
    on a key that is present replaces the value where it stands. *)
Fixpoint map_set {V} (k : string) (v : V) (m : list (string * V)) : list (string * V) :=
  match m with
  | [] => [(k, v)]
  | (k', v') :: rest =>
      if String.eqb k' k then (k, v) :: rest else (k', v') :: map_set k v rest
  end.

(** [Map.prototype.delete]: the new map and whether the key was there. *)
Fixpoint map_delete {V} (k : string) (m : list (string * V)) : list (string * V) * bool :=
  match m with
  | [] => ([], false)
  | (k', v') :: rest =>
      if String.eqb k' k then (rest, true)
      else let '(rest', found) := map_delete k rest in ((k', v') :: rest', found)
  end.

(** [registerAlert].  The clock is read twice: [now] for the id, [now']
    for [createdAt]. *)
Definition registerAlert (sessionId : string) (alertIntent : Intent.Alert) (now now' : N)
    (activeAlerts : list (string * Alert)) : string * list (string * Alert) :=
  let alertId := sessionId +:+ "_" +:+ pretty now in
  (alertId,
   map_set alertId
     {| intent := alertIntent; sessionId := sessionId; alertId := alertId;
        triggered := false; createdAt := now'; triggeredAt := None |}
     activeAlerts).

(** What the outside world answers while one alert is checked. *)
Record Probe := mkProbe {
  net       : BridgeRouter.Replies;
  coingecko : res (option Q);
  (** [parseFloat(gasPrices[chain].transferCostUSD)], if the chain is there *)
  gasPrices : string → option Q;
}.

(** [x < threshold] and [x > threshold]; a missing threshold compares
    false. *)
Definition below (x : Q) (threshold : option Q) : bool :=
  match threshold with Some t => ltb x t | None => false end.
Definition above (x : Q) (threshold : option Q) : bool :=
  match threshold with Some t => gtb x t | None => false end.

(** [x || d] on an optional number. *)
Definition or_default (x : option Q) (d : Q) : Q :=
  match x with Some q => if truthy q then q else d | None => d end.
Definition or_defaultS (x : option string) (d : string) : string :=
  if truthyS x then default d x else d.

Definition checkPriceAlert (config : Config.t) (alert : Alert) (world : Probe) : res bool :=
  if triggered alert then Ret false else
  let i := intent alert in
  let condition := Intent.condition i in
  if String.eqb condition "fee_below" then
    let fees := getCurrentBridgeFees config
                  (or_defaultS (Intent.alertFromChain i) "celo")
                  (Intent.targetChain i)
                  (or_defaultS (Intent.alertToken i) "USDC")
                  (or_default (Intent.alertAmount i) 100)
                  (net world) in
    Ret (match minFeeUSD fees with
         | Some m => below m (Intent.threshold i)
         | None => false
         end)
  else if String.eqb condition "price_below" then
    match getTokenPrice (Intent.alertToken i) (coingecko world) with
    | Throw e => Throw e
    | Ret price =>
        Ret (match price with Some p => below p (Intent.threshold i) | None => false end)
    end
  else if String.eqb condition "price_above" then
    match getTokenPrice (Intent.alertToken i) (coingecko world) with
    | Throw e => Throw e
    | Ret price =>
        Ret (match price with Some p => above p (Intent.threshold i) | None => false end)
    end
  else if String.eqb condition "gas_below" then
    Ret (match gasPrices world (Intent.targetChain i) with
         | Some cost => below cost (Intent.threshold i)
         | None => false
         end)
  else Ret false.

(** [alert.triggered = true; alert.triggeredAt = ...] *)
Definition mark_triggered (now : N) (alert : Alert) : Alert :=
  mkAlert (intent alert) (sessionId alert) (alertId alert) true (createdAt alert) (Some now).

(** *** The polling loop

    One run of the interval callback of [startAlertPolling].  The
    callback [onAlertTriggered] acts on the rest of the program's state,
    of type [W]; like the one the server installs, it does not write to
    [activeAlerts].  [calls] lists the alert ids the callback was invoked
    with, in order.  An error thrown by a check or by the callback ends
    the run: the [for] loop sits in an [async] function with no handler. *)
Section Polling.
Context {W : Type}.
Variable config : Config.t.
Variable onAlertTriggered : string → Alert → W → res unit * W.
(** What the world answers when the alert with a given id is checked. *)
Variable probe : string → Probe.
Variable now : N.

Record Run := mkRun {
  outcome      : res unit;
  activeAlerts : list (string * Alert);
  world        : W;
  calls        : list string;
}.

(** Put back an entry the loop has passed. *)
Definition passed (entry : string * Alert) (call : list string) (r : Run) : Run :=
  mkRun (outcome r) (entry :: activeAlerts r) (world r) (call ++ calls r).

Fixpoint poll (entries : list (string * Alert)) (w : W) : Run :=
  match entries with
  | [] => mkRun (Ret ()) [] w []
  | (alertId, alert) :: rest =>
      if triggered alert then passed (alertId, alert) [] (poll rest w)
      else
        match checkPriceAlert config alert (probe alertId) with
        | Throw e => mkRun (Throw e) entries w []
        | Ret false => passed (alertId, alert) [] (poll rest w)
        | Ret true =>
            let alert' := mark_triggered now alert in
            match onAlertTriggered alertId alert' w with
            | (Throw e, w') => mkRun (Throw e) ((alertId, alert') :: rest) w' [alertId]
            | (Ret _, w') => passed (alertId, alert') [alertId] (poll rest w')
            end
        end
  end.
End Polling.

Definition getAlertsForSession (sessionId : string) (activeAlerts : list (string * Alert))
    : list Alert :=
  List.filter (λ a, String.eqb (AlertEngine.sessionId a) sessionId) (snd <$> activeAlerts).

Definition cancelAlert (alertId : string) (activeAlerts : list (string * Alert))
    : list (string * Alert) * bool :=
  map_delete alertId activeAlerts.

End AlertEngine.

(** ** orchestrator.js *)

Module Orchestrator.
Import JS.
Import ChainDetector.

(** The session states, and ["error"], which only replies carry. *)
Inductive State := idle | awaiting_confirmation | executing | error.

Global Instance State_eq_dec : EqDecision State.
Proof. solve_decision. Defined.

Record Turn := mkTurn { role : string; content : string }.

Record PendingTransaction := mkPending {
  intent      : Intent.Transfer;
  bridgeQuote : BridgeRouter.Quote;
  chainInfo   : ChainInfo;
  validation  : Validator.Verdict;
  allQuotes   : list BridgeRouter.Quote;
}.

Record SessionAlert := mkSessionAlert {
  id             : string;
  alert          : Intent.Alert;
  alertCreatedAt : N;
}.

Record Session := mkSession {
  sessionId          : string;
  state              : State;
  walletAddress      : option string;
  connectedChain     : Z;
  history            : list Turn;
  pendingTransaction : option PendingTransaction;
  alerts             : list SessionAlert;
  createdAt          : N;
}.

Record WalletInfo := mkWalletInfo { address : option string; chainId : option Z }.

Definition createSession (sessionId : string) (walletInfo : WalletInfo) (now : N) : Session :=
  {| sessionId := sessionId;
     state := idle;
     walletAddress := if truthyS (address walletInfo) then address walletInfo else None;
     connectedChain := if truthyZ (chainId walletInfo)
                       then default 42220%Z (chainId walletInfo) else 42220%Z;
     history := [];
     pendingTransaction := None;
     alerts := [];
     createdAt := now |}.

Record Receipt := mkReceipt {
  txHash           : string;
  receiptBridge    : string;
  receiptAmount    : Q;
  receiptToken     : string;
  receiptFromChain : string;
  receiptToChain   : option string;
  receiptToAddress : option string;
  receiptFeeUSD    : Q;
  estimatedArrival : Q;
  timestamp        : N;
}.

(** The [message] (and [data]) of a reply, one constructor per text. *)
Inductive Reply :=
| Welcome
| SomethingWentWrong (error : string)
| WhichChain
| UnsupportedChain (chainInfo : ChainInfo)
| WormholeSdkMissing (token : string) (bridgeWarnings : list BridgeRouter.Warning)
| NoWorkingRoute (token toChain : string) (bridgeWarnings : list BridgeRouter.Warning)
| ValidationFailed (errorMsg : string) (validation : Validator.Verdict)
| FeeTooHigh (bridgeQuote : BridgeRouter.Quote) (feeRatio : jsnum) (amount : Q)
| Preview (fullMessage : string) (chainDetected : string)
    (bestBridge : BridgeRouter.Quote) (alternativeRoutes : list BridgeRouter.Quote)
    (validation : Validator.Verdict)
| Cancelled
| ReplyYesOrNo
| TransferSubmitted (receipt : Receipt)
| TransferFailed (explanation error : string)
| NoSwapRoute (fromToken toToken : string)
| AlertRegistered (alertId : string) (alert : Intent.Alert)
| NoRouteFor (token chain : string)
| CurrentFees (token chain : string) (best : BridgeRouter.Quote)
| WhatToKnow
| NeedAddressAndAmount
| NeedAddress
| NeedAmount
| NeedToken
| NeedMoreDetail.

Record Response := mkResponse { message : Reply; replyState : State }.

(** What the dispatcher does to the outside world, in order. *)
Inductive Effect :=
| Dispatch (sessionId : string) (pending : PendingTransaction)
| Approve (spender : string) (amount : Q)
| BridgeTransfer (executionMethod : string) (bridgeQuote : BridgeRouter.Quote)
| Emit (room event : string).

(** What the signing and broadcast capability answers during one
    [executeTransfer]. *)
Record Chain := mkChain {
  wallet     : res unit;     (* provider and wallet construction from [config.RPC] *)
  parseUnits : res unit;     (* [ethers.parseUnits(amount.toString(), 6)] *)
  approve    : res string;   (* [approve] and [wait], the hash *)
  bridgeTx   : res string;   (* the provider-specific transfer, the hash *)
}.

Record SwapRoute := mkSwapRoute { priceImpact : Q }.

(** Everything the outside world answers during one [handleUserMessage]. *)
Record Env := mkEnv {
  now                        : N;
  parseIntent                : res Intent.t;
  getSwapRoute               : res (option SwapRoute);
  net                        : BridgeRouter.Replies;
  explainError               : res string;
  generateTransactionPreview : res string;
  chain                      : Chain;
}.

(** How template literals render the structured warnings. *)
Record Templates := mkTemplates {
  warningText : BridgeRouter.Warning → string;
  msgText     : Validator.Msg → string;
}.

(** *** Session-mutating code: state and exceptions *)

Record St := mkSt { session : Session; trace : list Effect }.

Definition M (A : Type) : Type := St → res A * St.

Global Instance M_ret : MRet M := λ A a st, (Ret a, st).
Global Instance M_bind : MBind M := λ A B f m st,
  match m st with
  | (Ret a, st') => f a st'
  | (Throw e, st') => (Throw e, st')
  end.

Definition throw {A} (e : string) : M A := λ st, (Throw e, st).
Definition lift {A} (r : res A) : M A := λ st, (r, st).
Definition get : M Session := λ st, (Ret (session st), st).
Definition update (f : Session → Session) : M unit :=
  λ st, (Ret (), mkSt (f (session st)) (trace st)).
Definition perform (e : Effect) : M unit :=
  λ st, (Ret (), mkSt (session st) (trace st ++ [e])).

(** [try { body } catch (error) { handler }] *)
Definition try_catch {A} (body : M A) (handler : string → M A) : M A := λ st,
  match body st with
  | (Ret a, st') => (Ret a, st')
  | (Throw e, st') => handler e st'
  end.

(** [try { body } catch (error) { handler }] with a handler that cannot
    throw. *)
Definition catch_all {A} (body : M A) (handler : string → St → A * St) : St → A * St :=
  λ st,
  match body st with
  | (Ret a, st') => (a, st')
  | (Throw e, st') => handler e st'
  end.

Definition set_state (s : State) (x : Session) : Session :=
  mkSession (sessionId x) s (walletAddress x) (connectedChain x) (history x)
    (pendingTransaction x) (alerts x) (createdAt x).
Definition set_pendingTransaction (p : option PendingTransaction) (x : Session) : Session :=
  mkSession (sessionId x) (state x) (walletAddress x) (connectedChain x) (history x)
    p (alerts x) (createdAt x).
Definition push_history (t : Turn) (x : Session) : Session :=
  mkSession (sessionId x) (state x) (walletAddress x) (connectedChain x) (history x ++ [t])
    (pendingTransaction x) (alerts x) (createdAt x).
Definition push_alert (a : SessionAlert) (x : Session) : Session :=
  mkSession (sessionId x) (state x) (walletAddress x) (connectedChain x) (history x)
    (pendingTransaction x) (alerts x ++ [a]) (createdAt x).

Definition set_toChain (toChain : string) (i : Intent.Transfer) : Intent.Transfer :=
  Intent.mkTransfer (Intent.toAddress i) (Intent.token i) (Intent.amount i)
    (Intent.fromChain i) (Some toChain) (Intent.priority i) (Intent.rawMessage i)
    (Intent.fromAddress i).

Definition newline : string := String "010"%char "".

Section WithConfig.
Variable config : Config.t.
Variable text : Templates.

(** Processes a standard transfer intent. *)
Definition processTransfer (env : Env) (intent : Intent.Transfer) : M Response :=
  let token := Intent.token intent in
  let amount := Intent.amount intent in
  let fromChain := default "celo" (Intent.fromChain intent) in
  let priority := Intent.priority intent in
  session ← get;
  match Intent.toAddress intent with
  | None => throw "TypeError: Cannot read properties of undefined (reading 'trim')"
  | Some toAddress =>
  (* Step 1: detect destination chain *)
  let chainInfo :=
    detectChainFromAddress toAddress (String.concat " " (content <$> history session)) in
  let toChain := ChainDetector.chain chainInfo in
  if String.eqb toChain "unknown" then mret (mkResponse WhichChain idle)
  else if unsupported chainInfo then mret (mkResponse (UnsupportedChain chainInfo) idle)
  else
  (* Step 2: get bridge routes *)
  let routes :=
    BridgeRouter.getBestBridgeRoute config
      (BridgeRouter.mkRequest fromChain toChain token amount priority) (net env) in
  let allQuotes := BridgeRouter.all routes in
  let bridgeWarnings := BridgeRouter.warnings routes in
  (* Step 2b: check if any executable bridge was found *)
  match BridgeRouter.best routes with
  | None =>
      if String.eqb toChain "solana"
      then mret (mkResponse (WormholeSdkMissing token bridgeWarnings) idle)
      else mret (mkResponse (NoWorkingRoute token toChain bridgeWarnings) idle)
  | Some bridgeQuote =>
  (* Step 3: validate *)
  validation ← lift (Validator.validateTransfer (set_toChain toChain intent) (Some bridgeQuote));
  if negb (Validator.valid validation) then
    errorMsg ← lift (explainError env);
    mret (mkResponse (ValidationFailed errorMsg validation) idle)
  else
  (* Step 3b: hard stop if the fee is more than 25% of the transfer amount *)
  let feeRatio := div (BridgeRouter.feeUSD bridgeQuote) amount in
  if gt feeRatio 0.25 then
    mret (mkResponse (FeeTooHigh bridgeQuote feeRatio amount) idle)
  else
  (* Step 4: generate preview for user confirmation *)
  preview ← lift (generateTransactionPreview env);
  let warnings := Validator.warnings validation in
  let suggestions := Validator.suggestions validation in
  let fullMessage := preview in
  let fullMessage :=
    if Nat.ltb 0 (length bridgeWarnings) || Nat.ltb 0 (length warnings) then
      let allWarnings := (warningText text <$> bridgeWarnings) ++ (msgText text <$> warnings) in
      fullMessage +:+ newline +:+ newline +:+ String.concat newline allWarnings
    else fullMessage in
  let fullMessage :=
    if Nat.ltb 0 (length suggestions) then
      fullMessage +:+ newline +:+ newline +:+ "💡 "
        +:+ String.concat (newline +:+ "💡 ") (msgText text <$> suggestions)
    else fullMessage in
  (* Save pending transaction to session *)
  update (set_pendingTransaction (Some {|
    intent := set_toChain toChain intent;
    bridgeQuote := bridgeQuote;
    chainInfo := chainInfo;
    validation := validation;
    allQuotes := allQuotes |}));;
  update (set_state awaiting_confirmation);;
  update (push_history (mkTurn "assistant" fullMessage));;
  mret (mkResponse
          (Preview fullMessage toChain bridgeQuote (drop 1 allQuotes) validation)
          awaiting_confirmation)
  end
  end.

Definition getBridgeContractAddress (executionMethod chain : string) : option string :=
  if String.eqb executionMethod "across_relay" then
    if String.eqb chain "celo" then Some "ACROSS_SPOKE_POOL_CELO_ADDRESS"
    else if String.eqb chain "base" then Some "ACROSS_SPOKE_POOL_BASE_ADDRESS"
    else if String.eqb chain "ethereum" then Some "ACROSS_SPOKE_POOL_ETH_ADDRESS"
    else None
  else if String.eqb executionMethod "axelar_gmp" then
    if String.eqb chain "celo" then Some "0xe432150cce91c13a887f7D836923d5597adD8E31"
    else None
  else if String.eqb executionMethod "celer_cbridge" then
    if String.eqb chain "celo" then Some "CELER_CBRIDGE_CELO_ADDRESS" else None
  else None.

(** Executes the confirmed transaction. *)
Definition executeTransfer (env : Env) : M Response :=
  session ← get;
  match pendingTransaction session with
  | None => throw "TypeError: Cannot destructure property 'intent' of null"
  | Some pending =>
  perform (Dispatch (sessionId session) pending);;
  let intent := intent pending in
  let bridgeQuote := bridgeQuote pending in
  let token := Intent.token intent in
  let amount := Intent.amount intent in
  let toAddress := Intent.toAddress intent in
  let fromChain := default "celo" (Intent.fromChain intent) in
  let toChain := Intent.toChain intent in
  let method := BridgeRouter.executionMethod bridgeQuote in
  try_catch (
    (* wallet setup *)
    lift (wallet (chain env));;
    (* Step 1: approve token spending *)
    let tokenAddress := Config.TOKENS config (toUpperCase fromChain) token in
    if negb (truthyS tokenAddress) then throw "Token address not configured" else
    lift (parseUnits (chain env));;
    match getBridgeContractAddress method fromChain with
    | None => throw "Bridge contract address unknown"
    | Some bridgeContractAddr =>
    perform (Approve bridgeContractAddr amount);;
    _ ← lift (approve (chain env));
    (* Step 2: execute bridge transfer *)
    transferTxHash ←
      (if existsb (String.eqb method)
            ["across_relay"; "wormhole_ntt"; "axelar_gmp"; "celer_cbridge";
             "layerzero_stargate"]
       then perform (BridgeTransfer method bridgeQuote);; lift (bridgeTx (chain env))
       else throw "Execution method not implemented");
    (* Step 3: build receipt *)
    let receipt :=
      {| txHash := transferTxHash;
         receiptBridge := BridgeRouter.bridge bridgeQuote;
         receiptAmount := amount;
         receiptToken := token;
         receiptFromChain := fromChain;
         receiptToChain := toChain;
         receiptToAddress := toAddress;
         receiptFeeUSD := BridgeRouter.feeUSD bridgeQuote;
         estimatedArrival := BridgeRouter.estimatedMinutes bridgeQuote;
         timestamp := now env |} in
    update (set_state idle);;
    update (set_pendingTransaction None);;
    update (push_history (mkTurn "assistant" ("Transfer submitted: " +:+ transferTxHash)));;
    match toAddress with
    | None => throw "TypeError: Cannot read properties of undefined (reading 'slice')"
    | Some _ => mret (mkResponse (TransferSubmitted receipt) idle)
    end
    end)
  (λ error,
    update (set_state idle);;
    explanation ← lift (explainError env);
    mret (mkResponse (TransferFailed explanation error) Orchestrator.error))
  end.

(** The confirmation vocabulary. *)
Definition yesWords : list string :=
  ["yes"; "y"; "confirm"; "ok"; "sure"; "proceed"; "execute"; "go"].
Definition noWords : list string :=
  ["no"; "n"; "cancel"; "stop"; "abort"; "nevermind"].

Definition isYes (userMessage : string) : bool :=
  let msg := toLowerCase (trim userMessage) in
  some (λ w, includes msg w) yesWords.
Definition isNo (userMessage : string) : bool :=
  let msg := toLowerCase (trim userMessage) in
  some (λ w, includes msg w) noWords.

(** Handles YES/NO confirmation from user. *)
Definition handleConfirmation (env : Env) (userMessage : string) : M Response :=
  if isYes userMessage then
    update (set_state executing);;
    executeTransfer env
  else if isNo userMessage then
    update (set_state idle);;
    update (set_pendingTransaction None);;
    mret (mkResponse Cancelled idle)
  else
    mret (mkResponse ReplyYesOrNo awaiting_confirmation).

(** Handles swap + transfer. *)
Definition processSwapAndTransfer (env : Env) (intent : Intent.Swap) : M Response :=
  swapRoute ← lift (getSwapRoute env);
  match swapRoute with
  | None => mret (mkResponse (NoSwapRoute (Intent.fromToken intent) (Intent.toToken intent)) idle)
  | Some swapRoute =>
      (* Compose a new transfer intent with the swapped token *)
      let transferIntent :=
        {| Intent.toAddress := Intent.swapToAddress intent;
           Intent.token := Intent.toToken intent;
           Intent.amount := (Intent.swapAmount intent * (1 - priceImpact swapRoute))%Q;
           Intent.fromChain := Intent.swapFromChain intent;
           Intent.toChain := Intent.swapToChain intent;
           Intent.priority := Intent.swapPriority intent;
           Intent.rawMessage := None;
           Intent.fromAddress := None |} in
      processTransfer env transferIntent
  end.

(** Registers a conditional alert/trigger.  ([session.alerts] is an array
    from [createSession] on, so the guard that creates it does nothing.) *)
Definition registerAlert (env : Env) (intent : Intent.Alert) : M Response :=
  let alertId := "alert_" +:+ pretty (now env) in
  update (push_alert (mkSessionAlert alertId intent (now env)));;
  mret (mkResponse (AlertRegistered alertId intent) idle).

(** Handles information queries. *)
Definition handleQuery (env : Env) (intent : Intent.Query) : M Response :=
  if String.eqb (Intent.queryType intent) "fee_check" then
    let routes :=
      BridgeRouter.getBestBridgeRoute config
        (BridgeRouter.mkRequest "celo" (Intent.queryChain intent) (Intent.queryToken intent)
           100 (Some "cheapest")) (net env) in
    match BridgeRouter.best routes with
    | None =>
        mret (mkResponse (NoRouteFor (Intent.queryToken intent) (Intent.queryChain intent)) idle)
    | Some best =>
        mret (mkResponse
                (CurrentFees (Intent.queryToken intent) (Intent.queryChain intent) best) idle)
    end
  else mret (mkResponse WhatToKnow idle).

Definition handleClarification (intent : Intent.Clarification) : Response :=
  let missing := Intent.missingFields intent in
  let has (f : string) := existsb (String.eqb f) missing in
  if has "toAddress" && has "amount" then mkResponse NeedAddressAndAmount idle
  else if has "toAddress" then mkResponse NeedAddress idle
  else if has "amount" then mkResponse NeedAmount idle
  else if has "token" then mkResponse NeedToken idle
  else mkResponse NeedMoreDetail idle.

(** The body of the [try] block of [handleUserMessage]. *)
Definition dispatchMessage (env : Env) (userMessage : string) : M Response :=
  session ← get;
  (* Handle confirmation/cancellation of pending transactions *)
  if bool_decide (state session = awaiting_confirmation) then
    handleConfirmation env userMessage
  else
  (* Parse new intent *)
  intent ← lift (parseIntent env);
  update (push_history (mkTurn "user" userMessage));;
  (* Route by intent type *)
  match intent with
  | Intent.transfer i => processTransfer env i
  | Intent.swap_and_transfer i => processSwapAndTransfer env i
  | Intent.alert i => registerAlert env i
  | Intent.query i => handleQuery env i
  | Intent.clarification_needed i => mret (handleClarification i)
  | Intent.other _ => mret (mkResponse Welcome idle)
  end.

(** [activeSessions] and the effects performed so far. *)
Record Heap := mkHeap {
  activeSessions : gmap string Session;
  effects        : list Effect;
}.

(** Main entry point: handles a user message and returns a response. *)
Definition handleUserMessage (sessionId userMessage : string) (walletInfo : WalletInfo)
    (env : Env) (heap : Heap) : Response * Heap :=
  (* Get or create session *)
  let session :=
    default (createSession sessionId walletInfo (now env))
            (activeSessions heap !! sessionId) in
  let '(response, st) :=
    catch_all (dispatchMessage env userMessage)
      (λ error st,
        (mkResponse (SomethingWentWrong error) Orchestrator.error,
         mkSt (set_state idle (Orchestrator.session st)) (trace st)))
      (mkSt session (effects heap)) in
  (response,
   mkHeap (<[sessionId := Orchestrator.session st]> (activeSessions heap)) (trace st)).
End WithConfig.

End Orchestrator.

(** ** server.js: the alert wiring and the program as a whole *)

Module Server.
Import JS.

(** The module-level state of the program: the orchestrator's
    [activeSessions] (with the effects performed so far) and the alert
    engine's [activeAlerts]. *)
Record World := mkWorld {
  heap         : Orchestrator.Heap;
  activeAlerts : list (string * AlertEngine.Alert);
}.

Definition initial : World := mkWorld (Orchestrator.mkHeap ∅ []) [].

Definition emit (room event : string) (h : Orchestrator.Heap) : Orchestrator.Heap :=
  Orchestrator.mkHeap (Orchestrator.activeSessions h)
    (Orchestrator.effects h ++ [Orchestrator.Emit room event]).

Section WithConfig.
Variable config : Config.t.
Variable text : Orchestrator.Templates.

(** The callback handed to [startAlertPolling].  [notifyAlertTriggered]
    settles every channel failure itself and returns nothing. *)
Definition onAlertTriggered (envFor : string → Orchestrator.Env)
    (alertId : string) (alert : AlertEngine.Alert) (h : Orchestrator.Heap)
    : res unit * Orchestrator.Heap :=
  let sessionId := AlertEngine.sessionId alert in
  let h := emit sessionId "alert_triggered" h in
  if String.eqb (Intent.action (AlertEngine.intent alert)) "transfer" then
    let '(response, h) :=
      Orchestrator.handleUserMessage config text sessionId "yes"
        (Orchestrator.mkWalletInfo None None) (envFor alertId) h in
    (Ret (), emit sessionId "auto_transfer" h)
  else (Ret (), h).

(** What can happen to the program. *)
Inductive Event :=
(** a chat, web or webhook message reaches [handleUserMessage] *)
| Message (sessionId userMessage : string) (walletInfo : Orchestrator.WalletInfo)
    (env : Orchestrator.Env)
(** the polling interval elapses *)
| Tick (probe : string → AlertEngine.Probe) (envFor : string → Orchestrator.Env) (now : N)
(** [DELETE /api/alerts/:alertId] *)
| CancelAlert (alertId : string)
(** a direct call of the alert engine's exported [registerAlert];
    nothing in the sources makes one *)
| RegisterAlert (sessionId : string) (alertIntent : Intent.Alert) (now now' : N).

Definition tick (probe : string → AlertEngine.Probe)
    (envFor : string → Orchestrator.Env) (now : N) (w : World)
    : AlertEngine.Run (W := Orchestrator.Heap) :=
  AlertEngine.poll config (onAlertTriggered envFor) probe now (activeAlerts w) (heap w).

Definition step (w : World) (e : Event) : World :=
  match e with
  | Message sessionId userMessage walletInfo env =>
      mkWorld
        (Orchestrator.handleUserMessage config text sessionId userMessage walletInfo env
           (heap w)).2
        (activeAlerts w)
  | Tick probe envFor now =>
      let r := tick probe envFor now w in
      mkWorld (AlertEngine.world r) (AlertEngine.activeAlerts r)
  | CancelAlert alertId =>
      mkWorld (heap w) (AlertEngine.cancelAlert alertId (activeAlerts w)).1
  | RegisterAlert sessionId alertIntent now now' =>
      mkWorld (heap w)
        (AlertEngine.registerAlert sessionId alertIntent now now' (activeAlerts w)).2
  end.

Definition run (events : list Event) (w : World) : World := foldl step w events.
End WithConfig.

End Server.

(** ** x402Payment.js *)

Module X402.
Import JS.

(** [config.X402]: the fee ([1.0] as shipped) and the revenue wallet (from
    the environment), taken as parameters.  [SERVICE_FEE_UNITS] is what [ethers.parseUnits(SERVICE_FEE_AMOUNT.toString(), 6)] yields:
    the amount in base units, or an error for an amount the library does
    not accept. *)
Record FeeConfig := mkFeeConfig {
  SERVICE_FEE_AMOUNT : Q;
  SERVICE_FEE_WALLET : string;
  SERVICE_FEE_UNITS  : res Z;
}.

(** A payment request, as stored in [paymentRecords].  [verifiedAt] is
    absent until the payment is verified; times are in milliseconds. *)
Record PaymentRecord := mkRecord {
  nonce          : string;
  sessionId      : string;
  userAddress    : string;
  token          : string;
  amount         : Q;
  amountUnits    : Z;
  payTo          : string;
  chain          : string;
  tokenAddress   : option string;
  expiresAt      : N;
  paid           : bool;
  verifiedTxHash : option string;
  createdAt      : N;
  verifiedAt     : option N;
}.

(** [createPaymentRequest].  The clock is read three times: for the
    nonce, for the expiry and for [createdAt].  [config.TOKENS.CELO] is
    taken to be there. *)
Definition createPaymentRequest (config : Config.t) (x402 : FeeConfig)
    (sessionId userAddress : string) (token : option string)
    (now now' now'' : N) (paymentRecords : gmap string PaymentRecord)
    : res (PaymentRecord * gmap string PaymentRecord) :=
  let token := default "USDC" token in
  let feeAmount := SERVICE_FEE_AMOUNT x402 in
  let feeWallet := SERVICE_FEE_WALLET x402 in
  (* Unique nonce prevents the same payment being reused *)
  let nonce := "x402_" +:+ sessionId +:+ "_" +:+ pretty now in
  let expiresAt := (now' + 10 * 60 * 1000)%N in (* 10 minutes to pay *)
  match SERVICE_FEE_UNITS x402 with
  | Throw e => Throw e
  | Ret units =>
      let request :=
        {| nonce := nonce;
           sessionId := sessionId;
           userAddress := userAddress;
           token := token;
           amount := feeAmount;
           amountUnits := units;
           payTo := feeWallet;
           chain := "celo";
           tokenAddress := Config.TOKENS config "CELO" token;
           expiresAt := expiresAt;
           paid := false;
           verifiedTxHash := None;
           createdAt := now'';
           verifiedAt := None |} in
      Ret (request, <[nonce := request]> paymentRecords)
  end.

(** [ERC20_ABI]: the interface the module gives its contracts.  It
    declares four functions and no event. *)
Definition ERC20_ABI : list string :=
  ["function transfer(address to, uint256 amount) returns (bool)";
   "function balanceOf(address owner) view returns (uint256)";
   "function allowance(address owner, address spender) view returns (uint256)";
   "function approve(address spender, uint256 amount) returns (bool)"].

(** Whether an interface declares an event of the given name.  Calling
    [contract.filters.<name>(...)] throws when it does not. *)
Definition declares_event (abi : list string) (name : string) : bool :=
  existsb (String.prefix ("event " +:+ name +:+ "(")) abi.

(** What the chain answers during one [verifyPayment]: the status of the
    receipt of [txHash], if there is one, and the values of the Transfer
    events from the payer to the fee wallet in the receipt's block. *)
Record Ledger := mkLedger {
  receipt   : res (option Z);
  transfers : res (list Z);
}.

Inductive Verification :=
| RequestNotFound
| RequestExpired
| AlreadyVerified
| TxNotFoundOrFailed
| NoMatchingTransfer (token : string) (amount : Q) (txStart : string)
| Verified (record : PaymentRecord)
| CouldNotVerify.

(** The [verified] field of the result. *)
Definition verified (v : Verification) : bool :=
  match v with AlreadyVerified | Verified _ => true | _ => false end.

(** [record.paid = true; record.verifiedTxHash = txHash;
    record.verifiedAt = ...] *)
Definition mark_paid (txHash : string) (now : N) (r : PaymentRecord) : PaymentRecord :=
  mkRecord (nonce r) (sessionId r) (userAddress r) (token r) (amount r) (amountUnits r)
    (payTo r) (chain r) (tokenAddress r) (expiresAt r) true (Some txHash) (createdAt r)
    (Some now).

(** [verifyPayment].  [now] is the clock at the expiry check, [now'] at
    the moment the payment is marked.  The filter for the Transfer events
    is asked of a contract built from [ERC20_ABI]. *)
Definition verifyPayment (nonce txHash : string) (now now' : N) (ledger : Ledger)
    (paymentRecords : gmap string PaymentRecord)
    : Verification * gmap string PaymentRecord :=
  match paymentRecords !! nonce with
  | None => (RequestNotFound, paymentRecords)
  | Some record =>
      if N.ltb (expiresAt record) now then (RequestExpired, delete nonce paymentRecords)
      else if paid record then (AlreadyVerified, paymentRecords)
      else
        (* try { ... } catch (err) { could not verify } *)
        match receipt ledger with
        | Throw _ => (CouldNotVerify, paymentRecords)
        | Ret None => (TxNotFoundOrFailed, paymentRecords)
        | Ret (Some status) =>
            if negb (Z.eqb status 1) then (TxNotFoundOrFailed, paymentRecords)
            else
              match tokenAddress record with
              | None => (CouldNotVerify, paymentRecords) (* the contract has no target *)
              | Some _ =>
                  if negb (declares_event ERC20_ABI "Transfer")
                  then (CouldNotVerify, paymentRecords) (* [filters.Transfer] throws *)
                  else
                  match transfers ledger with
                  | Throw _ => (CouldNotVerify, paymentRecords)
                  | Ret events =>
                      (* Accept exact or higher *)
                      match List.find (λ value, Z.leb (amountUnits record) value) events with
                      | None =>
                          (NoMatchingTransfer (token record) (amount record)
                             (slice0 10 txHash),
                           paymentRecords)
                      | Some _ =>
                          let record := mark_paid txHash now' record in
                          (Verified record, <[nonce := record]> paymentRecords)
                      end
                  end
              end
        end
  end.

Definition GRACE_PERIOD : Z := 5 * 60 * 1000.

(** [hasRecentPayment]: some record of the session is paid and was
    verified less than five minutes ago.  A record without [verifiedAt]
    compares false. *)
Definition hasRecentPayment (sessionId : string) (now : N)
    (paymentRecords : gmap string PaymentRecord) : bool :=
  existsb
    (λ record,
       String.eqb (X402.sessionId record) sessionId
       && paid record
       && match verifiedAt record with
          | Some at_ => Z.ltb (Z.of_N now - Z.of_N at_) GRACE_PERIOD
          | None => false
          end)
    (snd <$> map_to_list paymentRecords).

End X402.

(** ** The payment routes of server.js *)

Module PaymentRoutes.
Import JS X402.

(** A request to one of the two routes, with what the outside world
    answers while it is served: the readings of the clock and, for a
    verification, the chain. *)
Inductive Call :=
| PaymentRequest (sessionId userAddress token : option string) (clock now now' now'' : N)
| PaymentVerify (nonce txHash : option string) (now now' : N) (ledger : Ledger).

Inductive Answer :=
| BadRequest
| AlreadyPaid
| Requested (pr : PaymentRecord)
| Verification (result : X402.Verification)
| ServerError (e : string).

Section WithConfig.
Variable config : Config.t.
Variable x402 : FeeConfig.

Definition serve (call : Call) (paymentRecords : gmap string PaymentRecord)
    : Answer * gmap string PaymentRecord :=
  match call with
  | PaymentRequest sessionId userAddress token clock now now' now'' =>
      if negb (truthyS sessionId) || negb (truthyS userAddress)
      then (BadRequest, paymentRecords)
      else
      let sessionId := default "" sessionId in
      let userAddress := default "" userAddress in
      if hasRecentPayment sessionId clock paymentRecords
      then (AlreadyPaid, paymentRecords)
      else
      match createPaymentRequest config x402 sessionId userAddress token now now' now''
              paymentRecords with
      | Ret (pr, paymentRecords) => (Requested pr, paymentRecords)
      | Throw e => (ServerError e, paymentRecords)
      end
  | PaymentVerify nonce txHash now now' ledger =>
      if negb (truthyS nonce) || negb (truthyS txHash)
      then (BadRequest, paymentRecords)
      else
      let '(result, paymentRecords) :=
        verifyPayment (default "" nonce) (default "" txHash) now now' ledger
          paymentRecords in
      (Verification result, paymentRecords)
  end.

(** The answers to a sequence of requests, and the records left. *)
Fixpoint serve_all (calls : list Call) (paymentRecords : gmap string PaymentRecord)
    : list Answer * gmap string PaymentRecord :=
  match calls with
  | [] => ([], paymentRecords)
  | call :: calls =>
      let '(answer, paymentRecords) := serve call paymentRecords in
      let '(answers, paymentRecords) := serve_all calls paymentRecords in
      (answer :: answers, paymentRecords)
  end.
End WithConfig.

End PaymentRoutes.

(** ** The bridge executors: axelar.js, celer.js, layerzero.js

    What [executeTransfer] calls for the provider-specific transfer.  The
    calls an executor makes on the chain and to its bridge's services are
    recorded in order; what they answer is an argument.  A chain name is
    looked up in an object literal; the property names every object
    inherits are not chain names and are left out of the tables. *)

Module Executors.
Import JS.

Inductive Call :=
| ApproveSpender (spender : string) (amountUnits : Z)
| EstimateGasFee (destination : string)
| PayNativeGas (destination : string) (toAddress : option string) (symbol : string)
    (amountUnits value : Z)
| SendToken (destination : string) (toAddress : option string) (symbol : string)
    (amountUnits : Z)
| GetTransferConfigs
| CelerSend (receiver : option string) (token : string) (amountUnits dstChainId : Z)
    (nonce : N) (maxSlippage : Z)
| EncodeAddress (toAddress : option string)
| QuoteLayerZeroFee (dstChainId : Z)
| StargateSwap (dstChainId srcPoolId dstPoolId amountLD minAmountLD value : Z).

(** *** axelar.js *)

Definition AXELAR_GATEWAY_CELO : string := "0xe432150cce91c13a887f7D836923d5597adD8E31".

Definition AXELAR_CHAIN_NAMES (chain : string) : option string :=
  if String.eqb chain "ethereum" then Some "ethereum"
  else if String.eqb chain "base" then Some "base"
  else if String.eqb chain "polygon" then Some "polygon"
  else if String.eqb chain "arbitrum" then Some "arbitrum"
  else if String.eqb chain "optimism" then Some "optimism"
  else if String.eqb chain "celo" then Some "celo"
  else None.

Record AxelarWorld := mkAxelarWorld {
  approveTx : res unit;    (* [token.approve] and [wait] *)
  gasFee    : res Z;       (* [axelarQuery.estimateGasFee] *)
  gasPayTx  : res unit;    (* [payNativeGasForContractCallWithToken] and [wait] *)
  sendTx    : res string;  (* [gateway.sendToken] and [wait], the hash *)
}.

Definition executeAxelarTransfer (intent : Intent.Transfer) (amountUnits : Z)
    (world : AxelarWorld) : res string * list Call :=
  match Intent.toChain intent ≫= AXELAR_CHAIN_NAMES with
  | None =>
      (Throw ("Axelar: unsupported destination "
              +:+ default "undefined" (Intent.toChain intent)), [])
  | Some destChainName =>
      (* Step 1: approve gateway to spend the token *)
      let calls := [ApproveSpender AXELAR_GATEWAY_CELO amountUnits] in
      match approveTx world with
      | Throw e => (Throw e, calls)
      | Ret _ =>
      (* Step 2: estimate gas fee *)
      let calls := calls ++ [EstimateGasFee (toUpperCase destChainName)] in
      match gasFee world with
      | Throw e => (Throw e, calls)
      | Ret gasFee =>
      (* Step 3: pay for gas on the destination chain *)
      let calls :=
        calls ++ [PayNativeGas destChainName (Intent.toAddress intent)
                    (Intent.token intent) amountUnits gasFee] in
      match gasPayTx world with
      | Throw e => (Throw e, calls)
      | Ret _ =>
      (* Step 4: send the token via the gateway *)
      let calls :=
        calls ++ [SendToken destChainName (Intent.toAddress intent)
                    (Intent.token intent) amountUnits] in
      match sendTx world with
      | Throw e => (Throw e, calls)
      | Ret hash => (Ret hash, calls)
      end end end end
  end.

(** *** celer.js *)

Definition CELER_CHAIN_IDS (chain : string) : option Z :=
  if String.eqb chain "ethereum" then Some 1%Z
  else if String.eqb chain "base" then Some 8453%Z
  else if String.eqb chain "polygon" then Some 137%Z
  else if String.eqb chain "arbitrum" then Some 42161%Z
  else if String.eqb chain "optimism" then Some 10%Z
  else if String.eqb chain "bnb" then Some 56%Z
  else None.

Record CelerWorld := mkCelerWorld {
  (** the reply of [getTransferConfigs]:
      [data.chains?.find(c => c.id === 42220)?.contract_addr] *)
  transferConfigs : res (option string);
  celerApproveTx  : res unit;
  now             : N;
  celerSendTx     : res string;
}.

Definition executeCelerTransfer (intent : Intent.Transfer) (amountUnits : Z)
    (tokenAddress : string) (world : CelerWorld) : res string * list Call :=
  match Intent.toChain intent ≫= CELER_CHAIN_IDS with
  | None =>
      (Throw ("Celer: unsupported destination "
              +:+ default "undefined" (Intent.toChain intent)), [])
  | Some destChainId =>
      (* Fetch live contract address from the Celer API *)
      let calls := [GetTransferConfigs] in
      match transferConfigs world with
      | Throw e => (Throw e, calls)
      | Ret bridgeAddress =>
      if negb (truthyS bridgeAddress) then
        (Throw "Celer: could not find Celo bridge contract address", calls)
      else
      let bridgeAddress := default "" bridgeAddress in
      (* Approve cBridge to spend the token *)
      let calls := calls ++ [ApproveSpender bridgeAddress amountUnits] in
      match celerApproveTx world with
      | Throw e => (Throw e, calls)
      | Ret _ =>
      (* Send via cBridge *)
      let nonce := now world in
      let maxSlippage := 3000%Z in
      let calls :=
        calls ++ [CelerSend (Intent.toAddress intent) tokenAddress amountUnits destChainId
                    nonce maxSlippage] in
      match celerSendTx world with
      | Throw e => (Throw e, calls)
      | Ret hash => (Ret hash, calls)
      end end end
  end.

(** *** layerzero.js *)

Definition STARGATE_POOL_IDS (token : string) : option Z :=
  if String.eqb token "USDC" then Some 1%Z
  else if String.eqb token "USDT" then Some 2%Z
  else None.

Definition LZ_CHAIN_IDS (chain : string) : option Z :=
  if String.eqb chain "ethereum" then Some 101%Z
  else if String.eqb chain "base" then Some 184%Z
  else if String.eqb chain "celo" then Some 125%Z
  else if String.eqb chain "polygon" then Some 109%Z
  else if String.eqb chain "arbitrum" then Some 110%Z
  else if String.eqb chain "optimism" then Some 111%Z
  else if String.eqb chain "bnb" then Some 102%Z
  else None.

Definition STARGATE_ROUTERS (chain : string) : option string :=
  if String.eqb chain "celo" then Some "0x45A01E4e04F14f7A4a6702c74187c5F6222033cd"
  else if String.eqb chain "ethereum" then Some "0x8731d54E9D02c286767d56ac03e8037C07e01e98"
  else if String.eqb chain "base" then Some "0x45f1A95A4D3f3836523F5c83673c797f4d4d263B"
  else if String.eqb chain "polygon" then Some "0x45A01E4e04F14f7A4a6702c74187c5F6222033cd"
  else if String.eqb chain "arbitrum" then Some "0x53Bf833A5d6c4ddA888F69c22C88C9f356a41614"
  else if String.eqb chain "optimism" then Some "0xB0D502E938ed5f4df2E681fE6E419ff29631d62b"
  else None.

Record StargateWorld := mkStargateWorld {
  stargateApproveTx : res unit;
  encodedAddress    : res unit;  (* [AbiCoder.encode(["address"], [toAddress])] *)
  nativeFee         : res Z;     (* [router.quoteLayerZeroFee], in wei *)
  swapTx            : res string;
}.

(** [ethers.parseEther] of 0.01 *)
Definition FALLBACK_FEE : Z := 10 ^ 16.

(** A name between double quotes, as the messages show it. *)
Definition quoted (name : string) : string :=
  String "034"%char name +:+ String "034"%char "".

Definition executeLayerZeroTransfer (intent : Intent.Transfer) (amountUnits : Z)
    (world : StargateWorld) : res string * list Call :=
  let toChain := Intent.toChain intent in
  let fromChain := default "celo" (Intent.fromChain intent) in
  let dstLzChainId := toChain ≫= LZ_CHAIN_IDS in
  let srcPoolId := STARGATE_POOL_IDS (Intent.token intent) in
  let dstPoolId := STARGATE_POOL_IDS (Intent.token intent) in
  let routerAddr := STARGATE_ROUTERS fromChain in
  match dstLzChainId, srcPoolId, dstPoolId, routerAddr with
  | None, _, _, _ =>
      (Throw ("LayerZero: unsupported destination chain "
              +:+ quoted (default "undefined" toChain)), [])
  | _, None, _, _ | _, _, None, _ =>
      (Throw ("LayerZero: unsupported token " +:+ quoted (Intent.token intent)), [])
  | _, _, _, None =>
      (Throw ("LayerZero: no Stargate router for " +:+ quoted fromChain), [])
  | Some dstLzChainId, Some srcPoolId, Some dstPoolId, Some routerAddr =>
      (* Step 1: approve the Stargate router to spend the token *)
      let calls := [ApproveSpender routerAddr amountUnits] in
      match stargateApproveTx world with
      | Throw e => (Throw e, calls)
      | Ret _ =>
      (* Step 2: get the LayerZero fee quote *)
      let calls := calls ++ [EncodeAddress (Intent.toAddress intent)] in
      match encodedAddress world with
      | Throw e => (Throw e, calls)
      | Ret _ =>
      let calls := calls ++ [QuoteLayerZeroFee dstLzChainId] in
      let lzFee :=
        match nativeFee world with
        | Ret fee => fee
        | Throw _ => FALLBACK_FEE (* fallback fee estimate if the quote fails *)
        end in
      (* Step 3: execute the Stargate swap, with 1% slippage tolerance *)
      let minAmount := (amountUnits * 99 ÷ 100)%Z in
      let calls :=
        calls ++ [StargateSwap dstLzChainId srcPoolId dstPoolId amountUnits minAmount lzFee] in
      match swapTx world with
      | Throw e => (Throw e, calls)
      | Ret hash => (Ret hash, calls)
      end end end
  end.

End Executors.

(** ** swapRouter.js *)

Module SwapRouter.
Import JS.

(** Of [config.DEX], the 1inch key: read from the environment,
    "YOUR_KEY_HERE" without it. *)
Record DexConfig := mkDexConfig { ONEINCH_API_KEY : option string }.

(** A swap route.  Of [executionData] the least accepted output of the
    Mento route is kept.  The numbers of a route are the exact values of
    what the source computes in floating point; the statements about a
    route are about its origin and its least accepted output, which the
    source computes on integers. *)
Record Route := mkRoute {
  dex          : string;
  fromToken    : string;
  toToken      : string;
  inputAmount  : Q;
  outputAmount : jsnum;
  priceImpact  : jsnum;
  feeUSD       : jsnum;
  amountOutMin : option Z;
}.

(** The decoded reply of the 1inch quote: [parseFloat(data.dstAmount)] and
    [parseFloat(data.priceImpact || 0)]. *)
Record OneInchData := mkOneInch { dstAmount : jsnum; priceImpactPct : jsnum }.

(** What the outside world answers during one [getSwapRoute]: the amount
    the Mento broker quotes, in units of 10^-18 (or the error of the
    contract call or of what prepares it), and the reply of 1inch. *)
Record World := mkWorld {
  mento   : res Z;
  oneinch : Http OneInchData;
}.

(** [x / c] for a finite positive constant [c]. *)
Definition div_pos (x : jsnum) (c : Q) : jsnum :=
  match x with Fin q => Fin (q / c) | other => other end.

(** [a * x] for a finite [a]. *)
Definition mul (a : Q) (x : jsnum) : jsnum :=
  match x with
  | Fin q => Fin (a * q)
  | NaN => NaN
  | PosInf => if Qzero_b a then NaN else if Qpos_b a then PosInf else NegInf
  | NegInf => if Qzero_b a then NaN else if Qpos_b a then NegInf else PosInf
  end.

Section WithConfig.
Variable config : Config.t.
Variable dexConfig : DexConfig.

(** [config.TOKENS.CELO] is taken to be there. *)
Definition getMentoSwapQuote (fromToken toToken : string) (amount : Q) (world : World)
    : option Route :=
  BridgeRouter.catch_null (
    let fromTokenAddr := Config.TOKENS config "CELO" fromToken in
    let toTokenAddr := Config.TOKENS config "CELO" toToken in
    if negb (truthyS fromTokenAddr) || negb (truthyS toTokenAddr) then Ret None else
    match mento world with
    | Throw e => Throw e
    | Ret amountOut =>
        let outputAmount := (inject_Z amountOut / inject_Z (10 ^ 18))%Q in
        let priceImpact := div (amount - outputAmount) amount in
        Ret (Some {|
          dex := "Mento";
          fromToken := fromToken;
          toToken := toToken;
          inputAmount := amount;
          outputAmount := Fin outputAmount;
          priceImpact := priceImpact;
          feeUSD := Fin (amount * 0.001); (* Mento ~0.1% fee *)
          amountOutMin := Some (amountOut * 99 ÷ 100)%Z; (* 1% slippage *)
        |})
    end).

Definition ONEINCH_CHAIN_IDS (chain : string) : option Z :=
  if String.eqb chain "celo" then Some 42220%Z
  else if String.eqb chain "base" then Some 8453%Z
  else if String.eqb chain "ethereum" then Some 1%Z
  else if String.eqb chain "polygon" then Some 137%Z
  else if String.eqb chain "arbitrum" then Some 42161%Z
  else None.

Definition get1inchSwapQuote (fromToken toToken : string) (amount : Q) (chain : string)
    (world : World) : option Route :=
  BridgeRouter.catch_null (
    let chainId := ONEINCH_CHAIN_IDS chain in
    if negb (truthyZ chainId) then Ret None else
    let fromAddr := Config.TOKENS config (toUpperCase chain) fromToken in
    let toAddr := Config.TOKENS config (toUpperCase chain) toToken in
    if negb (truthyS fromAddr) || negb (truthyS toAddr) then Ret None else
    if negb (truthyS (ONEINCH_API_KEY dexConfig))
       || bool_decide (ONEINCH_API_KEY dexConfig = Some "YOUR_KEY_HERE")
    then Ret None else
    match oneinch world with
    | NetError e => Throw e
    | NotOk => Ret None
    | Ok data =>
        let outputAmount := div_pos (dstAmount data) 1000000 in
        let priceImpact := div_pos (priceImpactPct data) 100 in
        Ret (Some {|
          dex := "1inch";
          fromToken := fromToken;
          toToken := toToken;
          inputAmount := amount;
          outputAmount := outputAmount;
          priceImpact := priceImpact;
          feeUSD := mul amount priceImpact;
          amountOutMin := None;
        |})
    end).

(** Get the best swap route for a token pair on a given chain. *)
Definition getSwapRoute (fromToken toToken : string) (amount : Q) (chain : option string)
    (world : World) : option Route :=
  let chain := default "celo" chain in
  (* Try Mento first (best for Celo stablecoins) *)
  let mentoRoute :=
    if String.eqb chain "celo"
       && (String.eqb fromToken "USDm" || String.eqb fromToken "cUSD")
    then getMentoSwapQuote fromToken toToken amount world
    else None in
  match mentoRoute with
  | Some route => Some route
  | None =>
      (* Fall back to the 1inch aggregator *)
      get1inchSwapQuote fromToken toToken amount chain world
  end.
End WithConfig.

End SwapRouter.

(** * Vocabulary of the properties *)

Section Vocabulary.
Import JS Orchestrator.

(** The key each ranking policy sorts by, ascending. *)
Definition sortKey (priority : string) (q : BridgeRouter.Quote) : Q :=
  if String.eqb priority "cheapest" then BridgeRouter.feeUSD q
  else if String.eqb priority "fastest" then BridgeRouter.estimatedMinutes q
  else if String.eqb priority "safest" then (- BridgeRouter.successRate q)%Q
  else BridgeRouter.score q.


(** The quotes [getBestBridgeRoute] collects from the five providers. *)
Definition quotesOf (config : Config.t) (rq : BridgeRouter.Request)
    (net : BridgeRouter.Replies) : list BridgeRouter.Quote :=
  omap BridgeRouter.fulfilled_value [
    Fulfilled (BridgeRouter.getAcrossQuote config rq (BridgeRouter.across net));
    Fulfilled (BridgeRouter.getWormholeQuote rq (BridgeRouter.wormhole net));
    Fulfilled (BridgeRouter.getAxelarQuote rq (BridgeRouter.axelar net));
    Fulfilled (BridgeRouter.getCelerQuote config rq (BridgeRouter.celer net));
    Fulfilled (BridgeRouter.getLayerZeroQuote rq)
  ].

(** Whether any error has been pushed. *)
Definition has_errors (l : Validator.Arrays.t) : bool :=
  negb (Nat.eqb (length (Validator.Arrays.errors l)) 0).

(** The context hint [processTransfer] detects the chain with. *)
Definition hint (s : Session) : string := String.concat " " (content <$> history s).

(** The route request [processTransfer] makes for an intent with
    destination [addr]. *)
Definition requestFor (s : Session) (i : Intent.Transfer) (addr : string)
    : BridgeRouter.Request :=
  BridgeRouter.mkRequest (default "celo" (Intent.fromChain i))
    (ChainDetector.chain (ChainDetector.detectChainFromAddress addr (hint s)))
    (Intent.token i) (Intent.amount i) (Intent.priority i).

(** The session [processTransfer] leaves behind when it asks for
    confirmation. *)
Definition awaiting (s : Session) (p : PendingTransaction) (fullMessage : string) : Session :=
  push_history (mkTurn "assistant" fullMessage)
    (set_state awaiting_confirmation (set_pendingTransaction (Some p) s)).

(** An effect other than handing a transaction to the dispatcher. *)
Definition chain_effect (e : Effect) : Prop :=
  match e with Dispatch _ _ => False | _ => True end.

(** The pending transaction carries an executable quote. *)
Definition ready (p : PendingTransaction) : Prop :=
  BridgeRouter.executionReady (bridgeQuote p) = true.
Definition session_ok (s : Session) : Prop :=
  ∀ p, pendingTransaction s = Some p → ready p.
Definition trace_ok (t : list Effect) : Prop :=
  ∀ sid p, In (Dispatch sid p) t → ready p.
Definition st_ok (st : St) : Prop := session_ok (session st) ∧ trace_ok (trace st).
Definition heap_ok (h : Heap) : Prop :=
  (∀ sid s, activeSessions h !! sid = Some s → session_ok s) ∧ trace_ok (effects h).

(** An event other than a direct call of the engine's [registerAlert]. *)
Definition not_registration (e : Server.Event) : Prop :=
  match e with Server.RegisterAlert _ _ _ _ => False | _ => True end.
End Vocabulary.

(** ** Vocabulary of the further properties *)

Section MoreVocabulary.
Import JS Orchestrator.

(** [CHAIN_PATTERNS.EVM_CHAINS] *)
Definition EVM_CHAINS : list string :=
  ["ethereum"; "base"; "celo"; "polygon"; "arbitrum"; "optimism"; "avalanche"; "bnb"].

(** The chains the bridge router knows under a name of Axelar, and those
    it knows under an EVM id: the same seven. *)
Definition ROUTED_EVM_CHAINS : list string :=
  ["ethereum"; "base"; "celo"; "polygon"; "arbitrum"; "optimism"; "bnb"].

(** The chains LayerZero serves: the keys of [CHAIN_IDS] with a
    [layerzeroId]. *)
Definition LAYERZERO_CHAINS : list string :=
  ["ethereum"; "base"; "celo"; "polygon"; "arbitrum"; "optimism"; "bnb"].

(** The executable quotes among those the providers returned. *)
Definition readyQuotes (config : Config.t) (rq : BridgeRouter.Request)
    (net : BridgeRouter.Replies) : list BridgeRouter.Quote :=
  List.filter (λ q, Bool.eqb (BridgeRouter.executionReady q) true) (quotesOf config rq net).

(** The route request [processTransfer] made for a stored transaction. *)
Definition requestOf (p : PendingTransaction) : BridgeRouter.Request :=
  BridgeRouter.mkRequest
    (default "celo" (Intent.fromChain (intent p)))
    (ChainDetector.chain (chainInfo p))
    (Intent.token (intent p)) (Intent.amount (intent p)) (Intent.priority (intent p)).

(** A stored transaction that went through every step of
    [processTransfer]: its quote was ranked best for its request, its
    verdict is the validator's and is valid, and the fee is within the
    hard stop. *)
Definition vetted (config : Config.t) (p : PendingTransaction) : Prop :=
  (∃ net,
     BridgeRouter.best (BridgeRouter.getBestBridgeRoute config (requestOf p) net)
       = Some (bridgeQuote p)
     ∧ BridgeRouter.all (BridgeRouter.getBestBridgeRoute config (requestOf p) net)
       = allQuotes p)
  ∧ Intent.toChain (intent p) = Some (ChainDetector.chain (chainInfo p))
  ∧ Validator.validateTransfer (intent p) (Some (bridgeQuote p)) = Ret (validation p)
  ∧ Validator.valid (validation p) = true
  ∧ gt (div (BridgeRouter.feeUSD (bridgeQuote p)) (Intent.amount (intent p))) 0.25 = false.

(** A session at rest: idle, or awaiting confirmation of a stored
    transaction. *)
Definition at_rest (s : Session) : Prop :=
  state s = idle ∨ (state s = awaiting_confirmation ∧ is_Some (pendingTransaction s)).

Definition pending_vetted (config : Config.t) (s : Session) : Prop :=
  ∀ p, pendingTransaction s = Some p → vetted config p.

Definition dispatches_vetted (config : Config.t) (t : list Effect) : Prop :=
  ∀ sid p, In (Dispatch sid p) t → vetted config p.

(** The effects of one submitted transfer, in order. *)
Definition submission (sid : string) (p : PendingTransaction) (spender : string)
    : list Effect :=
  [Dispatch sid p;
   Approve spender (Intent.amount (intent p));
   BridgeTransfer (BridgeRouter.executionMethod (bridgeQuote p)) (bridgeQuote p)].

(** Every bridge transfer in the trace stands at the end of a
    submission: right after the approval of the bridge contract for the
    amount, right after the dispatch of the transaction. *)
Definition submissions_ok (t : list Effect) : Prop :=
  ∀ m q, In (BridgeTransfer m q) t →
    ∃ t1 t2 sid p spender,
      t = t1 ++ submission sid p spender ++ t2
      ∧ q = bridgeQuote p
      ∧ m = BridgeRouter.executionMethod q
      ∧ getBridgeContractAddress m (default "celo" (Intent.fromChain (intent p)))
        = Some spender.

Definition heap_safe (config : Config.t) (h : Heap) : Prop :=
  (∀ sid s, activeSessions h !! sid = Some s → at_rest s ∧ pending_vetted config s)
  ∧ dispatches_vetted config (effects h)
  ∧ submissions_ok (effects h).
End MoreVocabulary.

Section PaymentVocabulary.
Import X402 PaymentRoutes.

(** No request on record is marked paid. *)
Definition none_paid (records : gmap string PaymentRecord) : Prop :=
  ∀ nonce record, records !! nonce = Some record → paid record = false.

(** An answer that lets the caller go on as having paid. *)
Definition granted (answer : Answer) : bool :=
  match answer with
  | AlreadyPaid => true
  | Verification result => verified result
  | _ => false
  end.
End PaymentVocabulary.

Section FrameVocabulary.
Import JS Orchestrator.

(** [s'] is [s] after some handling: who the session belongs to is
    unchanged, and its history and its alerts were only appended to. *)
Definition extends (s s' : Session) : Prop :=
  sessionId s' = sessionId s
  ∧ walletAddress s' = walletAddress s
  ∧ connectedChain s' = connectedChain s
  ∧ createdAt s' = createdAt s
  ∧ history s `prefix_of` history s'
  ∧ alerts s `prefix_of` alerts s'.

(** A reply that carries a receipt. *)
Definition is_receipt (m : Reply) : bool :=
  match m with TransferSubmitted _ => true | _ => false end.
End FrameVocabulary.

Section AlertVocabulary.
Import JS AlertEngine.

(** Whether a tick triggers the entry: it is not yet triggered and its
    check answers true. *)
Definition fires (config : Config.t) (probe : string → Probe) (entry : string * Alert) : bool :=
  negb (triggered entry.2)
  && match checkPriceAlert config entry.2 (probe entry.1) with
     | Ret true => true
     | _ => false
     end.

(** The entry after a tick at time [now] that ran to its end. *)
Definition ticked (config : Config.t) (probe : string → Probe) (now : N)
    (entry : string * Alert) : string * Alert :=
  if fires config probe entry then (entry.1, mark_triggered now entry.2) else entry.

(** An entry as the engine files it: under its own id, which is made of
    the session and of a reading of the clock. *)
Definition filed (entry : string * Alert) : Prop :=
  alertId entry.2 = entry.1
  ∧ ∃ time : N, entry.1 = sessionId entry.2 +:+ "_" +:+ pretty time.
End AlertVocabulary.

(** * Sample inputs *)

Module Sample.
Import JS Orchestrator.

(** A configuration with USDC configured on Celo and nothing else. *)
Definition config : Config.t :=
  Config.mk
    (λ chain token,
       if String.eqb chain "CELO" && String.eqb token "USDC"
       then Some "0xcebA9300f2b948710d2653dD7B07f33A8B32118C" else None).

Definition text : Templates := mkTemplates (λ _, "(warning)") (λ _, "(note)").

Definition no_wallet : WalletInfo := mkWalletInfo None None.

(** Every remote quoting service unreachable. *)
Definition all_down : BridgeRouter.Replies :=
  BridgeRouter.mkReplies (NetError "timeout") (NetError "timeout")
    (NetError "timeout") (NetError "timeout").

(** Every remote quoting service answering with a failure status. *)
Definition all_refused : BridgeRouter.Replies :=
  BridgeRouter.mkReplies NotOk NotOk NotOk NotOk.

(** The estimate Wormhole's provider answers with for 100 USDC when no
    live quote is to be had. *)
Definition wormhole_estimate_100 : BridgeRouter.Quote :=
  BridgeRouter.mkQuote "Wormhole" (100 * 0.001 + 0.5) 15 0.97 10000000 "wormhole_ntt" true.

(** Two live quotes for 200 USDC with the same fee. *)
Definition wormhole_070 : BridgeRouter.Quote :=
  BridgeRouter.mkQuote "Wormhole" 0.7 15 0.97 10000000 "wormhole_ntt" true.
Definition axelar_070 : BridgeRouter.Quote :=
  BridgeRouter.mkQuote "Axelar" 0.7 5 0.96 5000000 "axelar_gmp" true.

Definition solana_address : string := "7xKXtg2CW87d97TXJSDpbD5jBkheTqA83TZRuJosgAsU".
Definition evm_address : string := "0x1111111111111111111111111111111111111111".

(** 100 USDC to a Solana address. *)
Definition send_100_usdc_solana : Intent.Transfer :=
  Intent.mkTransfer (Some solana_address) "USDC" 100 (Some "celo") (Some "solana")
    (Some "cheapest") None None.

(** 100 USDC to an EVM address, the message naming Base. *)
Definition send_100_usdc_base : Intent.Transfer :=
  Intent.mkTransfer (Some evm_address) "USDC" 100 (Some "celo") (Some "base")
    (Some "cheapest") None None.

Definition msg_solana : string :=
  "Send 100 USDC to 7xKXtg2CW87d97TXJSDpbD5jBkheTqA83TZRuJosgAsU".
Definition msg_base : string :=
  "Send 100 USDC to 0x1111111111111111111111111111111111111111 on Base".

(** A Wormhole quote with a fee of 60 dollars. *)
Definition wormhole_fee_60 : BridgeRouter.Quote :=
  BridgeRouter.mkQuote "Wormhole" 60 15 0.97 10000000 "wormhole_ntt" true.

(** Wormhole answering with a fee of 60 dollars, and of 0.80 dollars. *)
Definition wormhole_60 : Http BridgeRouter.WormholeData :=
  Ok (BridgeRouter.mkWormhole (Some 60%Q) None).
Definition wormhole_080 : Http BridgeRouter.WormholeData :=
  Ok (BridgeRouter.mkWormhole (Some 0.8%Q) None).

(** A chain on which every call succeeds. *)
Definition chain_ok : Chain :=
  mkChain (Ret ()) (Ret ()) (Ret "0xapprove") (Ret "0xtransfer").

(** The world's answers to a message the parser reads as [intent], with
    Wormhole answering [wormhole] and the other quoting services down. *)
Definition env_for (intent : Intent.t) (wormhole : Http BridgeRouter.WormholeData) : Env :=
  mkEnv 1700000000000 (Ret intent) (Ret None)
    (BridgeRouter.mkReplies (NetError "timeout") wormhole (NetError "timeout")
       (NetError "timeout"))
    (Ret "(explanation)") (Ret "(preview)") chain_ok.

Definition env_base : Env := env_for (Intent.transfer send_100_usdc_base) (NetError "timeout").
Definition env_solana_60 : Env := env_for (Intent.transfer send_100_usdc_solana) wormhole_60.
(** The parser is not consulted while a confirmation is awaited. *)
Definition env_reply : Env := env_for (Intent.other "") (NetError "timeout").

Definition empty_heap : Heap := mkHeap ∅ [].

(** A session that was shown a preview and awaits confirmation: 100 USDC
    from Celo to Base, best route LayerZero/Stargate at 0.51 dollars. *)
Definition awaiting_heap : Heap :=
  (handleUserMessage config text "s1" msg_base no_wallet env_base empty_heap).2.

(** The user asks for 100 USDC to Base and confirms. *)
Definition confirm_events : list Server.Event :=
  [Server.Message "s1" msg_base no_wallet env_base;
   Server.Message "s1" "yes" no_wallet env_reply].

(** An alert on the price with no token, and an alert on the fee to
    Solana dropping below one dollar. *)
Definition price_alert_no_token : Intent.Alert :=
  Intent.mkAlert "price_below" (Some 1%Q) None "base" "notify" None None.
Definition fee_below_1 : Intent.Alert :=
  Intent.mkAlert "fee_below" (Some 1%Q) (Some "USDC") "solana" "notify" None None.

(** The world while an alert is checked: the best fee to Solana is 0.80
    dollars, the price service answers 1 dollar. *)
Definition probe (alertId : string) : AlertEngine.Probe :=
  AlertEngine.mkProbe
    (BridgeRouter.mkReplies (NetError "timeout") wormhole_080 (NetError "timeout")
       (NetError "timeout"))
    (Ret (Some 1%Q)) (λ _, None).

Definition envFor (alertId : string) : Env := env_reply.

(** The fee alert, registered at time 2. *)
Definition fee_alert : AlertEngine.Alert :=
  AlertEngine.mkAlert fee_below_1 "s1" "s1_2" false 2 None.

(** Both alerts are registered, the tokenless one first; two ticks. *)
Definition blocked_events : list Server.Event :=
  [Server.RegisterAlert "s1" price_alert_no_token 1 1;
   Server.RegisterAlert "s1" fee_below_1 2 2;
   Server.Tick probe envFor 3;
   Server.Tick probe envFor 4].

(** Only the fee alert is registered; two ticks. *)
Definition lone_events : list Server.Event :=
  [Server.RegisterAlert "s1" fee_below_1 2 2;
   Server.Tick probe envFor 3;
   Server.Tick probe envFor 4].

(** A chat message read as the fee alert, then a tick. *)
Definition chat_alert_events : list Server.Event :=
  [Server.Message "s1" "Alert me when fees to Solana drop below $1" no_wallet
     (env_for (Intent.alert fee_below_1) (NetError "timeout"));
   Server.Tick probe envFor 3].
End Sample.

(** ** Further sample inputs *)

Module Cases.
Import JS Orchestrator Sample.

(** Axelar answering with a fee of 10 cents; the other services down. *)
Definition axelar_010 : BridgeRouter.Replies :=
  BridgeRouter.mkReplies (NetError "timeout") (NetError "timeout")
    (Ok (BridgeRouter.mkAxelar (Some 0.1%Q))) (NetError "timeout").

Definition layerzero_quote_051 : BridgeRouter.Quote :=
  BridgeRouter.mkQuote "LayerZero/Stargate" (100 * 0.0006 + 0.45) 3 0.97 50000000
    "layerzero_stargate" true.

Definition celo_to_base_100 : BridgeRouter.Request :=
  BridgeRouter.mkRequest "celo" "base" "USDC" 100 None.

Definition celo_to_solana_100 : BridgeRouter.Request :=
  BridgeRouter.mkRequest "celo" "solana" "USDC" 100 None.

(** The world's answers to the request for 100 USDC to Base, with Axelar
    quoting. *)
Definition env_base_axelar : Env :=
  mkEnv 1700000000000 (Ret (Intent.transfer send_100_usdc_base)) (Ret None) axelar_010
    (Ret "(explanation)") (Ret "(preview)") chain_ok.

(** The user asks for 100 USDC to Base, Axelar is the cheapest route, and
    the user confirms. *)
Definition axelar_events : list Server.Event :=
  [Server.Message "s1" msg_base no_wallet env_base_axelar;
   Server.Message "s1" "yes" no_wallet env_reply].

(** The session after the preview over Axelar. *)
Definition axelar_heap : Heap :=
  (handleUserMessage config text "s1" msg_base no_wallet env_base_axelar empty_heap).2.

(** Scenario B: 500 USDm to a Solana address. *)
Definition send_500_usdm_solana : Intent.Transfer :=
  Intent.mkTransfer (Some solana_address) "USDm" 500 (Some "celo") (Some "solana")
    (Some "cheapest") None None.
Definition msg_usdm : string :=
  "Send 500 USDm to 7xKXtg2CW87d97TXJSDpbD5jBkheTqA83TZRuJosgAsU".
Definition env_usdm : Env := env_for (Intent.transfer send_500_usdm_solana) wormhole_080.

(** 5 USDm to an EVM address, with the words of a message that names
    Celo. *)
Definition send_5_usdm_celo : Intent.Transfer :=
  Intent.mkTransfer (Some evm_address) "USDm" 5 (Some "celo") (Some "celo")
    (Some "cheapest") (Some "Send 5 USDm to my Celo wallet") None.

(** The fee alert, in the store under its id. *)
Definition fee_entry : string * AlertEngine.Alert := ("s1_2", fee_alert).

(** A callback that does nothing. *)
Definition no_callback (alertId : string) (alert : AlertEngine.Alert) (w : unit)
    : res unit * unit := (Ret (), w).

(** The service fee: one dollar, one million base units. *)
Definition fee : X402.FeeConfig := X402.mkFeeConfig 1 "0xFEE" (Ret 1000000%Z).

(** A request for the fee made at time 1000. *)
Definition request_1000 : X402.PaymentRecord :=
  X402.mkRecord "x402_s1_1000" "s1" "0xUSER" "USDC" 1 1000000 "0xFEE" "celo"
    (Some "0xcebA9300f2b948710d2653dD7B07f33A8B32118C") 601000 false None 1000 None.

Definition one_request : gmap string X402.PaymentRecord :=
  <["x402_s1_1000" := request_1000]> ∅.

(** The chain shows a successful transaction with one transfer of exactly
    the fee. *)
Definition paid_ledger : X402.Ledger := X402.mkLedger (Ret (Some 1%Z)) (Ret [1000000%Z]).

(** The session asks to pay the fee, and shows the paying transaction a
    second later. *)
Definition pay_calls : list PaymentRoutes.Call :=
  [PaymentRoutes.PaymentRequest (Some "s1") (Some "0xUSER") None 1000 1000 1000 1000;
   PaymentRoutes.PaymentVerify (Some "x402_s1_1000") (Some "0xabc") 2000 2001 paid_ledger].

(** Celer answering with a fee of 10 cents; the other services down. *)
Definition celer_010 : BridgeRouter.Replies :=
  BridgeRouter.mkReplies (NetError "timeout") (NetError "timeout") (NetError "timeout")
    (Ok (BridgeRouter.mkCeler false (Some 0.1%Q) None)).

Definition env_base_celer : Env :=
  mkEnv 1700000000000 (Ret (Intent.transfer send_100_usdc_base)) (Ret None) celer_010
    (Ret "(explanation)") (Ret "(preview)") chain_ok.

(** The user asks for 100 USDC to Base, Celer is the cheapest route, and
    the user confirms. *)
Definition celer_events : list Server.Event :=
  [Server.Message "s1" msg_base no_wallet env_base_celer;
   Server.Message "s1" "yes" no_wallet env_reply].

(** Chains on which every call of an executor succeeds. *)
Definition axelar_ok : Executors.AxelarWorld :=
  Executors.mkAxelarWorld (Ret ()) (Ret 5%Z) (Ret ()) (Ret "0xsend").
Definition celer_ok : Executors.CelerWorld :=
  Executors.mkCelerWorld (Ret (Some "0xBB7684Cc5408F4DD0921E5c2Cadd547b8f1AD573")) (Ret ())
    1700000000001 (Ret "0xsend").
(** The fee quote of LayerZero fails; the other calls succeed. *)
Definition stargate_no_quote : Executors.StargateWorld :=
  Executors.mkStargateWorld (Ret ()) (Ret ()) (Throw "call revert") (Ret "0xswap").

(** USDC and USDm configured on Celo. *)
Definition config_usdm : Config.t :=
  Config.mk
    (λ chain token,
       if String.eqb chain "CELO" && String.eqb token "USDC"
       then Some "0xcebA9300f2b948710d2653dD7B07f33A8B32118C"
       else if String.eqb chain "CELO" && String.eqb token "USDm"
       then Some "0x765DE816845861e75A25fCA122bb6898B8B1282a"
       else None).

Definition no_key : SwapRouter.DexConfig := SwapRouter.mkDexConfig None.

(** The Mento broker quotes 499.5 units for 500; 1inch is down. *)
Definition mento_4995 : SwapRouter.World :=
  SwapRouter.mkWorld (Ret 499500000000000000000%Z) (NetError "timeout").
End Cases.

(** * Properties *)

(** ** Facts about the sort model *)

Section SortFacts.
Context {A : Type} (key : A → Q) (cmp : A → A → Q).
Hypothesis cmp_key : ∀ a b, Qle_bool (cmp a b) 0 = true ↔ (key a <= key b)%Q.

Let le_key (a b : A) : Prop := (key a <= key b)%Q.
Let same_key (k : Q) (a : A) : bool := Qeq_bool (key a) k.

Lemma insert_Permutation x l : Permutation (JS.insert cmp x l) (x :: l).
Proof.
  induction l as [|y l IH]; simpl; [reflexivity|].
  destruct (Qle_bool (cmp x y) 0); [reflexivity|].
  rewrite IH. apply perm_swap.
Qed.

Lemma sort_Permutation l : Permutation (JS.sort cmp l) l.
Proof.
  induction l as [|x l IH]; simpl; [reflexivity|].
  rewrite insert_Permutation. now constructor.
Qed.

Lemma insert_sorted x l :
  StronglySorted le_key l → StronglySorted le_key (JS.insert cmp x l).
Proof.
  induction 1 as [|y l Hl IH Hy]; simpl.
  - repeat constructor.
  - destruct (Qle_bool (cmp x y) 0) eqn:E.
    + apply cmp_key in E.
      constructor; [now constructor|].
      constructor; [exact E|].
      eapply List.Forall_impl; [|exact Hy].
      intros z Hz. unfold le_key in *. eapply Qle_trans; eassumption.
    + constructor; [exact IH|].
      assert (Hyx : le_key y x).
      { unfold le_key. destruct (Qlt_le_dec (key y) (key x)) as [Hlt|Hge].
        - now apply Qlt_le_weak.
        - apply cmp_key in Hge. congruence. }
      rewrite (List.Forall_forall (le_key y)). intros z Hz.
      apply (Permutation_in _ (insert_Permutation x l)) in Hz.
      destruct Hz as [<-|Hz]; [exact Hyx|].
      rewrite List.Forall_forall in Hy. now apply Hy.
Qed.

Lemma sort_sorted l : StronglySorted le_key (JS.sort cmp l).
Proof.
  induction l as [|x l IH]; simpl; [constructor|now apply insert_sorted].
Qed.

Lemma insert_stable k x l :
  List.filter (same_key k) (JS.insert cmp x l) = List.filter (same_key k) (x :: l).
Proof.
  induction l as [|y l IH]; [reflexivity|].
  cbn [JS.insert]. destruct (Qle_bool (cmp x y) 0) eqn:E; [reflexivity|].
  cbn [List.filter] in *. rewrite IH.
  destruct (same_key k x) eqn:Ex; [|reflexivity].
  destruct (same_key k y) eqn:Ey; [|reflexivity].
  exfalso. unfold same_key in *.
  apply Qeq_bool_iff in Ex, Ey.
  assert (Hxy : (key x <= key y)%Q) by (rewrite Ex, Ey; apply Qle_refl).
  apply cmp_key in Hxy. congruence.
Qed.

Lemma sort_stable k l :
  List.filter (same_key k) (JS.sort cmp l) = List.filter (same_key k) l.
Proof.
  induction l as [|x l IH]; [reflexivity|].
  cbn [JS.sort]. rewrite insert_stable. cbn [List.filter]. now rewrite IH.
Qed.

(** The stable sorted arrangement is unique: two lists sorted by the key
    that hold, for every key, the same elements in the same order are the
    same list.  So every stable sorting algorithm returns what [JS.sort]
    returns. *)
Lemma stable_sorted_unique l1 l2 :
  StronglySorted le_key l1 → StronglySorted le_key l2 →
  (∀ k, List.filter (same_key k) l1 = List.filter (same_key k) l2) →
  l1 = l2.
Proof.
  intros H1. revert l2. induction H1 as [|x l1 Hs IH Hx]; intros l2 H2 Hf.
  - destruct l2 as [|y l2]; [reflexivity|].
    specialize (Hf (key y)). cbn in Hf. unfold same_key in Hf at 1.
    now rewrite (proj2 (Qeq_bool_iff _ _) (Qeq_refl _)) in Hf.
  - assert (Hxx : same_key (key x) x = true) by apply Qeq_bool_iff, Qeq_refl.
    destruct l2 as [|y l2].
    { specialize (Hf (key x)). cbn in Hf. now rewrite Hxx in Hf. }
    assert (Hyy : same_key (key y) y = true) by apply Qeq_bool_iff, Qeq_refl.
    inversion H2 as [|? ? Hs2 Hy]; subst.
    destruct (same_key (key x) y) eqn:E.
    + pose proof (Hf (key x)) as Hk. cbn in Hk. rewrite Hxx, E in Hk.
      injection Hk as <- _. f_equal. apply IH; [exact Hs2|].
      intros k. specialize (Hf k). cbn in Hf.
      destruct (same_key k x); [now injection Hf|exact Hf].
    + exfalso.
      assert (Eyx : same_key (key y) x = false).
      { unfold same_key in *. destruct (Qeq_bool (key x) (key y)) eqn:E'; [|reflexivity].
        apply Qeq_bool_iff in E'. symmetry in E'. apply Qeq_bool_iff in E'. congruence. }
      assert (Hle1 : le_key x y).
      { pose proof (Hf (key y)) as Hk. cbn in Hk. rewrite Eyx, Hyy in Hk.
        assert (Hin : In y (List.filter (same_key (key y)) l1)) by (rewrite Hk; now left).
        apply filter_In in Hin. rewrite List.Forall_forall in Hx. now apply Hx. }
      assert (Hle2 : le_key y x).
      { pose proof (Hf (key x)) as Hk. cbn in Hk. rewrite Hxx, E in Hk.
        assert (Hin : In x (List.filter (same_key (key x)) l2)) by (rewrite <- Hk; now left).
        apply filter_In in Hin. rewrite List.Forall_forall in Hy. now apply Hy. }
      unfold le_key, same_key in *.
      assert (Heq : (key y == key x)%Q) by (apply Qle_antisym; assumption).
      apply Qeq_bool_iff in Heq. congruence.
Qed.
End SortFacts.

(** ** Ranking *)

Section Ranking.
Import BridgeRouter Sample.

Lemma Qle_bool_minus (x y : Q) : Qle_bool (x - y) 0 = true ↔ (x <= y)%Q.
Proof. rewrite Qle_bool_iff. split; intros H; lra. Qed.

Lemma rankCompare_sortKey priority a b :
  Qle_bool (rankCompare priority a b) 0 = true
  ↔ (sortKey priority a <= sortKey priority b)%Q.
Proof.
  unfold rankCompare, sortKey.
  destruct (String.eqb priority "cheapest"); [apply Qle_bool_minus|].
  destruct (String.eqb priority "fastest"); [apply Qle_bool_minus|].
  destruct (String.eqb priority "safest"); [|apply Qle_bool_minus].
  rewrite Qle_bool_iff. split; intros H; lra.
Qed.


Lemma rankQuotes_sorted_by_key priority quotes :
  StronglySorted (λ a b, (sortKey priority a <= sortKey priority b)%Q)
    (rankQuotes quotes priority).
Proof. apply sort_sorted, rankCompare_sortKey. Qed.

Lemma rankQuotes_Permutation priority quotes :
  Permutation (rankQuotes quotes priority) quotes.
Proof. apply (sort_Permutation (rankCompare priority)). Qed.



(** C7, as stated, fails: two quotes tied on the fee come out in their
    input order, here "Wormhole" before "Axelar", and the same two quotes
    given in the other order come out in the other order. *)
Lemma rankQuotes_tie_not_by_provider :
  (rankCompare "cheapest" wormhole_070 axelar_070 == 0)%Q
  ∧ rankQuotes [wormhole_070; axelar_070] "cheapest" = [wormhole_070; axelar_070]
  ∧ String.ltb (bridge axelar_070) (bridge wormhole_070) = true
  ∧ rankQuotes [axelar_070; wormhole_070] "cheapest" = [axelar_070; wormhole_070]
  ∧ rankQuotes [wormhole_070; axelar_070] "cheapest"
    ≠ rankQuotes [axelar_070; wormhole_070] "cheapest".
Proof. repeat split; try reflexivity. discriminate. Qed.

(** C7, amended.  [rankQuotes] is a stable sort: for every policy and
    every value of the policy's sort key, the quotes with that key appear
    in the output in exactly the order they had in the input; the output
    is a permutation of the input, with no tie-break on the provider. *)
Theorem rankQuotes_stable (quotes : list Quote) (priority : string) (k : Q) :
  List.filter (λ q, Qeq_bool (sortKey priority q) k) (rankQuotes quotes priority)
  = List.filter (λ q, Qeq_bool (sortKey priority q) k) quotes
  ∧ Permutation (rankQuotes quotes priority) quotes.
Proof.
  split; [|apply rankQuotes_Permutation].
  apply (sort_stable (sortKey priority)), rankCompare_sortKey.
Qed.
End Ranking.

(** ** Aggregation *)

Section Aggregation.
Import JS BridgeRouter.
Variable config : Config.t.

Lemma catch_null_Some {A} (body : res (option A)) (q : A) :
  catch_null body = Some q → body = Ret (Some q).
Proof. destruct body as [[v|]|e]; simpl; congruence. Qed.

Ltac provider_cases H :=
  apply catch_null_Some in H;
  repeat match type of H with
    | (if ?c then _ else _) = _ => destruct c eqn:?; try discriminate H
    | match ?r with _ => _ end = _ => destruct r eqn:?; try discriminate H
    end.

Lemma getWormholeQuote_ready rq reply q :
  getWormholeQuote rq reply = Some q → executionReady q = true.
Proof.
  unfold getWormholeQuote. intros H. provider_cases H;
    injection H as <-; reflexivity.
Qed.

Lemma getAxelarQuote_ready rq reply q :
  getAxelarQuote rq reply = Some q → executionReady q = true.
Proof.
  unfold getAxelarQuote. intros H. provider_cases H.
  injection H as <-; reflexivity.
Qed.

Lemma getCelerQuote_ready rq reply q :
  getCelerQuote config rq reply = Some q → executionReady q = true.
Proof.
  unfold getCelerQuote. intros H. provider_cases H.
  injection H as <-; reflexivity.
Qed.

Lemma getLayerZeroQuote_ready rq q :
  getLayerZeroQuote rq = Some q → executionReady q = true.
Proof.
  unfold getLayerZeroQuote. intros H. provider_cases H.
  injection H as <-; reflexivity.
Qed.

(** Every chain Across serves is served by LayerZero too. *)
Lemma acrossId_layerzeroId chain :
  truthyZ (CHAIN_IDS chain ≫= acrossId) = true →
  truthyZ (CHAIN_IDS chain ≫= layerzeroId) = true.
Proof.
  unfold CHAIN_IDS.
  repeat match goal with
    | |- context [String.eqb chain ?s] => destruct (String.eqb chain s)
    end; simpl; congruence.
Qed.

Lemma getAcrossQuote_LayerZero rq reply q :
  getAcrossQuote config rq reply = Some q → is_Some (getLayerZeroQuote rq).
Proof.
  unfold getAcrossQuote. intros H. apply catch_null_Some in H.
  destruct (truthyZ (CHAIN_IDS (fromChain rq) ≫= acrossId)) eqn:Hf; [|discriminate H].
  destruct (truthyZ (CHAIN_IDS (toChain rq) ≫= acrossId)) eqn:Ht; [|discriminate H].
  apply acrossId_layerzeroId in Hf, Ht.
  unfold getLayerZeroQuote. rewrite Hf, Ht. simpl. eauto.
Qed.

Lemma head_sort_In {A} (cmp : A → A → Q) l x : head (JS.sort cmp l) = Some x → In x l.
Proof.
  intros H. apply (Permutation_in _ (sort_Permutation cmp l)).
  destruct (JS.sort cmp l); [discriminate|]. injection H as ->. now left.
Qed.

(** Among the quotes collected there is an executable one as soon as
    there is any: Across alone answers with a quote that is not, and
    LayerZero answers whenever Across does. *)
Lemma quotesOf_ready rq net x :
  In x (quotesOf config rq net) →
  ∃ y, In y (quotesOf config rq net) ∧ executionReady y = true.
Proof.
  unfold quotesOf.
  destruct (getAcrossQuote config rq (across net)) as [qa|] eqn:Ea;
  destruct (getWormholeQuote rq (wormhole net)) as [qw|] eqn:Ew;
  destruct (getAxelarQuote rq (axelar net)) as [qx|] eqn:Ex;
  destruct (getCelerQuote config rq (celer net)) as [qc|] eqn:Ec;
  destruct (getLayerZeroQuote rq) as [ql|] eqn:El;
  try (apply getAcrossQuote_LayerZero in Ea; destruct Ea as [? Ea]; congruence);
  try apply getWormholeQuote_ready in Ew;
  try apply getAxelarQuote_ready in Ex;
  try apply getCelerQuote_ready in Ec;
  try apply getLayerZeroQuote_ready in El;
  cbn; intros Hin; try destruct Hin;
  eexists; (split; [|eassumption]); cbn; tauto.
Qed.

Lemma validQuotes_nonempty rq net x :
  In x (quotesOf config rq net) →
  List.filter (λ q, Bool.eqb (executionReady q) true) (quotesOf config rq net) ≠ [].
Proof.
  intros Hx. destruct (quotesOf_ready rq net x Hx) as (y & Hy & Hr).
  assert (Hin : In y (List.filter (λ q, Bool.eqb (executionReady q) true)
                        (quotesOf config rq net))).
  { apply filter_In. split; [exact Hy|]. now rewrite Hr. }
  intros E. rewrite E in Hin. destruct Hin.
Qed.

(** The quote ranked first is one that can be executed. *)
Lemma best_executionReady rq net q :
  best (getBestBridgeRoute config rq net) = Some q → executionReady q = true.
Proof.
  unfold getBestBridgeRoute. fold (quotesOf config rq net).
  pose proof (validQuotes_nonempty rq net) as Hne.
  set (allQuotes := quotesOf config rq net) in *.
  set (validQuotes := List.filter _ allQuotes) in *.
  destruct validQuotes as [|v vs] eqn:Ev.
  - (* no ready quote: then there is no quote at all *)
    destruct allQuotes as [|x xs]; [discriminate|].
    destruct (Hne x); [now left|reflexivity].
  - cbn [length Nat.ltb Nat.leb Nat.eqb best]. intros H.
    apply head_sort_In in H. rewrite <- Ev in H. subst validQuotes.
    apply filter_In in H. destruct H as [_ H].
    now destruct (executionReady q).
Qed.

(** So the fall-back to quotes that cannot be executed is never taken with
    a quote in hand: the warning that goes with it is never issued. *)
Lemma fallback_never_taken rq net bridges :
  ¬ In (SdkNotInstalled bridges) (warnings (getBestBridgeRoute config rq net)).
Proof.
  unfold getBestBridgeRoute. fold (quotesOf config rq net).
  pose proof (validQuotes_nonempty rq net) as Hne.
  set (allQuotes := quotesOf config rq net) in *.
  set (validQuotes := List.filter _ allQuotes) in *.
  destruct validQuotes as [|v vs] eqn:Ev.
  - destruct allQuotes as [|x xs]; [cbn; intros [H|[]]; discriminate|].
    destruct (Hne x); [now left|reflexivity].
  - cbn [length Nat.ltb Nat.leb Nat.eqb warnings andb app]. rewrite Bool.andb_false_r.
    cbn [app]. intros Hin. apply in_flat_map in Hin. destruct Hin as (y & _ & Hin).
    apply in_app_or in Hin.
    destruct Hin as [Hin|Hin];
      match type of Hin with In _ (if ?c then _ else _) => destruct c end;
      cbn in Hin; intuition discriminate.
Qed.

(** C4, amended.  The aggregation is a total function: it cannot throw.
    A provider whose request fails by an error (no connection, a timeout,
    a body that cannot be read) yields no quote; so does one whose request
    is answered with a failure status, Wormhole excepted, which then
    answers with its fixed estimate when it serves both chains.  And the
    aggregation returns [best = null], no quotes and one warning exactly
    when no provider yields a quote. *)
Theorem getBestBridgeRoute_no_quote (rq : Request) :
  (∀ e, getAcrossQuote config rq (NetError e) = None
        ∧ getWormholeQuote rq (NetError e) = None
        ∧ getAxelarQuote rq (NetError e) = None
        ∧ getCelerQuote config rq (NetError e) = None)
  ∧ (getAcrossQuote config rq NotOk = None
     ∧ getAxelarQuote rq NotOk = None
     ∧ getCelerQuote config rq NotOk = None
     ∧ getWormholeQuote rq NotOk
       = if truthyZ (CHAIN_IDS (fromChain rq) ≫= wormholeId)
            && truthyZ (CHAIN_IDS (toChain rq) ≫= wormholeId)
         then Some (mkQuote "Wormhole" (amount rq * 0.001 + 0.5) 15 0.97 10000000
                      "wormhole_ntt" true)
         else None)
  ∧ ∀ net,
      let r := getBestBridgeRoute config rq net in
      (getAcrossQuote config rq (across net) = None →
       getWormholeQuote rq (wormhole net) = None →
       getAxelarQuote rq (axelar net) = None →
       getCelerQuote config rq (celer net) = None →
       getLayerZeroQuote rq = None →
       best r = None ∧ all r = [] ∧ (0 < length (warnings r))%nat
       ∧ warnings r = [NoSupportedRoute (token rq) (fromChain rq) (toChain rq)])
      ∧ (best r = None →
         getAcrossQuote config rq (across net) = None
         ∧ getWormholeQuote rq (wormhole net) = None
         ∧ getAxelarQuote rq (axelar net) = None
         ∧ getCelerQuote config rq (celer net) = None
         ∧ getLayerZeroQuote rq = None).
Proof.
  split; [|split].
  - intros e. unfold getAcrossQuote, getWormholeQuote, getAxelarQuote, getCelerQuote.
    repeat split;
      repeat match goal with
        | |- context [if ?c then _ else _] => destruct c
        end; reflexivity.
  - unfold getAcrossQuote, getWormholeQuote, getAxelarQuote, getCelerQuote.
    repeat split;
      repeat match goal with
        | |- context [if negb ?c || _ then _ else _] => destruct c; cbn [negb orb andb]
        | |- context [if _ || negb ?c then _ else _] => destruct c; cbn [negb orb andb]
        | |- context [if negb ?c then _ else _] => destruct c; cbn [negb]
        end; reflexivity.
  - intros net. cbv zeta. split.
    + intros Ha Hw Hx Hc Hl. unfold getBestBridgeRoute.
      rewrite Ha, Hw, Hx, Hc, Hl. cbn. repeat split. lia.
    + intros Hbest.
      assert (Hnone : quotesOf config rq net = []).
      { revert Hbest. unfold getBestBridgeRoute. fold (quotesOf config rq net).
        pose proof (validQuotes_nonempty rq net) as Hne.
        set (allQuotes := quotesOf config rq net) in *.
        set (validQuotes := List.filter _ allQuotes) in *.
        destruct validQuotes as [|v vs] eqn:Ev.
        - destruct allQuotes as [|x xs]; [reflexivity|].
          destruct (Hne x); [now left|reflexivity].
        - cbn [length Nat.ltb Nat.leb Nat.eqb best]. intros Hhead.
          pose proof (rankQuotes_Permutation (default "cheapest" (priority rq)) (v :: vs))
            as Hperm.
          destruct (rankQuotes (v :: vs) _); [|discriminate Hhead].
          apply Permutation_length in Hperm. discriminate Hperm. }
      unfold quotesOf in Hnone.
      destruct (getAcrossQuote config rq (across net));
      destruct (getWormholeQuote rq (wormhole net));
      destruct (getAxelarQuote rq (axelar net));
      destruct (getCelerQuote config rq (celer net));
      destruct (getLayerZeroQuote rq);
      cbn in Hnone; try discriminate Hnone. repeat split.
Qed.
End Aggregation.

(** ** Validation *)

Section Validation.
Import JS Validator.

Lemma length_zero_nil {A} (l : list A) : Nat.eqb (length l) 0 = true ↔ l = [].
Proof. destruct l; cbn; split; congruence. Qed.

(** C5.  For every intent and every quote (or none), a verdict that
    [validateTransfer] returns has [valid = true] exactly when its
    [errors] are empty, whatever its warnings and suggestions; and a
    verdict is returned whenever the intent carries a destination
    address. *)
Theorem validateTransfer_valid_iff (intent : Intent.Transfer)
    (bridgeQuote : option BridgeRouter.Quote) :
  (∀ v, validateTransfer intent bridgeQuote = Ret v →
        (valid v = true ↔ errors v = []))
  ∧ (∀ a, Intent.toAddress intent = Some a →
          ∃ v, validateTransfer intent bridgeQuote = Ret v).
Proof.
  unfold validateTransfer. split.
  - intros v. destruct (Intent.toAddress intent); [|discriminate].
    intros [= <-]. cbn [valid errors]. apply length_zero_nil.
  - intros a ->. eauto.
Qed.
End Validation.

(** ** The transfer state machine *)

Section StateMachine.
Import JS Orchestrator.
Variable config : Config.t.
Variable text : Templates.

Ltac run_monad :=
  unfold mbind, mret, M_bind, M_ret, throw, lift, get, update, perform, try_catch in *;
  cbn [fst snd session trace] in *.

(** [processTransfer] either changes nothing and answers in state
    [idle] (or throws), or stores the best quote, valid and within the
    fee limit, and asks for confirmation. *)
Lemma processTransfer_cases env i st :
  ∃ r st', processTransfer config text env i st = (r, st') ∧
    ((st' = st ∧ ∀ resp, r = Ret resp → replyState resp = idle)
     ∨ ∃ addr q v full alt,
         Intent.toAddress i = Some addr
         ∧ BridgeRouter.best
             (BridgeRouter.getBestBridgeRoute config (requestFor (session st) i addr) (net env))
           = Some q
         ∧ Validator.validateTransfer
             (set_toChain (BridgeRouter.toChain (requestFor (session st) i addr)) i) (Some q)
           = Ret v
         ∧ Validator.valid v = true
         ∧ gt (div (BridgeRouter.feeUSD q) (Intent.amount i)) 0.25 = false
         ∧ bridgeQuote alt = q
         ∧ st' = mkSt (awaiting (session st) alt full) (trace st)
         ∧ ∃ m, r = Ret (mkResponse m awaiting_confirmation)).
Proof.
  unfold processTransfer. run_monad.
  destruct (Intent.toAddress i) as [addr|] eqn:Haddr;
    [|eexists _, _; split; [reflexivity|left; split; [reflexivity|discriminate]]].
  destruct (String.eqb _ "unknown") eqn:Hunk;
    [eexists _, _; split; [reflexivity|left; split; [reflexivity|now intros ? [= <-]]]|].
  destruct (ChainDetector.unsupported _) eqn:Hsup;
    [eexists _, _; split; [reflexivity|left; split; [reflexivity|now intros ? [= <-]]]|].
  destruct (BridgeRouter.best _) as [q|] eqn:Hbest.
  2:{ destruct (String.eqb _ "solana");
      (eexists _, _; split; [reflexivity|left; split; [reflexivity|now intros ? [= <-]]]). }
  destruct (Validator.validateTransfer _ _) as [v|e] eqn:Hv;
    [|eexists _, _; split; [reflexivity|left; split; [reflexivity|discriminate]]].
  destruct (Validator.valid v) eqn:Hvalid; cbn [negb].
  2:{ destruct (explainError env);
      (eexists _, _; split; [reflexivity|left; split;
         [reflexivity|first [discriminate|now intros ? [= <-]]]]). }
  destruct (gt _ 0.25) eqn:Hgt;
    [eexists _, _; split; [reflexivity|left; split; [reflexivity|now intros ? [= <-]]]|].
  destruct (generateTransactionPreview env) as [preview|e];
    [|eexists _, _; split; [reflexivity|left; split; [reflexivity|discriminate]]].
  eexists _, _; split; [reflexivity|right].
  eexists addr, q, v, _, (mkPending _ q _ _ _).
  repeat split; try eassumption; try reflexivity. eauto.
Qed.

(** What [executeTransfer] does with a pending transaction [p]: it
    records the dispatch (followed by effects on the chain only) and
    returns the session to [idle]; a reply in state [idle], the receipt,
    comes with [pendingTransaction] cleared, a reply in state ["error"]
    with [pendingTransaction] still [p]. *)
Lemma executeTransfer_spec env st p :
  pendingTransaction (session st) = Some p →
  ∃ r st' more,
    executeTransfer config env st = (r, st')
    ∧ trace st' = trace st ++ Dispatch (sessionId (session st)) p :: more
    ∧ Forall chain_effect more
    ∧ state (session st') = idle
    ∧ (pendingTransaction (session st') = None
       ∨ pendingTransaction (session st') = Some p)
    ∧ ∀ resp, r = Ret resp →
        (replyState resp = idle ∧ pendingTransaction (session st') = None)
        ∨ (replyState resp = Orchestrator.error
           ∧ (pendingTransaction (session st') = Some p
              ∨ Intent.toAddress (intent p) = None)).
Proof.
  intros Hp. unfold executeTransfer. run_monad. rewrite Hp.
  repeat match goal with
    | |- context [match ?x with _ => _ end] =>
        lazymatch x with
        | context [match _ with _ => _ end] => fail
        | _ => destruct x eqn:?
        end
    | |- context [if ?x then _ else _] =>
        lazymatch x with
        | context [if _ then _ else _] => fail
        | _ => destruct x eqn:?
        end
    end;
    cbn [fst snd session trace set_state set_pendingTransaction push_history
         state pendingTransaction];
    rewrite <- ?app_assoc; cbn [app];
    (eexists _, _, _; split; [reflexivity|]; split; [reflexivity|]);
    (split; [repeat constructor|]); (split; [reflexivity|]);
    (split; [rewrite ?Hp; auto|]);
    first [ intros resp [=]; fail
          | intros resp [= <-]; cbn [replyState]; rewrite ?Hp; auto ].
Qed.

(** *** Only executable quotes are stored and dispatched *)

Lemma trace_ok_app t more :
  trace_ok t → Forall chain_effect more → trace_ok (t ++ more).
Proof.
  intros Ht Hm sid p Hin. apply in_app_or in Hin. destruct Hin as [Hin|Hin]; [eauto|].
  rewrite List.Forall_forall in Hm. destruct (Hm _ Hin).
Qed.

Lemma executeTransfer_ok env st : st_ok st → st_ok (executeTransfer config env st).2.
Proof.
  intros [Hs Ht].
  destruct (pendingTransaction (session st)) as [p|] eqn:Hp.
  - destruct (executeTransfer_spec env st p Hp)
      as (r & st' & more & -> & Htr & Hmore & _ & Hpend & _).
    cbn [snd]. split.
    + intros p' Hp'. destruct Hpend as [Hn|Hsame]; [congruence|].
      rewrite Hsame in Hp'. injection Hp' as <-. now apply Hs.
    + rewrite Htr. intros sid p' Hin. apply in_app_or in Hin.
      destruct Hin as [Hin|[Hin|Hin]]; [eauto| |].
      * injection Hin as _ <-. now apply Hs.
      * rewrite List.Forall_forall in Hmore. destruct (Hmore _ Hin).
  - unfold executeTransfer. run_monad. rewrite Hp. now split.
Qed.

Lemma processTransfer_ok env i st : st_ok st → st_ok (processTransfer config text env i st).2.
Proof.
  intros [Hs Ht].
  destruct (processTransfer_cases env i st) as (r & st' & -> & [[-> _]|H]); [now split|].
  destruct H as (addr & q & v & full & alt & _ & Hbest & _ & _ & _ & Halt & -> & _).
  split; [|exact Ht]. intros p [= <-]. unfold ready. rewrite Halt.
  eapply best_executionReady, Hbest.
Qed.

Lemma handleConfirmation_ok env msg st :
  st_ok st → st_ok (handleConfirmation config env msg st).2.
Proof.
  intros Hok. unfold handleConfirmation.
  destruct (isYes msg).
  - run_monad. apply executeTransfer_ok. exact Hok.
  - destruct (isNo msg); run_monad; [|exact Hok].
    destruct Hok as [_ Ht]. split; [|exact Ht]. intros p [=].
Qed.

Lemma dispatchMessage_ok env msg st :
  st_ok st → st_ok (dispatchMessage config text env msg st).2.
Proof.
  intros Hok. unfold dispatchMessage. run_monad.
  destruct (bool_decide _); [now apply handleConfirmation_ok|].
  destruct (parseIntent env) as [intent|e]; [|exact Hok].
  set (st1 := mkSt _ _).
  assert (Hok1 : st_ok st1) by (destruct Hok; now split).
  clearbody st1. clear Hok st.
  destruct intent as [i|i|i|i|i|t]; cbn [snd]; try exact Hok1.
  - now apply processTransfer_ok.
  - unfold processSwapAndTransfer. run_monad.
    destruct (getSwapRoute env) as [[sr|]|e]; try exact Hok1.
    now apply processTransfer_ok.
  - unfold handleQuery. run_monad.
    destruct (String.eqb _ _); [|exact Hok1].
    destruct (BridgeRouter.best _); exact Hok1.
Qed.

(** A message handled while the session does not await confirmation
    dispatches nothing: the dispatcher is reached through a confirmation
    only. *)
Lemma dispatchMessage_no_dispatch env msg st :
  state (session st) ≠ awaiting_confirmation →
  trace (dispatchMessage config text env msg st).2 = trace st.
Proof.
  intros Hstate. unfold dispatchMessage. run_monad.
  rewrite bool_decide_eq_false_2 by exact Hstate.
  destruct (parseIntent env) as [intent|e]; [|reflexivity].
  set (st1 := mkSt _ _). change (trace st) with (trace st1). clearbody st1.
  assert (Hpt : ∀ i, trace (processTransfer config text env i st1).2 = trace st1).
  { intros i. destruct (processTransfer_cases env i st1) as (r & st' & -> & [[-> _]|H]);
      [reflexivity|].
    destruct H as (? & ? & ? & ? & ? & _ & _ & _ & _ & _ & _ & -> & _). reflexivity. }
  destruct intent as [i|i|i|i|i|t]; cbn [snd]; try reflexivity.
  - apply Hpt.
  - unfold processSwapAndTransfer. run_monad.
    destruct (getSwapRoute env) as [[sr|]|e]; try reflexivity. apply Hpt.
  - unfold handleQuery. run_monad.
    destruct (String.eqb _ _); [|reflexivity].
    destruct (BridgeRouter.best _); reflexivity.
Qed.

Lemma createSession_ok sid w n : session_ok (createSession sid w n).
Proof. intros p [=]. Qed.

Lemma handleUserMessage_ok sid msg wallet env h :
  heap_ok h → heap_ok (handleUserMessage config text sid msg wallet env h).2.
Proof.
  intros [Hs Ht]. unfold handleUserMessage, catch_all.
  set (s0 := default _ _).
  assert (Hok0 : st_ok (mkSt s0 (effects h))).
  { split; [|exact Ht]. subst s0. cbn.
    destruct (activeSessions h !! sid) as [s|] eqn:E; cbn; [eauto|apply createSession_ok]. }
  pose proof (dispatchMessage_ok env msg _ Hok0) as Hok.
  destruct (dispatchMessage config text env msg _) as [[r|e] st']; cbn [snd] in *.
  - destruct Hok as [Hs' Ht']. split; [|exact Ht']. cbn.
    intros sid' s'. rewrite lookup_insert. case_decide; [intros [= <-]; exact Hs'|eauto].
  - destruct Hok as [Hs' Ht']. split; [|exact Ht']. cbn.
    intros sid' s'. rewrite lookup_insert. case_decide; [intros [= <-]; exact Hs'|eauto].
Qed.

(** One message dispatches at most one pending transaction, and only as
    the answer to a confirmation: either the message performs no effect
    at all, or the session was awaiting confirmation, the message was taken
    as yes, the pending transaction of the session was handed to the
    dispatcher once, and the session has left [awaiting_confirmation]. *)
Lemma handleUserMessage_dispatches sid msg wallet env h :
  let s := default (createSession sid wallet (now env)) (activeSessions h !! sid) in
  let h' := (handleUserMessage config text sid msg wallet env h).2 in
  effects h' = effects h
  ∨ (state s = awaiting_confirmation ∧ isYes msg = true
     ∧ ∃ p more s',
         pendingTransaction s = Some p
         ∧ effects h' = effects h ++ Dispatch (sessionId s) p :: more
         ∧ Forall chain_effect more
         ∧ activeSessions h' !! sid = Some s'
         ∧ state s' = idle).
Proof.
  intros s h'. subst h'. unfold handleUserMessage, catch_all. fold s.
  destruct (decide (state s = awaiting_confirmation)) as [Hs|Hs].
  - unfold dispatchMessage. run_monad.
    rewrite bool_decide_eq_true_2 by exact Hs. unfold handleConfirmation.
    destruct (isYes msg) eqn:Hy.
    + run_monad.
      destruct (pendingTransaction s) as [p|] eqn:Hp.
      * destruct (executeTransfer_spec env (mkSt (set_state executing s) (effects h)) p Hp)
          as (r & st' & more & -> & Htr & Hmore & Hidle & _).
        right. split; [exact Hs|]. split; [reflexivity|].
        destruct r as [resp|e]; cbn [snd fst effects activeSessions session trace] in *.
        -- exists p, more, (session st'). rewrite lookup_insert_eq. auto.
        -- exists p, more, (set_state idle (session st')). rewrite lookup_insert_eq. auto.
      * left. unfold executeTransfer. run_monad.
        change (pendingTransaction (set_state executing s)) with (pendingTransaction s).
        rewrite Hp. reflexivity.
    + left. destruct (isNo msg); reflexivity.
  - left.
    pose proof (dispatchMessage_no_dispatch env msg (mkSt s (effects h)) Hs) as Htr.
    destruct (dispatchMessage config text env msg _) as [[resp|e] st']; exact Htr.
Qed.
End StateMachine.

(** ** The program as a whole *)

Section Program.
Import JS Orchestrator.
Variable config : Config.t.
Variable text : Templates.

Lemma poll_preserves {W} (I : W → Prop)
    (onAlertTriggered : string → AlertEngine.Alert → W → res unit * W) probe now :
  (∀ alertId alert w, I w → I (onAlertTriggered alertId alert w).2) →
  ∀ entries w, I w →
    I (AlertEngine.world (AlertEngine.poll config onAlertTriggered probe now entries w)).
Proof.
  intros Hcb. induction entries as [|[alertId alert] rest IH]; intros w Hw; cbn; [exact Hw|].
  destruct (AlertEngine.triggered alert); [cbn; eauto|].
  destruct (AlertEngine.checkPriceAlert _ _ _) as [[|]|e]; cbn; eauto.
  specialize (Hcb alertId (AlertEngine.mark_triggered now alert) w Hw).
  destruct (onAlertTriggered _ _ w) as [[u|e] w']; cbn in *; eauto.
Qed.

Lemma emit_ok room event h : heap_ok h → heap_ok (Server.emit room event h).
Proof.
  intros [Hs Ht]. split; [exact Hs|]. cbn.
  apply trace_ok_app; [exact Ht|]. repeat constructor.
Qed.

Lemma onAlertTriggered_ok envFor alertId alert h :
  heap_ok h → heap_ok (Server.onAlertTriggered config text envFor alertId alert h).2.
Proof.
  intros Hok. unfold Server.onAlertTriggered.
  destruct (String.eqb _ "transfer"); [|now apply emit_ok].
  pose proof (handleUserMessage_ok config text (AlertEngine.sessionId alert) "yes"
                (mkWalletInfo None None) (envFor alertId) _
                (emit_ok (AlertEngine.sessionId alert) "alert_triggered" h Hok)) as H.
  destruct (handleUserMessage _ _ _ _ _ _ _) as [response h']. cbn in *.
  now apply emit_ok.
Qed.

Lemma step_ok w e :
  heap_ok (Server.heap w) → heap_ok (Server.heap (Server.step config text w e)).
Proof.
  intros Hok. destruct e as [sid msg wallet env|probe envFor now|alertId|sid i now]; cbn;
    try exact Hok.
  - now apply handleUserMessage_ok.
  - apply (poll_preserves heap_ok); [|exact Hok].
    intros; now apply onAlertTriggered_ok.
Qed.

Lemma run_ok events w :
  heap_ok (Server.heap w) → heap_ok (Server.heap (Server.run config text events w)).
Proof.
  revert w. induction events as [|e events IH]; intros w Hok; cbn; [exact Hok|].
  apply IH, step_ok, Hok.
Qed.

(** C1.  A quote with [executionReady = false] never reaches the
    execution path: the quote [getBestBridgeRoute] returns as best, for
    every request and whatever the providers answer, is executable; and
    after any sequence of messages, polling ticks and alert operations
    from the initial state, every pending transaction handed to
    [executeTransfer] carries an executable quote. *)
Theorem dispatched_quote_executionReady :
  (∀ rq net q,
      BridgeRouter.best (BridgeRouter.getBestBridgeRoute config rq net) = Some q →
      BridgeRouter.executionReady q = true)
  ∧ ∀ events sid p,
      In (Dispatch sid p)
         (effects (Server.heap (Server.run config text events Server.initial))) →
      BridgeRouter.executionReady (bridgeQuote p) = true.
Proof.
  split; [apply best_executionReady|].
  intros events sid p Hin.
  assert (H0 : heap_ok (Server.heap Server.initial)).
  { split; [intros sid' s'; cbn; rewrite lookup_empty; discriminate|intros ? ? []]. }
  destruct (run_ok events _ H0) as [_ Ht]. exact (Ht sid p Hin).
Qed.

(** The re-prompt.  In [awaiting_confirmation], a message in which the
    handler finds neither an affirmative nor a negative word of its
    vocabulary gets the re-prompt and changes nothing: not the session
    state, not the pending transaction, nothing else either.  So a
    message that changes anything is one in which it finds one. *)
Lemma confirmation_reprompts sid msg wallet env h s :
  activeSessions h !! sid = Some s →
  state s = awaiting_confirmation →
  (isYes msg = false → isNo msg = false →
     handleUserMessage config text sid msg wallet env h
     = (mkResponse ReplyYesOrNo awaiting_confirmation, h))
  ∧ ((handleUserMessage config text sid msg wallet env h).2 ≠ h →
     isYes msg = true ∨ isNo msg = true).
Proof.
  intros Hs Hstate.
  assert (Hre : isYes msg = false → isNo msg = false →
                handleUserMessage config text sid msg wallet env h
                = (mkResponse ReplyYesOrNo awaiting_confirmation, h)).
  { intros Hy Hn.
    unfold handleUserMessage, catch_all, dispatchMessage, handleConfirmation.
    rewrite Hs. cbn [from_option].
    unfold Datatypes.id, mbind, mret, M_bind, M_ret, get. cbn [session].
    rewrite Hstate, bool_decide_eq_true_2 by reflexivity.
    rewrite Hy, Hn. cbn [session trace]. f_equal.
    rewrite insert_id by exact Hs. now destruct h. }
  split; [exact Hre|].
  intros Hne. destruct (isYes msg); [now left|]. destruct (isNo msg); [now right|].
  exfalso. apply Hne. now rewrite Hre.
Qed.

(** C10.  A chat message parsed as an alert intent appends the alert to
    the session's own [alerts] (after the user turn in its history) and
    touches nothing else: not the alert engine's [activeAlerts], not any
    other session, no effect.  And since nothing but a direct call of the
    engine's [registerAlert] adds to [activeAlerts], the collection the
    polling loop iterates stays empty under messages, ticks and
    cancellations alone. *)
Theorem chat_alert_not_in_activeAlerts :
  (∀ w sid msg wallet env i,
      state (default (createSession sid wallet (now env))
               (activeSessions (Server.heap w) !! sid)) ≠ awaiting_confirmation →
      parseIntent env = Ret (Intent.alert i) →
      Server.step config text w (Server.Message sid msg wallet env)
      = Server.mkWorld
          (mkHeap
             (<[sid := push_alert
                         (mkSessionAlert ("alert_" +:+ pretty (now env)) i (now env))
                         (push_history (mkTurn "user" msg)
                            (default (createSession sid wallet (now env))
                               (activeSessions (Server.heap w) !! sid)))]>
                (activeSessions (Server.heap w)))
             (effects (Server.heap w)))
          (Server.activeAlerts w))
  ∧ ∀ events,
      Forall not_registration events →
      Server.activeAlerts (Server.run config text events Server.initial) = [].
Proof.
  split.
  - intros w sid msg wallet env i Hstate Hparse. cbn [Server.step]. f_equal.
    unfold handleUserMessage, catch_all, dispatchMessage.
    unfold mbind, mret, M_bind, M_ret, get, lift, update. cbn [session trace].
    rewrite bool_decide_eq_false_2 by exact Hstate. rewrite Hparse. reflexivity.
  - intros events Hev.
    assert (H : ∀ w, Server.activeAlerts w = [] →
                     Server.activeAlerts (Server.run config text events w) = []).
    { induction Hev as [|e events He _ IH]; intros w Hw; cbn; [exact Hw|].
      apply IH. destruct e; cbn; try exact Hw; try contradiction.
      - unfold Server.tick. now rewrite Hw.
      - now rewrite Hw. }
    now apply H.
Qed.
End Program.

(** ** The hard stop on the fee ratio *)

Section HardStop.
Import JS Orchestrator.
Variable config : Config.t.
Variable text : Templates.

Lemma push_error_has m l : has_errors (Validator.push_error m l) = true.
Proof.
  unfold has_errors, Validator.push_error. cbn [Validator.Arrays.errors].
  rewrite length_app. cbn. now rewrite Nat.add_comm.
Qed.

Lemma when_mono c f l :
  (∀ l, has_errors l = true → has_errors (f l) = true) →
  has_errors l = true → has_errors (Validator.when c f l) = true.
Proof. intros Hf Hl. unfold Validator.when. destruct c; auto. Qed.

Lemma has_errors_not_valid l :
  has_errors l = true → Nat.eqb (length (Validator.Arrays.errors l)) 0 = false.
Proof. unfold has_errors. now destruct (Nat.eqb _ 0). Qed.

Ltac mono :=
  cbv beta;
  lazymatch goal with
  | H : has_errors ?l = true |- has_errors ?l = true => exact H
  | |- has_errors (Validator.when true ?f ?l) = true =>
      change (has_errors (f l) = true); mono
  | |- has_errors (Validator.when _ _ _) = true =>
      apply when_mono; [intros ? ?; mono | mono]
  | |- has_errors (Validator.push_error _ _) = true => apply push_error_has
  | |- has_errors (Validator.push_warning _ ?l) = true =>
      change (has_errors l = true); mono
  | |- has_errors (Validator.push_suggestion _ ?l) = true =>
      change (has_errors l = true); mono
  | |- has_errors (match ?x with _ => _ end) = true => destruct x; mono
  end.

(** Whether the chain is unknown, or unsupported, does not depend on the
    context hint. *)
Lemma detect_unknown_any_hint addr h1 h0 :
  String.eqb (ChainDetector.chain (ChainDetector.detectChainFromAddress addr h1)) "unknown"
    = true →
  ChainDetector.chain (ChainDetector.detectChainFromAddress addr h0) = "unknown".
Proof.
  unfold ChainDetector.detectChainFromAddress, ChainDetector.detectEVMChainFromContext.
  repeat match goal with
    | |- context [if ?c then _ else _] =>
        lazymatch c with
        | context [if _ then _ else _] => fail
        | _ => destruct c
        end
    end; cbn; congruence.
Qed.

Lemma detect_unsupported_any_hint addr h1 h0 :
  ChainDetector.unsupported (ChainDetector.detectChainFromAddress addr h1) = true →
  ChainDetector.chain (ChainDetector.detectChainFromAddress addr h0) = "bitcoin".
Proof.
  unfold ChainDetector.detectChainFromAddress, ChainDetector.detectEVMChainFromContext.
  repeat match goal with
    | |- context [if ?c then _ else _] =>
        lazymatch c with
        | context [if _ then _ else _] => fail
        | _ => destruct c
        end
    end; cbn; congruence.
Qed.

(** A valid verdict means the destination chain was identified and is
    one the agent supports. *)
Lemma valid_chain_known intent q v addr h :
  Validator.validateTransfer intent q = Ret v →
  Intent.toAddress intent = Some addr →
  Validator.valid v = true →
  String.eqb (ChainDetector.chain (ChainDetector.detectChainFromAddress addr h)) "unknown"
    = false
  ∧ ChainDetector.unsupported (ChainDetector.detectChainFromAddress addr h) = false.
Proof.
  unfold Validator.validateTransfer. intros Hv Haddr Hvalid. rewrite Haddr in Hv.
  injection Hv as <-. cbn [Validator.valid] in Hvalid.
  set (h0 := default "" (Intent.rawMessage intent)) in *.
  pose proof has_errors_not_valid as Hno.
  split.
  - destruct (String.eqb (ChainDetector.chain (ChainDetector.detectChainFromAddress addr h))
                "unknown") eqn:Hunk; [exfalso|reflexivity].
    apply (detect_unknown_any_hint addr h h0) in Hunk.
    rewrite Hunk in Hvalid. cbn [String.eqb Ascii.eqb Bool.eqb negb ChainDetector.chain] in Hvalid.
    rewrite Hno in Hvalid; [discriminate|]. mono.
  - destruct (ChainDetector.unsupported (ChainDetector.detectChainFromAddress addr h))
      eqn:Hsup; [exfalso|reflexivity].
    apply (detect_unsupported_any_hint addr h h0) in Hsup.
    rewrite Hsup in Hvalid.
    cbn [String.eqb Ascii.eqb Bool.eqb negb ChainDetector.chain
         ChainDetector.validateAddressForChain existsb orb ChainDetector.valid
         ChainDetector.reason] in Hvalid.
    rewrite Hno in Hvalid; [discriminate|]. mono.
Qed.

Lemma set_state_same s x : state s = x → set_state x s = s.
Proof. intros <-. now destruct s. Qed.

(** With a valid verdict and a fee above a quarter of the amount,
    [processTransfer] answers with the hard stop and changes nothing. *)
Lemma processTransfer_fee_too_high env i st addr q v :
  Intent.toAddress i = Some addr →
  BridgeRouter.best
    (BridgeRouter.getBestBridgeRoute config (requestFor (session st) i addr) (net env))
  = Some q →
  Validator.validateTransfer
    (set_toChain (BridgeRouter.toChain (requestFor (session st) i addr)) i) (Some q)
  = Ret v →
  Validator.valid v = true →
  gt (div (BridgeRouter.feeUSD q) (Intent.amount i)) 0.25 = true →
  processTransfer config text env i st
  = (Ret (mkResponse
            (FeeTooHigh q (div (BridgeRouter.feeUSD q) (Intent.amount i)) (Intent.amount i))
            idle), st).
Proof.
  intros Haddr Hbest Hv Hvalid Hgt.
  destruct (valid_chain_known _ _ _ addr (hint (session st)) Hv Haddr Hvalid) as [Hunk Hsup].
  unfold requestFor, hint in *. cbn [BridgeRouter.toChain] in Hv.
  unfold processTransfer, mbind, mret, M_bind, M_ret, get, lift.
  rewrite Haddr, Hunk, Hsup, Hbest, Hv, Hvalid. cbn [negb]. now rewrite Hgt.
Qed.

Lemma dispatchMessage_transfer env msg st i :
  state (session st) ≠ awaiting_confirmation →
  parseIntent env = Ret (Intent.transfer i) →
  dispatchMessage config text env msg st
  = processTransfer config text env i
      (mkSt (push_history (mkTurn "user" msg) (session st)) (trace st)).
Proof.
  intros Hstate Hparse. unfold dispatchMessage, mbind, M_bind, get, lift, update.
  rewrite bool_decide_eq_false_2 by exact Hstate. now rewrite Hparse.
Qed.

(** C3.  A transfer intent whose best quote charges more than 25% of
    the amount never reaches confirmation: handling the message leaves
    the session in [idle] with the pending transaction it had (only the
    user's turn is added to its history), performs no effect, and the
    reply is not a request for confirmation.  When validation passes,
    the reply is the hard stop itself. *)
Theorem hard_stop_before_confirmation sid msg wallet env h i addr q :
  let s0 := default (createSession sid wallet (now env)) (activeSessions h !! sid) in
  let s1 := push_history (mkTurn "user" msg) s0 in
  state s0 = idle →
  parseIntent env = Ret (Intent.transfer i) →
  Intent.toAddress i = Some addr →
  BridgeRouter.best
    (BridgeRouter.getBestBridgeRoute config (requestFor s1 i addr) (net env)) = Some q →
  gt (div (BridgeRouter.feeUSD q) (Intent.amount i)) 0.25 = true →
  ∃ resp,
    handleUserMessage config text sid msg wallet env h
    = (resp, mkHeap (<[sid := s1]> (activeSessions h)) (effects h))
    ∧ state s1 = idle
    ∧ pendingTransaction s1 = pendingTransaction s0
    ∧ replyState resp ≠ awaiting_confirmation
    ∧ ∀ v,
        Validator.validateTransfer
          (set_toChain (BridgeRouter.toChain (requestFor s1 i addr)) i) (Some q) = Ret v →
        Validator.valid v = true →
        resp = mkResponse
                 (FeeTooHigh q (div (BridgeRouter.feeUSD q) (Intent.amount i))
                    (Intent.amount i)) idle.
Proof.
  intros s0 s1 Hidle Hparse Haddr Hbest Hgt.
  unfold handleUserMessage, catch_all.
  rewrite dispatchMessage_transfer with (i := i);
    [|cbn [session]; fold s0; rewrite Hidle; discriminate|exact Hparse].
  cbn [session trace]. fold s0. fold s1.
  destruct (processTransfer_cases config text env i (mkSt s1 (effects h)))
    as (r & st' & Hrun & Hcases).
  assert (Hst : st' = mkSt s1 (effects h) ∧ ∀ resp, r = Ret resp → replyState resp = idle).
  { destruct Hcases as [H|H]; [exact H|exfalso].
    destruct H as (addr' & q' & v & full & alt & Haddr' & Hbest' & _ & _ & Hgt' & _).
    rewrite Haddr in Haddr'. injection Haddr' as <-. cbn [session] in Hbest'.
    rewrite Hbest in Hbest'. injection Hbest' as <-. congruence. }
  destruct Hst as [-> Hr].
  assert (Hfire : ∀ v,
    Validator.validateTransfer
      (set_toChain (BridgeRouter.toChain (requestFor s1 i addr)) i) (Some q) = Ret v →
    Validator.valid v = true →
    r = Ret (mkResponse
               (FeeTooHigh q (div (BridgeRouter.feeUSD q) (Intent.amount i))
                  (Intent.amount i)) idle)).
  { intros v Hv Hvalid.
    pose proof (processTransfer_fee_too_high env i (mkSt s1 (effects h)) addr q v
                  Haddr Hbest Hv Hvalid Hgt) as H.
    rewrite Hrun in H. congruence. }
  rewrite Hrun. cbn [session trace].
  destruct r as [resp|e].
  - exists resp. repeat split; try reflexivity; try exact Hidle.
    + rewrite (Hr resp eq_refl). discriminate.
    + intros v Hv Hvalid. specialize (Hfire v Hv Hvalid). congruence.
  - eexists. rewrite set_state_same by exact Hidle.
    repeat split; try reflexivity; try exact Hidle.
    + discriminate.
    + intros v Hv Hvalid. specialize (Hfire v Hv Hvalid). discriminate.
Qed.
End HardStop.

(** ** The polling loop *)

Section PollingFacts.
Import JS AlertEngine.
Context {W : Type}.
Variable config : Config.t.
Variable onAlertTriggered : string → Alert → W → res unit * W.

(** A triggered alert is terminal: a run over alerts that are all
    triggered checks nothing, calls nothing and changes nothing. *)
Lemma poll_triggered_terminal probe now entries w :
  Forall (λ e, triggered e.2 = true) entries →
  poll config onAlertTriggered probe now entries w = mkRun (Ret ()) entries w [].
Proof.
  induction 1 as [|[alertId alert] rest Ht _ IH]; [reflexivity|].
  cbn in *. rewrite Ht, IH. reflexivity.
Qed.

(** The callback is only ever called for alerts that were not yet
    triggered. *)
Lemma poll_calls_untriggered probe now entries w alertId :
  In alertId (calls (poll config onAlertTriggered probe now entries w)) →
  ∃ alert, In (alertId, alert) entries ∧ triggered alert = false.
Proof.
  revert w. induction entries as [|[id a] rest IH]; intros w; cbn; [intros []|].
  destruct (triggered a) eqn:Ht.
  { cbn. intros H. destruct (IH _ H) as (x & Hx & Hf). eauto. }
  destruct (checkPriceAlert config a (probe id)) as [[|]|e]; cbn.
  - destruct (onAlertTriggered id _ w) as [[u|e] w']; cbn.
    + intros [<-|H]; [eauto|]. destruct (IH _ H) as (x & Hx & Hf). eauto.
    + intros [<-|[]]. eauto.
  - intros H. destruct (IH _ H) as (x & Hx & Hf). eauto.
  - intros [].
Qed.

(** A single alert whose condition holds: the run marks it triggered and
    calls the callback once; the next run, whatever the world answers
    then, calls nothing and leaves the alert as it is. *)
Lemma poll_fires_once probe now probe' now' alertId alert w :
  triggered alert = false →
  checkPriceAlert config alert (probe alertId) = Ret true →
  let r := poll config onAlertTriggered probe now [(alertId, alert)] w in
  activeAlerts r = [(alertId, mark_triggered now alert)]
  ∧ calls r = [alertId]
  ∧ poll config onAlertTriggered probe' now' (activeAlerts r) (world r)
    = mkRun (Ret ()) (activeAlerts r) (world r) [].
Proof.
  intros Ht Hc. cbn. rewrite Ht, Hc.
  destruct (onAlertTriggered alertId (mark_triggered now alert) w) as [[u|e] w']; cbn; auto.
Qed.

(** A check that throws ends the run where it stands: no alert behind it
    is checked, whatever its condition. *)
Lemma poll_throw_ends_run probe now alertId alert rest w e :
  triggered alert = false →
  checkPriceAlert config alert (probe alertId) = Throw e →
  poll config onAlertTriggered probe now ((alertId, alert) :: rest) w
  = mkRun (Throw e) ((alertId, alert) :: rest) w [].
Proof. intros Ht Hc. cbn. now rewrite Ht, Hc. Qed.

(** A price alert without a token makes its check throw, at every tick. *)
Lemma checkPriceAlert_no_token alert world :
  triggered alert = false →
  Intent.condition (intent alert) = "price_below" →
  Intent.alertToken (intent alert) = None →
  ∃ e, checkPriceAlert config alert world = Throw e.
Proof.
  intros Ht Hc Hk. unfold checkPriceAlert. rewrite Ht, Hc, Hk. cbn. eauto.
Qed.
End PollingFacts.

(** ** Scenarios *)

Section Scenarios.
Import JS Orchestrator Sample.

(** 100 USDC from Celo to Solana, where only Wormhole could quote, with
    every service down. *)
Lemma getBestBridgeRoute_no_quote_witness :
  BridgeRouter.getBestBridgeRoute config
    (BridgeRouter.mkRequest "celo" "solana" "USDC" 100 None) all_down
  = BridgeRouter.mkRoutes None [] [BridgeRouter.NoSupportedRoute "USDC" "celo" "solana"].
Proof.
  pose proof (proj1 (proj2 (proj2 (getBestBridgeRoute_no_quote config
                       (BridgeRouter.mkRequest "celo" "solana" "USDC" 100 None)))
                all_down) eq_refl eq_refl eq_refl eq_refl eq_refl) as (Hb & Ha & _ & Hw).
  destruct (BridgeRouter.getBestBridgeRoute _ _ _) as [b a w]. cbn in *. congruence.
Defined.

(** C4, as stated, fails: 100 USDC from Celo to Solana while every
    service answers with a failure status.  The call of Wormhole failed,
    and no other provider yields a quote; yet the aggregation returns the
    estimate of Wormhole as the best route, and a list of one quote. *)
Lemma getBestBridgeRoute_quote_on_failed_call :
  BridgeRouter.wormhole all_refused = NotOk
  ∧ BridgeRouter.getAcrossQuote config
      (BridgeRouter.mkRequest "celo" "solana" "USDC" 100 None)
      (BridgeRouter.across all_refused) = None
  ∧ BridgeRouter.getAxelarQuote
      (BridgeRouter.mkRequest "celo" "solana" "USDC" 100 None)
      (BridgeRouter.axelar all_refused) = None
  ∧ BridgeRouter.getCelerQuote config
      (BridgeRouter.mkRequest "celo" "solana" "USDC" 100 None)
      (BridgeRouter.celer all_refused) = None
  ∧ BridgeRouter.getLayerZeroQuote
      (BridgeRouter.mkRequest "celo" "solana" "USDC" 100 None) = None
  ∧ BridgeRouter.best
      (BridgeRouter.getBestBridgeRoute config
         (BridgeRouter.mkRequest "celo" "solana" "USDC" 100 None) all_refused)
    = Some wormhole_estimate_100
  ∧ BridgeRouter.all
      (BridgeRouter.getBestBridgeRoute config
         (BridgeRouter.mkRequest "celo" "solana" "USDC" 100 None) all_refused)
    = [wormhole_estimate_100]
  ∧ BridgeRouter.best
      (BridgeRouter.getBestBridgeRoute config
         (BridgeRouter.mkRequest "celo" "solana" "USDC" 100 None) all_refused)
    ≠ None.
Proof. repeat split; try reflexivity. discriminate. Qed.

(** The verdict on 100 USDC to Solana over a 60-dollar route: one warning,
    one suggestion, no error, valid. *)
Lemma validateTransfer_valid_iff_witness :
  ∃ v, Validator.validateTransfer send_100_usdc_solana (Some wormhole_fee_60) = Ret v
       ∧ (Validator.valid v = true ↔ Validator.errors v = [])
       ∧ Validator.valid v = true
       ∧ length (Validator.warnings v) = 1%nat
       ∧ length (Validator.suggestions v) = 1%nat.
Proof.
  pose proof (validateTransfer_valid_iff send_100_usdc_solana (Some wormhole_fee_60))
    as [Hiff Hret].
  destruct (Hret solana_address eq_refl) as [v Hv].
  exists v. split; [exact Hv|]. split; [exact (Hiff v Hv)|].
  vm_compute in Hv. injection Hv as <-. repeat split.
Defined.

(** 100 USDC from Celo to Base: the best quote is executable, and the
    transaction the user confirmed reached the dispatcher with it. *)
Lemma dispatched_quote_executionReady_witness :
  (∃ q, BridgeRouter.best
          (BridgeRouter.getBestBridgeRoute config
             (BridgeRouter.mkRequest "celo" "base" "USDC" 100 None) all_down) = Some q
        ∧ BridgeRouter.executionReady q = true)
  ∧ ∃ p, In (Dispatch "s1" p)
           (effects (Server.heap (Server.run config text confirm_events Server.initial)))
         ∧ BridgeRouter.executionReady (bridgeQuote p) = true.
Proof.
  split.
  - assert (H : ∃ q, BridgeRouter.best
                       (BridgeRouter.getBestBridgeRoute config
                          (BridgeRouter.mkRequest "celo" "base" "USDC" 100 None) all_down)
                     = Some q) by (vm_compute; eauto).
    destruct H as [q Hq]. exists q. split; [exact Hq|].
    exact (proj1 (dispatched_quote_executionReady config text) _ _ q Hq).
  - assert (H : ∃ p, In (Dispatch "s1" p)
                       (effects (Server.heap
                          (Server.run config text confirm_events Server.initial))))
      by (vm_compute; eexists; left; reflexivity).
    destruct H as [p Hp]. exists p. split; [exact Hp|].
    exact (proj2 (dispatched_quote_executionReady config text) confirm_events "s1" p Hp).
Defined.

(** C2: the failure path.  The session awaits confirmation of 100 USDC
    to Base over LayerZero/Stargate and the user says "yes".  The
    dispatcher is entered once and fails ([getBridgeContractAddress] has
    no entry for [layerzero_stargate]); the reply carries state
    ["error"], the session is back in [idle], and its
    [pendingTransaction] is still the one that was dispatched. *)
Lemma failed_dispatch_keeps_pendingTransaction :
  ∃ s p,
    activeSessions awaiting_heap !! "s1" = Some s
    ∧ state s = awaiting_confirmation
    ∧ pendingTransaction s = Some p
    ∧ handleUserMessage config text "s1" "yes" no_wallet env_reply awaiting_heap
      = (mkResponse (TransferFailed "(explanation)" "Bridge contract address unknown")
           Orchestrator.error,
         mkHeap (<["s1" := set_state idle (set_state executing s)]>
                   (activeSessions awaiting_heap))
                [Dispatch "s1" p])
    ∧ state (set_state idle (set_state executing s)) = idle
    ∧ pendingTransaction (set_state idle (set_state executing s)) = Some p.
Proof.
  assert (H : ∃ s, activeSessions awaiting_heap !! "s1" = Some s) by (vm_compute; eauto).
  destruct H as [s Hs].
  assert (Hp : ∃ p, pendingTransaction s = Some p).
  { vm_compute in Hs. injection Hs as <-. cbn. eauto. }
  destruct Hp as [p Hp]. exists s, p.
  split; [exact Hs|].
  vm_compute in Hs. injection Hs as <-. cbn in Hp. injection Hp as <-.
  repeat split.
Qed.

(** Scenario A: 100 USDC to Solana where the best route charges 60
    dollars.  Validation passes, the hard stop answers, and the session
    stays [idle] with nothing pending. *)
Lemma hard_stop_before_confirmation_witness :
  ∃ resp,
    handleUserMessage config text "s1" msg_solana no_wallet env_solana_60 empty_heap
    = (resp,
       mkHeap (<["s1" := push_history (mkTurn "user" msg_solana)
                           (createSession "s1" no_wallet (now env_solana_60))]> ∅) [])
    ∧ replyState resp ≠ awaiting_confirmation
    ∧ resp = mkResponse (FeeTooHigh wormhole_fee_60 (div 60 100) 100) idle.
Proof.
  destruct (hard_stop_before_confirmation config text "s1" msg_solana no_wallet
              env_solana_60 empty_heap send_100_usdc_solana solana_address wormhole_fee_60
              eq_refl eq_refl eq_refl eq_refl eq_refl)
    as (resp & Hrun & _ & _ & Hstate & Hfire).
  exists resp. split; [exact Hrun|]. split; [exact Hstate|].
  eapply Hfire; vm_compute; reflexivity.
Defined.

(** In the session awaiting confirmation, "hmm?" is answered with the
    re-prompt and changes nothing. *)
Lemma confirmation_reprompts_hmm :
  handleUserMessage config text "s1" "hmm?" no_wallet env_reply awaiting_heap
  = (mkResponse ReplyYesOrNo awaiting_confirmation, awaiting_heap).
Proof.
  refine (proj1 (confirmation_reprompts config text "s1" "hmm?" no_wallet env_reply
                   awaiting_heap
                   (default (createSession "s1" no_wallet 0) (activeSessions awaiting_heap !! "s1"))
                   _ _) eq_refl eq_refl).
  - vm_compute. reflexivity.
  - vm_compute. reflexivity.
Defined.

(** The vocabulary is matched by containment: these messages count as
    an affirmative reply, "cancel" as a negative one only. *)
Example confirmation_vocabulary :
  isYes "why?" = true ∧ isYes "no way" = true ∧ isYes "not sure" = true
  ∧ isYes "cancel" = false ∧ isNo "cancel" = true
  ∧ isYes "hmm?" = false ∧ isNo "hmm?" = false.
Proof. repeat split. Qed.

(** A chat message read as an alert leaves [activeAlerts] empty, and so
    does the tick after it. *)
Lemma chat_alert_not_in_activeAlerts_witness :
  Server.activeAlerts
    (Server.step config text Server.initial
       (Server.Message "s1" "Alert me when fees to Solana drop below $1" no_wallet
          (env_for (Intent.alert fee_below_1) (NetError "timeout")))) = []
  ∧ Server.activeAlerts (Server.run config text chat_alert_events Server.initial) = [].
Proof.
  split.
  - rewrite (proj1 (chat_alert_not_in_activeAlerts config text) Server.initial "s1" _
               no_wallet _ fee_below_1); [reflexivity|vm_compute; discriminate|reflexivity].
  - apply (proj2 (chat_alert_not_in_activeAlerts config text) chat_alert_events).
    repeat constructor.
Defined.

(** C8: a check that throws blocks every alert behind it.  The fee
    alert's condition holds (best fee 0.80 below the threshold 1), but it
    stands behind a price alert without a token, whose check throws in
    [getTokenPrice]; each tick ends there.  After two ticks the fee alert
    is still not triggered and no trigger event was emitted.  Registered
    alone, the same alert is triggered by the first tick and emits
    exactly one event over the two ticks. *)
Lemma throwing_check_blocks_later_alerts :
  AlertEngine.checkPriceAlert config fee_alert (probe "s1_2") = Ret true
  ∧ AlertEngine.outcome (Server.tick config text probe envFor 3
       (Server.run config text (take 2 blocked_events) Server.initial))
    = Throw "TypeError: Cannot read properties of undefined (reading 'toUpperCase')"
  ∧ (AlertEngine.triggered ∘ snd) <$>
      Server.activeAlerts (Server.run config text blocked_events Server.initial)
    = [false; false]
  ∧ effects (Server.heap (Server.run config text blocked_events Server.initial)) = []
  ∧ (AlertEngine.triggered ∘ snd) <$>
      Server.activeAlerts (Server.run config text lone_events Server.initial)
    = [true]
  ∧ effects (Server.heap (Server.run config text lone_events Server.initial))
    = [Emit "s1" "alert_triggered"].
Proof. repeat split. Qed.
End Scenarios.

(** * Further properties of the code *)

(** ** Chain detection and the address check *)

Section Detection.
Import JS ChainDetector.

Lemma SOLANA_not_0x s : SOLANA s = true → startsWith s "0x" = false.
Proof.
  unfold SOLANA, rep, startsWith. destruct s as [|c s]; [reflexivity|].
  cbn [String.prefix forallb_string]. destruct (Ascii.ascii_dec "0" c) as [<-|]; [|reflexivity].
  cbn. discriminate.
Qed.

Lemma EVM_not_SOLANA s : EVM s = true → SOLANA s = false.
Proof.
  unfold EVM, after, SOLANA, rep. destruct s as [|c s]; [discriminate|].
  cbn [strip_prefix forallb_string]. destruct (Ascii.eqb "0" c) eqn:E; [|discriminate].
  apply Ascii.eqb_eq in E. subst c. reflexivity.
Qed.

Ltac branches :=
  repeat match goal with
    | |- context [if ?c then _ else _] =>
        lazymatch c with
        | context [if _ then _ else _] => fail
        | _ => destruct c eqn:?
        end
    end.

(** X1.  The format of the trimmed address alone decides the family of the
    detected chain, whatever the context hint says: the chain is "solana"
    exactly when the address matches the Solana pattern, and it is one of
    the eight EVM chains exactly when the address matches the EVM
    pattern; no address matches both. *)
Theorem detectChainFromAddress_by_format (address contextHint : string) :
  let c := chain (detectChainFromAddress address contextHint) in
  (c = "solana" ↔ SOLANA (trim address) = true)
  ∧ (In c EVM_CHAINS ↔ EVM (trim address) = true)
  ∧ (SOLANA (trim address) = true → EVM (trim address) = true → False).
Proof.
  cbv zeta. unfold detectChainFromAddress.
  pose proof (SOLANA_not_0x (trim address)) as Hs.
  pose proof (EVM_not_SOLANA (trim address)) as He.
  destruct (SOLANA (trim address)) eqn:ES.
  - rewrite (Hs eq_refl). cbn [negb andb chain].
    destruct (EVM (trim address)); [discriminate (He eq_refl)|].
    repeat split; try tauto; try discriminate.
    unfold EVM_CHAINS. cbn. intros H. decompose [or] H; discriminate || contradiction.
  - cbn [andb]. destruct (EVM (trim address)) eqn:EE.
    + unfold detectEVMChainFromContext. branches; cbn [chain];
        (split; [split; discriminate|]); (split; [|discriminate]);
        (split; [reflexivity|]); intros _; unfold EVM_CHAINS; cbn; tauto.
    + branches; cbn [chain];
        (split; [split; discriminate|]); (split; [|discriminate]);
        (split; [|discriminate]); unfold EVM_CHAINS; cbn; intros H;
        decompose [or] H; discriminate || contradiction.
Qed.

Ltac absurd_In :=
  let H := fresh in
  cbn; intros H; repeat (destruct H as [H|H]; [discriminate H|]); destruct H.

Ltac settle_In := first [ intros _; reflexivity | absurd_In | cbn; tauto ].

(** X2.  Detection and the address check agree.  When the detected chain
    is solana, tron or an EVM chain, [validateAddressForChain] accepts the
    address for it; when it is unknown, bitcoin, near, cosmos or osmosis,
    the check fails with "not supported"; and no other chain is ever
    detected. *)
Theorem detected_chain_validates (address contextHint : string) :
  let c := chain (detectChainFromAddress address contextHint) in
  (In c ("solana" :: "tron" :: EVM_CHAINS) →
     validateAddressForChain address c = mkAddrCheck true None)
  ∧ (In c ["unknown"; "bitcoin"; "near"; "cosmos"; "osmosis"] →
     validateAddressForChain address c = mkAddrCheck false (Some (ChainNotSupported c)))
  ∧ In c ("solana" :: "tron" :: EVM_CHAINS
           ++ ["unknown"; "bitcoin"; "near"; "cosmos"; "osmosis"]).
Proof.
  cbv zeta. unfold detectChainFromAddress.
  destruct (SOLANA (trim address)) eqn:ES.
  - rewrite (SOLANA_not_0x _ ES). cbn [negb andb chain].
    unfold validateAddressForChain. cbn [String.eqb Ascii.eqb Bool.eqb andb]. rewrite ES.
    split; [|split]; settle_In.
  - cbn [andb]. destruct (EVM (trim address)) eqn:EE.
    + unfold detectEVMChainFromContext.
      branches; cbn [chain]; unfold validateAddressForChain;
        cbn [String.eqb Ascii.eqb Bool.eqb andb existsb orb]; rewrite ?EE;
        (split; [|split]); settle_In.
    + unfold validateAddressForChain.
      destruct (BITCOIN (trim address)); [|destruct (TRON (trim address)) eqn:ET;
        [|destruct (NEAR (trim address)); [|destruct (COSMOS (trim address));
          [|destruct (OSMOSIS (trim address))]]]];
      cbn [chain String.eqb Ascii.eqb Bool.eqb andb existsb orb]; rewrite ?ET;
      (split; [|split]); settle_In.
Qed.
End Detection.

(** ** The guardrails, one by one *)

Section ValidityExactly.
Import JS ChainDetector Validator.

Lemma has_errors_when c f l :
  has_errors (when c f l) = if c then has_errors (f l) else has_errors l.
Proof. now destruct c. Qed.

Lemma has_errors_push_warning m l : has_errors (push_warning m l) = has_errors l.
Proof. reflexivity. Qed.

Lemma has_errors_push_suggestion m l : has_errors (push_suggestion m l) = has_errors l.
Proof. reflexivity. Qed.

Lemma if_same_branches {A} (c : bool) (x : A) : (if c then x else x) = x.
Proof. now destruct c. Qed.

Lemma valid_has_errors l :
  Nat.eqb (length (Arrays.errors l)) 0 = negb (has_errors l).
Proof. unfold has_errors. now rewrite Bool.negb_involutive. Qed.

Ltac count_errors :=
  repeat first
    [ rewrite has_errors_when; cbv beta
    | rewrite push_error_has
    | rewrite has_errors_push_warning
    | rewrite has_errors_push_suggestion
    | rewrite if_same_branches ].

(** The verdict's [valid], as a boolean expression of the six checks that
    push to [errors]. *)
Lemma validateTransfer_valid_eq intent q v addr :
  Intent.toAddress intent = Some addr →
  validateTransfer intent q = Ret v →
  let detected :=
    chain (detectChainFromAddress addr (default "" (Intent.rawMessage intent))) in
  let unknown := String.eqb detected "unknown" in
  let chain := if negb unknown then Some detected else Intent.toChain intent in
  valid v =
    negb unknown
    && ChainDetector.valid (validateAddressForChain addr detected)
    && match chain ≫= TOKEN_SUPPORT_MATRIX with
       | None => true
       | Some row => supports row (Intent.token intent)
       end
    && negb (negb (truthy (Intent.amount intent)) || leb (Intent.amount intent) 0)
    && negb (ltb (Intent.amount intent) MIN_TRANSFER_USD)
    && bool_decide (is_Some q)
    && negb (String.eqb (Intent.token intent) "USDm" && negb (bool_decide (chain = Some "celo"))).
Proof.
  intros Haddr Hv. unfold validateTransfer in Hv. rewrite Haddr in Hv.
  injection Hv as <-. cbn [valid]. cbv zeta.
  rewrite valid_has_errors.
  set (detected := chain (detectChainFromAddress addr _)).
  set (unknown := String.eqb detected "unknown").
  set (ch := if negb unknown then Some detected else Intent.toChain intent).
  set (bA := ChainDetector.valid (validateAddressForChain addr detected)).
  set (bZ := truthy (Intent.amount intent)).
  set (bL := leb (Intent.amount intent) 0).
  set (bM := ltb (Intent.amount intent) MIN_TRANSFER_USD).
  set (bU := String.eqb (Intent.token intent) "USDm").
  set (bC := bool_decide (ch = Some "celo")).
  clearbody bA bZ bL bM bU bC.
  count_errors.
  destruct q as [q|]; count_errors;
    destruct (ch ≫= TOKEN_SUPPORT_MATRIX) as [row|]; cbv beta zeta; count_errors;
    change (has_errors (Arrays.mk [] [] [])) with false;
    try (set (bT := supports row (Intent.token intent)); clearbody bT; destruct bT);
    destruct unknown, bA, bZ, bL, bM, bU, bC; reflexivity.
Qed.


(** A valid verdict on a USDm transfer means the validator took the
    destination for Celo. *)
Lemma usdm_valid_on_celo intent q v addr :
  Intent.toAddress intent = Some addr →
  validateTransfer intent q = Ret v →
  valid v = true →
  Intent.token intent = "USDm" →
  chain (detectChainFromAddress addr (default "" (Intent.rawMessage intent))) = "celo".
Proof.
  intros Haddr Hv Hvalid Htoken.
  pose proof (validateTransfer_valid_eq intent q v addr Haddr Hv) as Heq. cbv zeta in Heq.
  rewrite Hvalid, Htoken in Heq. symmetry in Heq.
  repeat (apply Bool.andb_true_iff in Heq; destruct Heq as [Heq ?]).
  destruct (String.eqb _ "unknown"); [discriminate|].
  cbn [negb String.eqb Ascii.eqb Bool.eqb andb] in *.
  match goal with
  | H : negb (negb (bool_decide _)) = true |- _ =>
      rewrite Bool.negb_involutive, bool_decide_eq_true in H; now injection H
  end.
Qed.


(** X4.  A USDm transfer is valid only with a Celo hint in the intent
    itself: the destination is an EVM address, and the intent carries a
    [rawMessage] that names "celo" and does not name "base". *)
Theorem usdm_needs_celo_hint (intent : Intent.Transfer) (q : option BridgeRouter.Quote)
    (v : Verdict) :
  validateTransfer intent q = Ret v →
  Intent.token intent = "USDm" →
  valid v = true →
  ∃ addr raw,
    Intent.toAddress intent = Some addr
    ∧ EVM (trim addr) = true
    ∧ Intent.rawMessage intent = Some raw
    ∧ includes (toLowerCase raw) "celo" = true
    ∧ includes (toLowerCase raw) "base" = false.
Proof.
  intros Hv Htoken Hvalid.
  destruct (Intent.toAddress intent) as [addr|] eqn:Haddr;
    [|unfold validateTransfer in Hv; now rewrite Haddr in Hv].
  pose proof (usdm_valid_on_celo intent q v addr Haddr Hv Hvalid Htoken) as Hcelo.
  exists addr. revert Hcelo. unfold detectChainFromAddress.
  destruct (SOLANA (trim addr) && negb (startsWith (trim addr) "0x")); [discriminate|].
  destruct (EVM (trim addr)).
  2:{ repeat match goal with
        | |- context [if ?c then _ else _] => destruct c
        end; discriminate. }
  unfold detectEVMChainFromContext.
  destruct (Intent.rawMessage intent) as [raw|]; [|vm_compute; discriminate].
  cbn [default from_option]. unfold Datatypes.id.
  destruct (includes (toLowerCase raw) "base") eqn:Ebase; [discriminate|].
  destruct (includes (toLowerCase raw) "celo") eqn:Ecelo;
    [intros _; exists raw; repeat split; assumption|].
  repeat match goal with
    | |- context [if ?c then _ else _] => destruct c
    end; discriminate.
Qed.
End ValidityExactly.

(** ** What the router offers *)

Section Offer.
Import JS BridgeRouter.
Variable config : Config.t.

Lemma catch_null_Ret {A} (body : res (option A)) (q : A) :
  catch_null body = Some q → body = Ret (Some q).
Proof. destruct body as [[v|]|e]; simpl; congruence. Qed.

Ltac provider H :=
  apply catch_null_Ret in H;
  repeat match type of H with
    | (if ?c then _ else _) = _ => destruct c eqn:?; try discriminate H
    | match ?r with _ => _ end = _ => destruct r eqn:?; try discriminate H
    end;
  injection H as <-.

(** What each provider's quote says about itself. *)
Lemma quotesOf_providers rq net q :
  In q (quotesOf config rq net) →
  (bridge q = "Across" ∧ executionMethod q = "across_relay" ∧ executionReady q = false
   ∧ truthyZ (CHAIN_IDS (toChain rq) ≫= acrossId) = true)
  ∨ (bridge q = "Wormhole" ∧ executionMethod q = "wormhole_ntt" ∧ executionReady q = true
     ∧ truthyZ (CHAIN_IDS (toChain rq) ≫= wormholeId) = true)
  ∨ (bridge q = "Axelar" ∧ executionMethod q = "axelar_gmp" ∧ executionReady q = true
     ∧ truthyS (CHAIN_IDS (toChain rq) ≫= axelarName) = true)
  ∨ (bridge q = "Celer" ∧ executionMethod q = "celer_cbridge" ∧ executionReady q = true
     ∧ truthyZ (CHAIN_IDS (toChain rq) ≫= evmId) = true)
  ∨ (bridge q = "LayerZero/Stargate" ∧ executionMethod q = "layerzero_stargate"
     ∧ executionReady q = true
     ∧ truthyZ (CHAIN_IDS (toChain rq) ≫= layerzeroId) = true).
Proof.
  unfold quotesOf. intros Hin.
  destruct (getAcrossQuote config rq (across net)) as [qa|] eqn:Ea;
  destruct (getWormholeQuote rq (wormhole net)) as [qw|] eqn:Ew;
  destruct (getAxelarQuote rq (axelar net)) as [qx|] eqn:Ex;
  destruct (getCelerQuote config rq (celer net)) as [qc|] eqn:Ec;
  destruct (getLayerZeroQuote rq) as [ql|] eqn:El;
  cbn in Hin; decompose [or] Hin; try contradiction; subst q; clear Hin.
  all: match goal with
       | H : getAcrossQuote _ _ _ = Some ?x |- context [bridge ?x] =>
           left; clear -H; unfold getAcrossQuote in H; provider H
       | H : getWormholeQuote _ _ = Some ?x |- context [bridge ?x] =>
           right; left; clear -H; unfold getWormholeQuote in H; provider H
       | H : getAxelarQuote _ _ = Some ?x |- context [bridge ?x] =>
           do 2 right; left; clear -H; unfold getAxelarQuote in H; provider H
       | H : getCelerQuote _ _ _ = Some ?x |- context [bridge ?x] =>
           do 3 right; left; clear -H; unfold getCelerQuote in H; provider H
       | H : getLayerZeroQuote _ = Some ?x |- context [bridge ?x] =>
           do 4 right; clear -H; unfold getLayerZeroQuote in H; provider H
       end.
  all: cbn [bridge executionMethod executionReady]; repeat split;
    match goal with
    | H : negb ?a || negb ?b = false |- ?b = true =>
        destruct a, b; cbn in H; congruence
    end.
Qed.

(** The routes offered are the executable quotes, ranked; the best one is
    the first of them. *)
Lemma getBestBridgeRoute_ranked rq net :
  all (getBestBridgeRoute config rq net)
  = rankQuotes (readyQuotes config rq net) (default "cheapest" (priority rq))
  ∧ best (getBestBridgeRoute config rq net) = head (all (getBestBridgeRoute config rq net)).
Proof.
  unfold getBestBridgeRoute, readyQuotes. fold (quotesOf config rq net).
  pose proof (validQuotes_nonempty config rq net) as Hne.
  set (allQuotes := quotesOf config rq net) in *.
  set (validQuotes := List.filter _ allQuotes) in *.
  destruct validQuotes as [|v vs] eqn:Ev.
  - destruct allQuotes as [|x xs]; [split; reflexivity|].
    destruct (Hne x); [now left|reflexivity].
  - cbn [length Nat.ltb Nat.leb Nat.eqb best all]. split; reflexivity.
Qed.

Lemma readyQuotes_In rq net q :
  In q (readyQuotes config rq net)
  ↔ In q (quotesOf config rq net) ∧ executionReady q = true.
Proof.
  unfold readyQuotes. rewrite filter_In.
  destruct (executionReady q); cbn; intuition congruence.
Qed.

Lemma all_In rq net q :
  In q (all (getBestBridgeRoute config rq net))
  ↔ In q (quotesOf config rq net) ∧ executionReady q = true.
Proof.
  rewrite (proj1 (getBestBridgeRoute_ranked rq net)), <- readyQuotes_In.
  split; apply Permutation_in; [|symmetry]; apply rankQuotes_Permutation.
Qed.

Lemma best_In rq net q :
  best (getBestBridgeRoute config rq net) = Some q →
  In q (quotesOf config rq net) ∧ executionReady q = true.
Proof.
  rewrite (proj2 (getBestBridgeRoute_ranked rq net)). intros H. apply all_In.
  destruct (all _); [discriminate|]. injection H as ->. now left.
Qed.

(** X5.  What [getBestBridgeRoute] offers is the executable quotes of the
    providers and nothing else: [all] is a permutation of them, holds no
    quote of Across and at most four quotes, and [best] is the first of
    [all]. *)
Theorem offered_routes (rq : Request) (net : Replies) :
  let r := getBestBridgeRoute config rq net in
  Permutation (all r) (readyQuotes config rq net)
  ∧ Forall (λ q, executionReady q = true ∧ bridge q ≠ "Across") (all r)
  ∧ best r = head (all r)
  ∧ (length (all r) <= 4)%nat.
Proof.
  cbv zeta. destruct (getBestBridgeRoute_ranked rq net) as [Hall Hbest].
  assert (Hperm : Permutation (all (getBestBridgeRoute config rq net))
                    (readyQuotes config rq net)).
  { rewrite Hall. apply rankQuotes_Permutation. }
  split; [exact Hperm|]. split; [|split; [exact Hbest|]].
  - apply List.Forall_forall. intros q Hq. apply all_In in Hq. destruct Hq as [Hq Hr].
    split; [exact Hr|]. intros Hb.
    destruct (quotesOf_providers rq net q Hq)
      as [(_ & _ & H & _)|[(H & _)|[(H & _)|[(H & _)|(H & _)]]]]; congruence.
  - rewrite (Permutation_length Hperm). unfold readyQuotes, quotesOf.
    destruct (getAcrossQuote config rq (across net)) as [qa|] eqn:Ea.
    + assert (Hqa : executionReady qa = false).
      { unfold getAcrossQuote in Ea. provider Ea. reflexivity. }
      destruct (getWormholeQuote rq (wormhole net)), (getAxelarQuote rq (axelar net)),
        (getCelerQuote config rq (celer net)), (getLayerZeroQuote rq);
        cbn; rewrite Hqa; cbn;
        repeat match goal with
          | |- context [Bool.eqb ?b true] => destruct (Bool.eqb b true)
          end; cbn; lia.
    + destruct (getWormholeQuote rq (wormhole net)), (getAxelarQuote rq (axelar net)),
        (getCelerQuote config rq (celer net)), (getLayerZeroQuote rq);
        cbn;
        repeat match goal with
          | |- context [Bool.eqb ?b true] => destruct (Bool.eqb b true)
          end; cbn; lia.
Qed.

Lemma In_LAYERZERO_CHAINS chain :
  In chain LAYERZERO_CHAINS → truthyZ (CHAIN_IDS chain ≫= layerzeroId) = true.
Proof.
  unfold LAYERZERO_CHAINS. cbn [In]. intros H.
  decompose [or] H; try contradiction; subst chain; reflexivity.
Qed.

(** X7.  Between any two of the seven chains LayerZero serves there is
    always a route, whatever the remote quoting services answer: the
    LayerZero quote is computed locally, with the fee amount * 0.0006 +
    0.45, and is among the routes offered. *)
Theorem layerzero_chains_always_routed (rq : Request) (net : Replies) :
  In (fromChain rq) LAYERZERO_CHAINS →
  In (toChain rq) LAYERZERO_CHAINS →
  ∃ q ql,
    best (getBestBridgeRoute config rq net) = Some q
    ∧ getLayerZeroQuote rq = Some ql
    ∧ In ql (all (getBestBridgeRoute config rq net))
    ∧ feeUSD ql = (amount rq * 0.0006 + 0.45)%Q.
Proof.
  intros Hfrom Hto. apply In_LAYERZERO_CHAINS in Hfrom, Hto.
  assert (Hlz : ∃ ql, getLayerZeroQuote rq = Some ql
                      ∧ executionReady ql = true
                      ∧ feeUSD ql = (amount rq * 0.0006 + 0.45)%Q).
  { unfold getLayerZeroQuote. rewrite Hfrom, Hto. cbn. eauto. }
  destruct Hlz as (ql & Hql & Hready & Hfee).
  assert (Hin : In ql (all (getBestBridgeRoute config rq net))).
  { apply all_In. split; [|exact Hready]. unfold quotesOf. rewrite Hql.
    destruct (getAcrossQuote config rq (across net)), (getWormholeQuote rq (wormhole net)),
      (getAxelarQuote rq (axelar net)), (getCelerQuote config rq (celer net)); cbn; tauto. }
  rewrite (proj2 (getBestBridgeRoute_ranked rq net)).
  destruct (all (getBestBridgeRoute config rq net)) as [|q l] eqn:Hall; [destruct Hin|].
  exists q, ql. repeat split; assumption.
Qed.

(** X8.  To Solana there is one route at most: every route offered for
    the destination "solana" is Wormhole's, and it is the only one. *)
Theorem solana_only_by_wormhole (rq : Request) (net : Replies) (q : Quote) :
  toChain rq = "solana" →
  In q (all (getBestBridgeRoute config rq net)) →
  bridge q = "Wormhole" ∧ executionMethod q = "wormhole_ntt"
  ∧ all (getBestBridgeRoute config rq net) = [q].
Proof.
  intros Hto Hq. pose proof Hq as Hq0. apply all_In in Hq. destruct Hq as [Hq _].
  destruct (quotesOf_providers rq net q Hq)
    as [(_ & _ & _ & H)|[(Hb & Hm & _ & _)|[(_ & _ & _ & H)|[(_ & _ & _ & H)|(_ & _ & _ & H)]]]];
    try (rewrite Hto in H; discriminate H).
  split; [exact Hb|]. split; [exact Hm|].
  destruct (getBestBridgeRoute_ranked rq net) as [Hall _]. rewrite Hall in *.
  assert (Hlen : (length (readyQuotes config rq net) <= 1)%nat).
  { unfold readyQuotes, quotesOf, getAcrossQuote, getAxelarQuote, getCelerQuote,
      getLayerZeroQuote. rewrite Hto. cbn [CHAIN_IDS String.eqb Ascii.eqb Bool.eqb mbind
      option_bind acrossId axelarName evmId layerzeroId truthyZ truthyS negb orb catch_null].
    rewrite !Bool.orb_true_r.
    destruct (getWormholeQuote rq (wormhole net)) as [qw|]; cbn;
      [destruct (executionReady qw)|]; cbn; lia. }
  rewrite <- (Permutation_length (rankQuotes_Permutation
                 (default "cheapest" (priority rq)) (readyQuotes config rq net))) in Hlen.
  destruct (rankQuotes _ _) as [|x [|y l]]; [destruct Hq0| |cbn in Hlen; lia].
  destruct Hq0 as [->|[]]. reflexivity.
Qed.
End Offer.

(** ** Every stored transaction went through the checks *)

Section Vetting.
Import JS Orchestrator.
Variable config : Config.t.
Variable text : Templates.

Ltac four := split; [|split; [|split]]; try assumption.

Ltac monad :=
  unfold mbind, mret, M_bind, M_ret, throw, lift, get, update, perform, try_catch in *;
  cbn [fst snd session trace] in *.

(** [processTransfer] either changes nothing and answers in state [idle]
    (or throws), or stores a vetted transaction and asks for
    confirmation. *)
Lemma processTransfer_stores env i st :
  ∃ r st', processTransfer config text env i st = (r, st') ∧
    ((st' = st ∧ ∀ resp, r = Ret resp → replyState resp = idle)
     ∨ ∃ p full,
         vetted config p
         ∧ Intent.token (intent p) = Intent.token i
         ∧ Intent.amount (intent p) = Intent.amount i
         ∧ Intent.toAddress (intent p) = Intent.toAddress i
         ∧ Intent.rawMessage (intent p) = Intent.rawMessage i
         ∧ st' = mkSt (awaiting (session st) p full) (trace st)
         ∧ ∃ m, r = Ret (mkResponse m awaiting_confirmation)).
Proof.
  unfold processTransfer. monad.
  destruct (Intent.toAddress i) as [addr|] eqn:Haddr;
    [|eexists _, _; split; [reflexivity|left; split; [reflexivity|discriminate]]].
  destruct (String.eqb _ "unknown") eqn:Hunk;
    [eexists _, _; split; [reflexivity|left; split; [reflexivity|now intros ? [= <-]]]|].
  destruct (ChainDetector.unsupported _) eqn:Hsup;
    [eexists _, _; split; [reflexivity|left; split; [reflexivity|now intros ? [= <-]]]|].
  destruct (BridgeRouter.best _) as [q|] eqn:Hbest.
  2:{ destruct (String.eqb _ "solana");
      (eexists _, _; split; [reflexivity|left; split; [reflexivity|now intros ? [= <-]]]). }
  destruct (Validator.validateTransfer _ _) as [v|e] eqn:Hv;
    [|eexists _, _; split; [reflexivity|left; split; [reflexivity|discriminate]]].
  destruct (Validator.valid v) eqn:Hvalid; cbn [negb].
  2:{ destruct (explainError env);
      (eexists _, _; split; [reflexivity|left; split;
         [reflexivity|first [discriminate|now intros ? [= <-]]]]). }
  destruct (gt _ 0.25) eqn:Hgt;
    [eexists _, _; split; [reflexivity|left; split; [reflexivity|now intros ? [= <-]]]|].
  destruct (generateTransactionPreview env) as [preview|e];
    [|eexists _, _; split; [reflexivity|left; split; [reflexivity|discriminate]]].
  eexists _, _; split; [reflexivity|right].
  match goal with |- context [set_pendingTransaction (Some ?p)] => exists p end.
  eexists. unfold vetted. cbn [intent bridgeQuote chainInfo validation allQuotes].
  split; [|repeat split; try reflexivity; eauto].
  split; [exists (net env); split; [exact Hbest|reflexivity]|].
  split; [reflexivity|]. split; [exact Hv|]. split; [exact Hvalid|exact Hgt].
Qed.

(** What one run of [executeTransfer] does with the pending transaction
    [p]: after the dispatch it approves the bridge contract and submits
    the transfer, in that order, stopping at the first failure; only a
    run that did both answers with a receipt. *)
Lemma executeTransfer_trace env st p :
  pendingTransaction (session st) = Some p →
  let method := BridgeRouter.executionMethod (bridgeQuote p) in
  let fromChain := default "celo" (Intent.fromChain (intent p)) in
  let amount := Intent.amount (intent p) in
  ∃ r st' more,
    executeTransfer config env st = (r, st')
    ∧ trace st' = trace st ++ Dispatch (sessionId (session st)) p :: more
    ∧ state (session st') = idle
    ∧ (pendingTransaction (session st') = None
       ∨ pendingTransaction (session st') = Some p)
    ∧ (more = []
       ∨ ∃ spender,
           getBridgeContractAddress method fromChain = Some spender
           ∧ truthyS (Config.TOKENS config (toUpperCase fromChain) (Intent.token (intent p)))
             = true
           ∧ (more = [Approve spender amount]
              ∨ more = [Approve spender amount; BridgeTransfer method (bridgeQuote p)]))
    ∧ ∀ resp, r = Ret resp →
        (∃ receipt spender approval,
            resp = mkResponse (TransferSubmitted receipt) idle
            ∧ more = [Approve spender amount; BridgeTransfer method (bridgeQuote p)]
            ∧ approve (chain env) = Ret approval
            ∧ bridgeTx (chain env) = Ret (txHash receipt)
            ∧ receiptAmount receipt = amount
            ∧ receiptToAddress receipt = Intent.toAddress (intent p)
            ∧ pendingTransaction (session st') = None)
        ∨ (∃ explanation error,
              resp = mkResponse (TransferFailed explanation error) Orchestrator.error).
Proof.
  intros Hp. cbv zeta. unfold executeTransfer. monad. rewrite Hp.
  repeat match goal with
    | |- context [match ?x with _ => _ end] =>
        lazymatch x with
        | context [match _ with _ => _ end] => fail
        | _ => destruct x eqn:?
        end
    | |- context [if ?x then _ else _] =>
        lazymatch x with
        | context [if _ then _ else _] => fail
        | _ => destruct x eqn:?
        end
    end;
    cbn [fst snd session trace set_state set_pendingTransaction push_history
         state pendingTransaction];
    rewrite <- ?app_assoc; cbn [app];
    (eexists _, _, _; split; [reflexivity|]; split; [reflexivity|]);
    (split; [reflexivity|]); (split; [rewrite ?Hp; auto|]);
    (split;
      [first [ left; reflexivity
             | right; eexists; split; [reflexivity|];
               split; [now destruct (truthyS _)|]; auto ]
      |]);
    first [ intros resp [=]; fail
          | intros resp [= <-]; first
              [ right; eexists _, _; reflexivity
              | left; eexists _, _, _; repeat split; eauto ] ].
Qed.

(** *** The invariant of the session store and the trace *)

Lemma submissions_ok_app t more :
  submissions_ok t → (∀ m q, ¬ In (BridgeTransfer m q) more) →
  submissions_ok (t ++ more).
Proof.
  intros Ht Hmore m q Hin. apply in_app_or in Hin. destruct Hin as [Hin|Hin].
  - destruct (Ht m q Hin) as (t1 & t2 & sid & p & spender & -> & Hq & Hm & Ha).
    exists t1, (t2 ++ more), sid, p, spender. now rewrite <- !app_assoc.
  - destruct (Hmore m q Hin).
Qed.

Lemma submissions_ok_submission t sid p spender :
  submissions_ok t →
  getBridgeContractAddress (BridgeRouter.executionMethod (bridgeQuote p))
    (default "celo" (Intent.fromChain (intent p))) = Some spender →
  submissions_ok (t ++ submission sid p spender).
Proof.
  intros Ht Ha m q Hin. apply in_app_or in Hin. destruct Hin as [Hin|Hin].
  - destruct (Ht m q Hin) as (t1 & t2 & sid' & p' & spender' & -> & Hq & Hm & Ha').
    exists t1, (t2 ++ submission sid p spender), sid', p', spender'.
    now rewrite <- !app_assoc.
  - destruct Hin as [Hin|[Hin|[Hin|[]]]]; try discriminate Hin.
    injection Hin as <- <-.
    exists t, [], sid, p, spender. now rewrite app_nil_r.
Qed.

Lemma dispatches_vetted_app t more :
  dispatches_vetted config t →
  (∀ sid p, In (Dispatch sid p) more → vetted config p) →
  dispatches_vetted config (t ++ more).
Proof.
  intros Ht Hmore sid p Hin. apply in_app_or in Hin. destruct Hin; eauto.
Qed.

Lemma executeTransfer_safe env st p :
  pendingTransaction (session st) = Some p →
  vetted config p →
  dispatches_vetted config (trace st) →
  submissions_ok (trace st) →
  let st' := (executeTransfer config env st).2 in
  dispatches_vetted config (trace st')
  ∧ submissions_ok (trace st')
  ∧ state (session st') = idle
  ∧ pending_vetted config (session st').
Proof.
  intros Hp Hvet Hd Hs. cbv zeta.
  destruct (executeTransfer_trace env st p Hp)
    as (r & st' & more & -> & Htr & Hidle & Hpend & Hmore & _).
  cbn [snd]. rewrite Htr.
  assert (Hpv : pending_vetted config (session st')).
  { intros p' Hp'. destruct Hpend as [Hn|Hsame]; [congruence|].
    rewrite Hsame in Hp'. now injection Hp' as <-. }
  assert (Hvetted : ∀ more', (∀ sid' p', ¬ In (Dispatch sid' p') more') →
            dispatches_vetted config
              (trace st ++ Dispatch (sessionId (session st)) p :: more')).
  { intros more' Hno. apply dispatches_vetted_app; [exact Hd|].
    intros sid' p' [Hin|Hin]; [now injection Hin as _ <-|destruct (Hno _ _ Hin)]. }
  destruct Hmore as [->|(spender & Ha & _ & [->| ->])];
    (split; [|split; [|split; assumption]]).
  - apply Hvetted. intros ? ? [].
  - apply submissions_ok_app; [exact Hs|]. intros m q [H|[]]. discriminate H.
  - apply Hvetted. intros ? ? [H|[]]. discriminate H.
  - apply submissions_ok_app; [exact Hs|]. intros m q [H|[H|[]]]; discriminate H.
  - apply Hvetted. intros ? ? [H|[H|[]]]; discriminate H.
  - apply (submissions_ok_submission _ (sessionId (session st)) p spender Hs Ha).
Qed.

(** What [dispatchMessage] preserves.  A run that throws may leave the
    session in [executing]; [handleUserMessage] then sets it to
    [idle]. *)
Lemma dispatchMessage_safe env msg st :
  at_rest (session st) →
  pending_vetted config (session st) →
  dispatches_vetted config (trace st) →
  submissions_ok (trace st) →
  let '(r, st') := dispatchMessage config text env msg st in
  pending_vetted config (session st')
  ∧ dispatches_vetted config (trace st')
  ∧ submissions_ok (trace st')
  ∧ (∀ resp, r = Ret resp → at_rest (session st')).
Proof.
  intros Hrest Hpv Hd Hs. unfold dispatchMessage. monad.
  destruct (decide (state (session st) = awaiting_confirmation)) as [Haw|Haw].
  - rewrite bool_decide_eq_true_2 by exact Haw.
    destruct Hrest as [Hidle|[_ [p Hp]]]; [congruence|].
    unfold handleConfirmation. destruct (isYes msg).
    + monad.
      pose proof (executeTransfer_safe env (mkSt (set_state executing (session st)) (trace st))
                    p Hp (Hpv p Hp) Hd Hs) as H.
      cbv zeta in H. destruct (executeTransfer config env _) as [r st']. cbn [snd] in H.
      destruct H as (Hd' & Hs' & Hidle & Hpv').
      four. intros _ _. now left.
    + destruct (isNo msg); monad.
      * four; [intros ? [=]|intros _ _; now left].
      * four. intros _ _. right. split; [exact Haw|eauto].
  - rewrite bool_decide_eq_false_2 by exact Haw.
    assert (Hidle : state (session st) = idle) by (destruct Hrest as [H|[H _]]; congruence).
    destruct (parseIntent env) as [intent|e];
      [|four; discriminate].
    set (st1 := mkSt _ _).
    assert (Hpv1 : pending_vetted config (session st1)) by exact Hpv.
    assert (Hidle1 : state (session st1) = idle) by exact Hidle.
    change (trace st) with (trace st1) in Hd, Hs.
    clearbody st1. clear Hrest Hpv Haw Hidle st.
    assert (Hpt : ∀ i,
      let '(r, st') := processTransfer config text env i st1 in
      pending_vetted config (session st')
      ∧ dispatches_vetted config (trace st')
      ∧ submissions_ok (trace st')
      ∧ (∀ resp, r = Ret resp → at_rest (session st'))).
    { intros i. destruct (processTransfer_stores env i st1) as (r & st' & -> & [[-> _]|H]).
      - four. intros _ _. now left.
      - destruct H as (p & full & Hvet & _ & _ & _ & _ & -> & _).
        cbn [session trace]. four.
        + intros p' [= <-]. exact Hvet.
        + intros _ _. right. split; [reflexivity|]. cbn. eauto. }
    destruct intent as [i|i|i|i|i|t].
    + apply Hpt.
    + unfold processSwapAndTransfer. monad.
      destruct (getSwapRoute env) as [[sr|]|e].
      * apply Hpt.
      * four. intros _ _. now left.
      * four. discriminate.
    + unfold registerAlert. monad. four. intros _ _. now left.
    + unfold handleQuery. monad.
      destruct (String.eqb _ _);
        [destruct (BridgeRouter.best _)|];
        (four; intros _ _; now left).
    + monad. four. intros _ _. now left.
    + monad. four. intros _ _. now left.
Qed.

Lemma createSession_safe sid wallet n :
  at_rest (createSession sid wallet n) ∧ pending_vetted config (createSession sid wallet n).
Proof. split; [now left|intros p [=]]. Qed.

Lemma handleUserMessage_safe sid msg wallet env h :
  heap_safe config h →
  heap_safe config (handleUserMessage config text sid msg wallet env h).2.
Proof.
  intros (Hsess & Hd & Hs). unfold handleUserMessage, catch_all.
  set (s0 := default _ _).
  assert (H0 : at_rest s0 ∧ pending_vetted config s0).
  { subst s0. destruct (activeSessions h !! sid) as [s|] eqn:E; cbn;
      [eauto|apply createSession_safe]. }
  destruct H0 as [Hrest Hpv].
  pose proof (dispatchMessage_safe env msg (mkSt s0 (effects h)) Hrest Hpv Hd Hs) as H.
  destruct (dispatchMessage config text env msg _) as [[resp|e] st'];
    destruct H as (Hpv' & Hd' & Hs' & Hrest'); cbn [snd effects activeSessions session trace].
  - split; [|split; assumption]. cbn [activeSessions]. intros sid' s'. rewrite lookup_insert.
    case_decide; [intros [= <-]; split; [eauto|exact Hpv']|apply Hsess].
  - split; [|split; assumption]. cbn [activeSessions]. intros sid' s'. rewrite lookup_insert.
    case_decide; [intros [= <-]; split; [now left|exact Hpv']|apply Hsess].
Qed.

Lemma emit_safe room event h : heap_safe config h → heap_safe config (Server.emit room event h).
Proof.
  intros (Hsess & Hd & Hs). split; [exact Hsess|]. cbn [Server.emit effects]. split.
  - apply dispatches_vetted_app; [exact Hd|]. intros ? ? [H|[]]. discriminate H.
  - apply submissions_ok_app; [exact Hs|]. intros ? ? [H|[]]. discriminate H.
Qed.

Lemma onAlertTriggered_safe envFor alertId alert h :
  heap_safe config h →
  heap_safe config (Server.onAlertTriggered config text envFor alertId alert h).2.
Proof.
  intros Hok. unfold Server.onAlertTriggered.
  destruct (String.eqb _ "transfer"); [|now apply emit_safe].
  pose proof (handleUserMessage_safe (AlertEngine.sessionId alert) "yes"
                (mkWalletInfo None None) (envFor alertId) _
                (emit_safe (AlertEngine.sessionId alert) "alert_triggered" h Hok)) as H.
  destruct (handleUserMessage _ _ _ _ _ _ _) as [response h']. cbn in *.
  now apply emit_safe.
Qed.

Lemma step_safe w e :
  heap_safe config (Server.heap w) →
  heap_safe config (Server.heap (Server.step config text w e)).
Proof.
  intros Hok. destruct e as [sid msg wallet env|probe envFor now|alertId|sid i now]; cbn;
    try exact Hok.
  - now apply handleUserMessage_safe.
  - apply (poll_preserves config (heap_safe config)); [|exact Hok].
    intros; now apply onAlertTriggered_safe.
Qed.

Lemma run_safe events w :
  heap_safe config (Server.heap w) →
  heap_safe config (Server.heap (Server.run config text events w)).
Proof.
  revert w. induction events as [|e events IH]; intros w Hok; cbn; [exact Hok|].
  apply IH, step_safe, Hok.
Qed.

Lemma initial_safe : heap_safe config (Server.heap Server.initial).
Proof.
  split; [intros sid s; cbn; rewrite lookup_empty; discriminate|].
  split; [intros ? ? []|intros ? ? []].
Qed.
End Vetting.

Section Reachable.
Import JS Orchestrator.
Variable config : Config.t.
Variable text : Templates.

Lemma getBridgeContractAddress_Some method chain spender :
  getBridgeContractAddress method chain = Some spender →
  (method = "across_relay" ∧ In chain ["celo"; "base"; "ethereum"])
  ∨ (method = "axelar_gmp" ∧ chain = "celo"
     ∧ spender = "0xe432150cce91c13a887f7D836923d5597adD8E31")
  ∨ (method = "celer_cbridge" ∧ chain = "celo").
Proof.
  unfold getBridgeContractAddress.
  destruct (String.eqb method "across_relay") eqn:Ea.
  { apply String.eqb_eq in Ea. intros H. left. split; [exact Ea|].
    destruct (String.eqb chain "celo") eqn:E1; [apply String.eqb_eq in E1; subst chain; cbn; tauto|].
    destruct (String.eqb chain "base") eqn:E2; [apply String.eqb_eq in E2; subst chain; cbn; tauto|].
    destruct (String.eqb chain "ethereum") eqn:E3; [apply String.eqb_eq in E3; subst chain; cbn; tauto|].
    discriminate. }
  destruct (String.eqb method "axelar_gmp") eqn:Ex.
  { apply String.eqb_eq in Ex. destruct (String.eqb chain "celo") eqn:E1; [|discriminate].
    apply String.eqb_eq in E1. intros [= <-]. right. left. auto. }
  destruct (String.eqb method "celer_cbridge") eqn:Ec; [|discriminate].
  apply String.eqb_eq in Ec. destruct (String.eqb chain "celo") eqn:E1; [|discriminate].
  apply String.eqb_eq in E1. intros _. right. right. auto.
Qed.

(** The quote of a vetted transaction is an executable quote of one of
    the four providers that mark theirs executable. *)
Lemma vetted_method p :
  vetted config p →
  BridgeRouter.executionReady (bridgeQuote p) = true
  ∧ In (BridgeRouter.executionMethod (bridgeQuote p))
       ["wormhole_ntt"; "axelar_gmp"; "celer_cbridge"; "layerzero_stargate"].
Proof.
  intros ((net & Hbest & _) & _).
  destruct (best_In config _ _ _ Hbest) as [Hin Hready]. split; [exact Hready|].
  destruct (quotesOf_providers config _ _ _ Hin)
    as [(_ & _ & H & _)|[(_ & H & _)|[(_ & H & _)|[(_ & H & _)|(_ & H & _)]]]];
    [congruence| | | |]; rewrite H; cbn; tauto.
Qed.



(** X10.  Between two messages every session is idle or awaiting
    confirmation (never left executing), and a session that awaits
    confirmation has a transaction stored. *)
Theorem sessions_at_rest (events : list Server.Event) (sid : string) (s : Session) :
  activeSessions (Server.heap (Server.run config text events Server.initial)) !! sid = Some s →
  (state s = idle ∨ state s = awaiting_confirmation)
  ∧ (state s = awaiting_confirmation → is_Some (pendingTransaction s)).
Proof.
  intros Hs.
  destruct (run_safe config text events _ (initial_safe config)) as (Hsess & _).
  destruct (Hsess sid s Hs) as [[Hidle|[Haw Hp]] _].
  - split; [now left|]. rewrite Hidle. discriminate.
  - split; [now right|]. intros _. exact Hp.
Qed.

(** X11.  Every bridge transfer the server ever submits goes through
    Axelar or Celer and leaves from Celo, and it comes right after the
    approval of that bridge's contract for the amount, which comes right
    after the dispatch of the confirmed transaction: the other execution
    methods have no bridge contract address and stop before any
    call. *)
Theorem submitted_transfers (events : list Server.Event) (m : string)
    (q : BridgeRouter.Quote) :
  let t := effects (Server.heap (Server.run config text events Server.initial)) in
  In (BridgeTransfer m q) t →
  (m = "axelar_gmp" ∨ m = "celer_cbridge")
  ∧ ∃ t1 t2 sid p spender,
      t = t1 ++ submission sid p spender ++ t2
      ∧ q = bridgeQuote p
      ∧ m = BridgeRouter.executionMethod q
      ∧ default "celo" (Intent.fromChain (intent p)) = "celo"
      ∧ getBridgeContractAddress m "celo" = Some spender.
Proof.
  intros t Hin.
  destruct (run_safe config text events _ (initial_safe config)) as (_ & Hd & Hs).
  fold t in Hd, Hs.
  destruct (Hs m q Hin) as (t1 & t2 & sid & p & spender & Ht & Hq & Hm & Ha).
  assert (Hvet : vetted config p).
  { apply (Hd sid). rewrite Ht. apply in_or_app. right. now left. }
  destruct (vetted_method p Hvet) as [_ Hmethod]. rewrite <- Hq, <- Hm in Hmethod.
  assert (Hcase : (m = "axelar_gmp" ∨ m = "celer_cbridge")
                  ∧ default "celo" (Intent.fromChain (intent p)) = "celo").
  { destruct (getBridgeContractAddress_Some _ _ _ Ha) as [[-> _]|[(-> & Hc & _)|[-> Hc]]];
      [|auto|auto].
    cbn in Hmethod. decompose [or] Hmethod; discriminate || contradiction. }
  destruct Hcase as [Hcase Hc]. split; [exact Hcase|].
  exists t1, t2, sid, p, spender. rewrite Hc in Ha. auto.
Qed.
End Reachable.

(** ** What a message can change *)

Section Frame.
Import JS Orchestrator.
Variable config : Config.t.
Variable text : Templates.

Ltac monad :=
  unfold mbind, mret, M_bind, M_ret, throw, lift, get, update, perform, try_catch in *;
  cbn [fst snd session trace] in *.

Ltac branches :=
  repeat match goal with
    | |- context [match ?x with _ => _ end] =>
        lazymatch x with
        | context [match _ with _ => _ end] => fail
        | _ => destruct x eqn:?
        end
    | |- context [if ?x then _ else _] =>
        lazymatch x with
        | context [if _ then _ else _] => fail
        | _ => destruct x eqn:?
        end
    end.

Lemma extends_refl s : extends s s.
Proof. repeat split; reflexivity. Qed.

Lemma extends_trans s1 s2 s3 : extends s1 s2 → extends s2 s3 → extends s1 s3.
Proof.
  intros (A1 & A2 & A3 & A4 & A5 & A6) (B1 & B2 & B3 & B4 & B5 & B6).
  repeat split; try congruence; etrans; eassumption.
Qed.

Lemma extends_set_state x s : extends s (set_state x s).
Proof. repeat split; reflexivity. Qed.

Lemma extends_set_pendingTransaction p s : extends s (set_pendingTransaction p s).
Proof. repeat split; reflexivity. Qed.

Lemma extends_push_history t s : extends s (push_history t s).
Proof. repeat split; try reflexivity. cbn. now apply prefix_app_r. Qed.

Lemma extends_push_alert a s : extends s (push_alert a s).
Proof. repeat split; try reflexivity. cbn. now apply prefix_app_r. Qed.

Ltac extend :=
  repeat first
    [ apply extends_refl
    | eapply extends_trans;
      [|first [ apply extends_set_state | apply extends_set_pendingTransaction
              | apply extends_push_history | apply extends_push_alert ]] ].

Ltac grows :=
  rewrite <- ?app_assoc; first [ reflexivity | apply prefix_app_r; reflexivity ].

Lemma executeTransfer_extends env st :
  let st' := (executeTransfer config env st).2 in
  extends (session st) (session st') ∧ trace st `prefix_of` trace st'.
Proof.
  cbv zeta. unfold executeTransfer. monad. branches;
    cbn [fst snd session trace]; (split; [extend|grows]).
Qed.

Lemma processTransfer_extends env i st :
  let st' := (processTransfer config text env i st).2 in
  extends (session st) (session st') ∧ trace st `prefix_of` trace st'.
Proof.
  cbv zeta. destruct (processTransfer_stores config text env i st)
    as (r & st' & -> & [[-> _]|(p & full & _ & _ & _ & _ & _ & -> & _)]); cbn [snd session trace].
  - split; [apply extends_refl|reflexivity].
  - split; [unfold awaiting; extend|reflexivity].
Qed.

Lemma dispatchMessage_extends env msg st :
  let st' := (dispatchMessage config text env msg st).2 in
  extends (session st) (session st') ∧ trace st `prefix_of` trace st'.
Proof.
  cbv zeta. unfold dispatchMessage. monad.
  destruct (bool_decide _).
  - unfold handleConfirmation. destruct (isYes msg).
    + monad.
      destruct (executeTransfer_extends env (mkSt (set_state executing (session st)) (trace st)))
        as [He Ht].
      split; [|exact Ht]. eapply extends_trans; [apply (extends_set_state executing)|exact He].
    + destruct (isNo msg); monad; (split; [extend|reflexivity]).
  - destruct (parseIntent env) as [intent|e]; [|split; [apply extends_refl|reflexivity]].
    set (st1 := mkSt _ _).
    assert (H1 : extends (session st) (session st1)) by apply extends_push_history.
    change (trace st) with (trace st1). clearbody st1.
    assert (Hpt : ∀ i,
      extends (session st) (session (processTransfer config text env i st1).2)
      ∧ trace st1 `prefix_of` trace (processTransfer config text env i st1).2).
    { intros i. destruct (processTransfer_extends env i st1) as [He Ht].
      split; [eapply extends_trans; eassumption|exact Ht]. }
    destruct intent as [i|i|i|i|i|t]; cbn [snd].
    + apply Hpt.
    + unfold processSwapAndTransfer. monad.
      destruct (getSwapRoute env) as [[sr|]|e]; [apply Hpt| |]; (split; [exact H1|reflexivity]).
    + unfold registerAlert. monad. split; [|reflexivity].
      eapply extends_trans; [exact H1|apply extends_push_alert].
    + unfold handleQuery. monad.
      destruct (String.eqb _ _); [destruct (BridgeRouter.best _)|];
        (split; [exact H1|reflexivity]).
    + split; [exact H1|reflexivity].
    + split; [exact H1|reflexivity].
Qed.

(** X12.  Handling a message for one session leaves every other session
    as it was, keeps the identity of the session (id, wallet, connected
    chain, creation time), only appends to its history and to its alerts,
    and only appends to what was sent to the chain. *)
Theorem handleUserMessage_frame (sid msg : string) (wallet : WalletInfo) (env : Env)
    (h : Heap) :
  let s := default (createSession sid wallet (now env)) (activeSessions h !! sid) in
  let h' := (handleUserMessage config text sid msg wallet env h).2 in
  (∀ sid', sid' ≠ sid → activeSessions h' !! sid' = activeSessions h !! sid')
  ∧ (∃ s', activeSessions h' !! sid = Some s' ∧ extends s s')
  ∧ effects h `prefix_of` effects h'.
Proof.
  cbv zeta. unfold handleUserMessage, catch_all.
  set (s := default _ _).
  destruct (dispatchMessage_extends env msg (mkSt s (effects h))) as [He Ht].
  destruct (dispatchMessage config text env msg _) as [[resp|e] st'];
    cbn [snd session trace activeSessions effects] in *.
  - split; [intros sid' Hne; now rewrite lookup_insert_ne|].
    split; [|exact Ht]. exists (session st'). now rewrite lookup_insert_eq.
  - split; [intros sid' Hne; now rewrite lookup_insert_ne|].
    split; [|exact Ht]. exists (set_state idle (session st')). rewrite lookup_insert_eq.
    split; [reflexivity|]. eapply extends_trans; [exact He|apply extends_set_state].
Qed.
End Frame.

(** ** Confirmation, refusal and receipts *)

Section Confirmation.
Import JS Orchestrator.
Variable config : Config.t.
Variable text : Templates.

Ltac monad :=
  unfold mbind, mret, M_bind, M_ret, throw, lift, get, update, perform, try_catch in *;
  cbn [fst snd session trace] in *.

Ltac branches :=
  repeat match goal with
    | |- context [match ?x with _ => _ end] =>
        lazymatch x with
        | context [match _ with _ => _ end] => fail
        | _ => destruct x eqn:?
        end
    | |- context [if ?x then _ else _] =>
        lazymatch x with
        | context [if _ then _ else _] => fail
        | _ => destruct x eqn:?
        end
    end.

Lemma processTransfer_no_receipt env i st resp :
  (processTransfer config text env i st).1 = Ret resp → is_receipt (message resp) = false.
Proof.
  unfold processTransfer. monad. branches; cbn [fst]; intros [= <-]; reflexivity.
Qed.

(** Outside a confirmation no reply carries a receipt. *)
Lemma dispatchMessage_no_receipt env msg st resp :
  state (session st) ≠ awaiting_confirmation →
  (dispatchMessage config text env msg st).1 = Ret resp →
  is_receipt (message resp) = false.
Proof.
  intros Hstate. unfold dispatchMessage. monad.
  rewrite bool_decide_eq_false_2 by exact Hstate.
  destruct (parseIntent env) as [intent|e]; [|discriminate].
  destruct intent as [i|i|i|i|i|t]; cbn [fst].
  - apply processTransfer_no_receipt.
  - unfold processSwapAndTransfer. monad.
    destruct (getSwapRoute env) as [[sr|]|e]; cbn [fst];
      [apply processTransfer_no_receipt|intros [= <-]; reflexivity|discriminate].
  - unfold registerAlert. monad. intros [= <-]. reflexivity.
  - unfold handleQuery. monad. branches; cbn [fst]; intros [= <-]; reflexivity.
  - unfold handleClarification. branches; cbn [fst]; intros [= <-]; reflexivity.
  - intros [= <-]. reflexivity.
Qed.

(** X13.  A receipt is never made up.  When the reply to a message carries
    a receipt, the session was awaiting confirmation, the message said
    yes, and the stored transaction was sent: dispatch, approval of the
    bridge contract, bridge transfer, in this order and nothing else; the
    receipt shows the hash of that transfer, the stored amount and
    address; and the session is idle again with nothing pending. *)
Theorem receipt_means_submitted (sid msg : string) (wallet : WalletInfo) (env : Env)
    (h : Heap) (receipt : Receipt) (st0 : State) :
  let s := default (createSession sid wallet (now env)) (activeSessions h !! sid) in
  let h' := (handleUserMessage config text sid msg wallet env h).2 in
  (handleUserMessage config text sid msg wallet env h).1
  = mkResponse (TransferSubmitted receipt) st0 →
  state s = awaiting_confirmation
  ∧ isYes msg = true
  ∧ ∃ p spender s',
      pendingTransaction s = Some p
      ∧ getBridgeContractAddress (BridgeRouter.executionMethod (bridgeQuote p))
          (default "celo" (Intent.fromChain (intent p))) = Some spender
      ∧ effects h' = effects h ++ submission (sessionId s) p spender
      ∧ bridgeTx (chain env) = Ret (txHash receipt)
      ∧ receiptAmount receipt = Intent.amount (intent p)
      ∧ receiptToAddress receipt = Intent.toAddress (intent p)
      ∧ activeSessions h' !! sid = Some s'
      ∧ state s' = idle
      ∧ pendingTransaction s' = None.
Proof.
  cbv zeta. unfold handleUserMessage, catch_all.
  set (s := default _ _).
  destruct (decide (state s = awaiting_confirmation)) as [Haw|Haw].
  2:{ pose proof (dispatchMessage_no_receipt env msg (mkSt s (effects h))) as Hno.
      destruct (dispatchMessage config text env msg _) as [[resp|e] st']; cbn [fst snd] in *.
      - intros ->. specialize (Hno _ Haw eq_refl). discriminate.
      - discriminate. }
  unfold dispatchMessage. monad. rewrite bool_decide_eq_true_2 by exact Haw.
  unfold handleConfirmation. destruct (isYes msg) eqn:Hyes.
  2:{ destruct (isNo msg); monad; cbn [fst]; discriminate. }
  monad.
  destruct (pendingTransaction s) as [p|] eqn:Hp.
  2:{ unfold executeTransfer. monad.
      change (pendingTransaction (set_state executing s)) with (pendingTransaction s).
      rewrite Hp. cbn [fst]. discriminate. }
  destruct (executeTransfer_trace config env (mkSt (set_state executing s) (effects h)) p Hp)
    as (r & st' & more & -> & Htr & Hidle & _ & Hmore & Hresp).
  cbn [session trace sessionId set_state] in Htr.
  assert (Htr' : trace st' = effects h ++ Dispatch (sessionId s) p :: more)
    by (clear -Htr; destruct s; exact Htr).
  destruct r as [resp|e]; cbn [fst snd effects activeSessions]; [|discriminate].
  intros ->. split; [exact Haw|]. split; [reflexivity|].
  destruct (Hresp _ eq_refl) as [H|(? & ? & [=])].
  destruct H as (receipt' & spender & approval & [= <- ->] & -> & _ & Htx & Hamount & Haddr & Hnone).
  destruct Hmore as [[=]|(spender' & Ha & _ & [[=]|[= <-]])].
  exists p, spender, (session st'). rewrite lookup_insert_eq.
  split; [reflexivity|]. split; [exact Ha|]. split; [exact Htr'|].
  repeat split; first [assumption|reflexivity].
Qed.

(** X14.  While a confirmation is awaited, a message in which [isYes]
    finds an affirmative word dispatches the stored transaction, whatever
    else the message says (the negative words are looked at only
    afterwards), and the session ends idle. *)
Theorem yes_wins_over_no (sid msg : string) (wallet : WalletInfo) (env : Env) (h : Heap)
    (s : Session) (p : PendingTransaction) :
  activeSessions h !! sid = Some s →
  state s = awaiting_confirmation →
  pendingTransaction s = Some p →
  isYes msg = true →
  let h' := (handleUserMessage config text sid msg wallet env h).2 in
  ∃ more s',
    effects h' = effects h ++ Dispatch (sessionId s) p :: more
    ∧ activeSessions h' !! sid = Some s'
    ∧ state s' = idle.
Proof.
  intros Hs Haw Hp Hyes. cbv zeta. unfold handleUserMessage, catch_all.
  rewrite Hs. cbn [default from_option]. unfold Datatypes.id.
  unfold dispatchMessage. monad. rewrite bool_decide_eq_true_2 by exact Haw.
  unfold handleConfirmation. rewrite Hyes. monad.
  destruct (executeTransfer_trace config env (mkSt (set_state executing s) (effects h)) p Hp)
    as (r & st' & more & -> & Htr & Hidle & _).
  cbn [session trace sessionId set_state] in Htr.
  assert (Htr' : trace st' = effects h ++ Dispatch (sessionId s) p :: more)
    by (clear -Htr; destruct s; exact Htr).
  destruct r as [resp|e]; cbn [snd effects activeSessions session trace].
  - exists more, (session st'). rewrite lookup_insert_eq. auto.
  - exists more, (set_state idle (session st')). rewrite lookup_insert_eq. auto.
Qed.

(** X15.  A refusal cancels for good: a message that is a no and not a
    yes is answered with the cancellation, sends nothing to the chain,
    leaves the session idle with nothing pending, and whatever message
    comes next for this session sends nothing to the chain either. *)
Theorem cancel_moves_no_funds (sid msg : string) (wallet : WalletInfo) (env : Env)
    (h : Heap) (s : Session) :
  activeSessions h !! sid = Some s →
  state s = awaiting_confirmation →
  isYes msg = false →
  isNo msg = true →
  let cancelled := set_pendingTransaction None (set_state idle s) in
  let h' := mkHeap (<[sid := cancelled]> (activeSessions h)) (effects h) in
  handleUserMessage config text sid msg wallet env h = (mkResponse Cancelled idle, h')
  ∧ state cancelled = idle
  ∧ pendingTransaction cancelled = None
  ∧ ∀ msg' wallet' env',
      effects (handleUserMessage config text sid msg' wallet' env' h').2 = effects h.
Proof.
  intros Hs Haw Hyes Hno. cbv zeta. split; [|split; [reflexivity|split; [reflexivity|]]].
  - unfold handleUserMessage, catch_all, dispatchMessage, handleConfirmation.
    rewrite Hs. cbn [default from_option]. unfold Datatypes.id. monad.
    rewrite bool_decide_eq_true_2 by exact Haw. rewrite Hyes, Hno. reflexivity.
  - intros msg' wallet' env'. unfold handleUserMessage, catch_all.
    cbn [activeSessions effects]. rewrite lookup_insert_eq. cbn [default from_option].
    unfold Datatypes.id.
    pose proof (dispatchMessage_no_dispatch config text env' msg'
                  (mkSt (set_pendingTransaction None (set_state idle s)) (effects h))) as Hnd.
    destruct (dispatchMessage config text env' msg' _) as [[resp|e] st'];
      cbn [snd effects trace] in *; apply Hnd; discriminate.
Qed.

(** C9: the code diverges.  The handler looks for the words of its
    vocabulary anywhere inside the message, the one-letter words "y" and
    "n" among them.  So while a confirmation is awaited, "why?", which is
    no reply of the vocabulary, is taken as yes: the stored transaction
    is dispatched and the session leaves [awaiting_confirmation]; and
    "thanks", no such reply either, is taken as no: the transaction is
    dropped. *)
Theorem stray_message_decides (sid : string) (wallet : WalletInfo) (env : Env) (h : Heap)
    (s : Session) (p : PendingTransaction) :
  activeSessions h !! sid = Some s →
  state s = awaiting_confirmation →
  pendingTransaction s = Some p →
  (¬ In (toLowerCase (trim "why?")) (yesWords ++ noWords)
   ∧ ¬ In (toLowerCase (trim "thanks")) (yesWords ++ noWords))
  ∧ (∃ more s',
       effects (handleUserMessage config text sid "why?" wallet env h).2
       = effects h ++ Dispatch (sessionId s) p :: more
       ∧ activeSessions (handleUserMessage config text sid "why?" wallet env h).2 !! sid
         = Some s'
       ∧ state s' = idle)
  ∧ handleUserMessage config text sid "thanks" wallet env h
    = (mkResponse Cancelled idle,
       mkHeap (<[sid := set_pendingTransaction None (set_state idle s)]> (activeSessions h))
         (effects h)).
Proof.
  intros Hs Haw Hp. split; [|split].
  - split; intros H; cbn in H; decompose [or] H; discriminate || contradiction.
  - unfold handleUserMessage, catch_all.
    rewrite Hs. cbn [default from_option]. unfold Datatypes.id.
    unfold dispatchMessage. monad. rewrite bool_decide_eq_true_2 by exact Haw.
    unfold handleConfirmation.
    change (isYes "why?") with true. cbv iota. monad.
    destruct (executeTransfer_trace config env (mkSt (set_state executing s) (effects h))
                p Hp) as (r & st' & more & -> & Htr & Hidle & _).
    cbn [session trace sessionId set_state] in Htr.
    assert (Htr' : trace st' = effects h ++ Dispatch (sessionId s) p :: more)
      by (clear -Htr; destruct s; exact Htr).
    destruct r as [resp|e]; cbn [snd effects activeSessions session trace].
    + exists more, (session st'). rewrite lookup_insert_eq. auto.
    + exists more, (set_state idle (session st')). rewrite lookup_insert_eq. auto.
  - unfold handleUserMessage, catch_all, dispatchMessage, handleConfirmation.
    rewrite Hs. cbn [default from_option]. unfold Datatypes.id. monad.
    rewrite bool_decide_eq_true_2 by exact Haw.
    change (isYes "thanks") with false. change (isNo "thanks") with true. reflexivity.
Qed.
End Confirmation.

Section ScenarioB.
Import JS Orchestrator.
Variable config : Config.t.
Variable text : Templates.

(** Without a context hint no address is taken for a Celo address. *)
Lemma detect_without_hint addr :
  ChainDetector.chain (ChainDetector.detectChainFromAddress addr "") ≠ "celo".
Proof.
  unfold ChainDetector.detectChainFromAddress.
  change (ChainDetector.detectEVMChainFromContext (toLowerCase ""))
    with (ChainDetector.mkChainInfo "ethereum" false).
  repeat match goal with
    | |- context [if ?c then _ else _] => destruct c
    end; discriminate.
Qed.

(** X16.  A transfer intent for USDm that carries no [rawMessage] never
    reaches the confirmation: whatever the address, the quotes and the
    other answers of the world, the reply does not await confirmation,
    nothing is stored as pending, nothing is sent to the chain, and the
    session only gains the user's turn. *)
Theorem usdm_transfer_never_confirmed (sid msg : string) (wallet : WalletInfo) (env : Env)
    (h : Heap) (i : Intent.Transfer) :
  let s0 := default (createSession sid wallet (now env)) (activeSessions h !! sid) in
  let s1 := push_history (mkTurn "user" msg) s0 in
  state s0 = idle →
  parseIntent env = Ret (Intent.transfer i) →
  Intent.token i = "USDm" →
  Intent.rawMessage i = None →
  ∃ resp,
    handleUserMessage config text sid msg wallet env h
    = (resp, mkHeap (<[sid := s1]> (activeSessions h)) (effects h))
    ∧ replyState resp ≠ awaiting_confirmation
    ∧ state s1 = idle
    ∧ pendingTransaction s1 = pendingTransaction s0.
Proof.
  intros s0 s1 Hidle Hparse Htoken Hraw.
  unfold handleUserMessage, catch_all.
  rewrite (dispatchMessage_transfer config text) with (i := i);
    [|cbn [session]; fold s0; rewrite Hidle; discriminate|exact Hparse].
  cbn [session trace]. fold s0. fold s1.
  destruct (processTransfer_stores config text env i (mkSt s1 (effects h)))
    as (r & st' & -> & [[-> Hr]|H]).
  - destruct r as [resp|e]; cbn [session trace].
    + exists resp. repeat split; try assumption. rewrite (Hr resp eq_refl). discriminate.
    + eexists. rewrite set_state_same by exact Hidle.
      repeat split; try assumption. discriminate.
  - exfalso. destruct H as (p & full & Hvet & Ht & _ & _ & Hr & _).
    destruct Hvet as (_ & _ & Hv & Hvalid & _).
    destruct (Intent.toAddress (intent p)) as [addr|] eqn:Haddr;
      [|unfold Validator.validateTransfer in Hv; now rewrite Haddr in Hv].
    rewrite <- Ht in Htoken. rewrite <- Hr in Hraw.
    pose proof (usdm_valid_on_celo _ _ _ addr Haddr Hv Hvalid Htoken) as Hcelo.
    rewrite Hraw in Hcelo. exact (detect_without_hint addr Hcelo).
Qed.
End ScenarioB.

(** ** The alert store *)

Section AlertStore.
Import JS AlertEngine.
Context {W : Type}.
Variable config : Config.t.
Variable onAlertTriggered : string → Alert → W → res unit * W.

(** X17.  A polling tick that runs to its end triggers exactly the alerts
    that were not yet triggered and whose check answers true: these, and
    no others, are marked triggered at the time of the tick, and the
    callback is called for these, once each, in the order of the
    store. *)
Theorem poll_triggers_exactly (probe : string → Probe) (now : N)
    (entries : list (string * Alert)) (w : W) :
  let r := poll config onAlertTriggered probe now entries w in
  outcome r = Ret () →
  activeAlerts r = ticked config probe now <$> entries
  ∧ calls r = fst <$> List.filter (fires config probe) entries.
Proof.
  cbv zeta. revert w. induction entries as [|[id a] rest IH]; intros w; [now split|].
  cbn [poll]. unfold ticked, fires. cbn [fst snd fmap list_fmap List.filter].
  destruct (triggered a) eqn:Ht; cbn [negb andb].
  { cbn. intros H. destruct (IH w H) as [-> ->]. now split. }
  destruct (checkPriceAlert config a (probe id)) as [[|]|e]; cbn [outcome].
  - destruct (onAlertTriggered id (mark_triggered now a) w) as [[u|e] w']; cbn;
      [|discriminate].
    intros H. destruct (IH w' H) as [-> ->]. now split.
  - cbn. intros H. destruct (IH w H) as [-> ->]. now split.
  - discriminate.
Qed.

(** Whatever its outcome, a tick leaves every entry under its id and
    either as it was or, if it was not triggered, marked triggered. *)
Lemma poll_evolves probe now entries w :
  Forall2 (λ e e', e'.1 = e.1
                   ∧ (e'.2 = e.2 ∨ (triggered e.2 = false ∧ e'.2 = mark_triggered now e.2)))
    entries (activeAlerts (poll config onAlertTriggered probe now entries w)).
Proof.
  revert w. induction entries as [|[id a] rest IH]; intros w; [constructor|].
  assert (Hsame : ∀ l, Forall2 (λ e e' : string * Alert, e'.1 = e.1
                   ∧ (e'.2 = e.2 ∨ (triggered e.2 = false ∧ e'.2 = mark_triggered now e.2)))
                   l l).
  { induction l; constructor; auto. }
  cbn [poll]. destruct (triggered a) eqn:Ht; [cbn; constructor; auto|].
  destruct (checkPriceAlert config a (probe id)) as [[|]|e].
  - destruct (onAlertTriggered id (mark_triggered now a) w) as [[u|e] w']; cbn;
      constructor; auto.
  - cbn. constructor; auto.
  - cbn. apply Hsame.
Qed.

(** X18.  Whether or not a polling tick runs to its end, it neither adds
    nor removes nor reorders alerts; an alert is either unchanged or was
    untriggered and is now marked triggered; and the callback was called
    only for alerts that were untriggered before and are marked triggered
    after. *)
Theorem poll_keeps_store (probe : string → Probe) (now : N)
    (entries : list (string * Alert)) (w : W) :
  let r := poll config onAlertTriggered probe now entries w in
  fst <$> activeAlerts r = fst <$> entries
  ∧ Forall2 (λ e e', e'.2 = e.2 ∨ (triggered e.2 = false ∧ e'.2 = mark_triggered now e.2))
      entries (activeAlerts r)
  ∧ (∀ id, In id (calls r) →
       ∃ a, In (id, a) entries ∧ triggered a = false
            ∧ In (id, mark_triggered now a) (activeAlerts r)).
Proof.
  cbv zeta. split; [|split].
  - pose proof (poll_evolves probe now entries w) as H.
    induction H as [|e e' l l' [He _] _ IH]; [reflexivity|]. cbn. now rewrite He, IH.
  - eapply Forall2_impl; [apply poll_evolves|]. cbn. tauto.
  - revert w. induction entries as [|[id a] rest IH]; intros w; [intros ? []|].
    cbn [poll]. destruct (triggered a) eqn:Ht.
    { cbn. intros id' Hin. destruct (IH w id' Hin) as (x & Hx & Hf & Hm). eauto 10. }
    destruct (checkPriceAlert config a (probe id)) as [[|]|e].
    + destruct (onAlertTriggered id (mark_triggered now a) w) as [[u|e] w']; cbn.
      * intros id' [<-|Hin]; [eauto 10|].
        destruct (IH w' id' Hin) as (x & Hx & Hf & Hm). eauto 10.
      * intros id' [<-|[]]. eauto 10.
    + cbn. intros id' Hin. destruct (IH w id' Hin) as (x & Hx & Hf & Hm). eauto 10.
    + intros ? [].
Qed.

Lemma mark_triggered_filed now id a : filed (id, a) → filed (id, mark_triggered now a).
Proof. intros H. exact H. Qed.

Lemma poll_wellformed probe now entries w :
  NoDup (fst <$> entries) ∧ Forall filed entries →
  NoDup (fst <$> activeAlerts (poll config onAlertTriggered probe now entries w))
  ∧ Forall filed (activeAlerts (poll config onAlertTriggered probe now entries w)).
Proof.
  intros [Hnd Hf]. pose proof (poll_evolves probe now entries w) as H.
  assert (Hkeys : fst <$> activeAlerts (poll config onAlertTriggered probe now entries w)
                  = fst <$> entries).
  { clear Hnd Hf. induction H as [|e e' l l' [He _] _ IH]; [reflexivity|].
    cbn. now rewrite He, IH. }
  split; [now rewrite Hkeys|]. clear Hkeys Hnd.
  induction H as [|[id a] [id' a'] l l' [He Ha] _ IH]; [constructor|].
  apply Forall_cons in Hf. destruct Hf as [Hf0 Hf]. constructor; [|auto].
  cbn in He, Ha. subst id'. destruct Ha as [->|[_ ->]]; [exact Hf0|exact Hf0].
Qed.
End AlertStore.

Section AlertMap.
Import JS AlertEngine.

Lemma map_set_keys {V} k (v : V) m :
  fst <$> map_set k v m
  = (fst <$> m) ++ (if bool_decide (k ∈ fst <$> m) then [] else [k]).
Proof.
  induction m as [|[k' v'] m IH]; [reflexivity|]. cbn [map_set].
  destruct (String.eqb k' k) eqn:E.
  - apply String.eqb_eq in E. subst k'. cbn.
    rewrite bool_decide_eq_true_2 by left. now rewrite app_nil_r.
  - apply String.eqb_neq in E. cbn. rewrite IH. f_equal.
    destruct (decide (k ∈ fst <$> m)) as [Hin|Hin].
    + rewrite !bool_decide_eq_true_2; [reflexivity|now right|exact Hin].
    + rewrite !bool_decide_eq_false_2; [reflexivity| |exact Hin].
      intros H. apply elem_of_cons in H. destruct H; [congruence|contradiction].
Qed.

Lemma map_set_In {V} k (v : V) m e :
  e ∈ map_set k v m → e = (k, v) ∨ e ∈ m.
Proof.
  induction m as [|[k' v'] m IH]; cbn [map_set].
  - intros H. apply list_elem_of_singleton in H. now left.
  - destruct (String.eqb k' k).
    + intros H. apply elem_of_cons in H. destruct H; [now left|right; now right].
    + intros H. apply elem_of_cons in H. destruct H as [->|H]; [right; left|].
      destruct (IH H); [now left|right; now right].
Qed.

Lemma map_set_has {V} k (v : V) m : (k, v) ∈ map_set k v m.
Proof.
  induction m as [|[k' v'] m IH]; cbn [map_set]; [left|].
  destruct (String.eqb k' k); [left|right; exact IH].
Qed.

Lemma map_delete_set {V} k (v : V) m :
  map_delete k (map_set k v m) = ((map_delete k m).1, true).
Proof.
  induction m as [|[k' v'] m IH]; cbn [map_set map_delete].
  - now rewrite String.eqb_refl.
  - destruct (String.eqb k' k) eqn:E; cbn [map_delete].
    + now rewrite String.eqb_refl.
    + rewrite E, IH. now destruct (map_delete k m).
Qed.

Lemma map_delete_absent {V} k (m : list (string * V)) :
  k ∉ fst <$> m → map_delete k m = (m, false).
Proof.
  induction m as [|[k' v'] m IH]; [reflexivity|]. cbn. intros Hk.
  destruct (String.eqb k' k) eqn:E.
  - apply String.eqb_eq in E. subst. exfalso. apply Hk. left.
  - rewrite IH; [reflexivity|]. intros H. apply Hk. now right.
Qed.

Lemma map_delete_sublist {V} k (m : list (string * V)) :
  sublist (map_delete k m).1 m.
Proof.
  induction m as [|[k' v'] m IH]; [constructor|]. cbn.
  destruct (String.eqb k' k); [now constructor|].
  destruct (map_delete k m) as [m' f]. cbn in *. now constructor.
Qed.

(** With unique keys, deleting by key is filtering the key out. *)
Lemma map_delete_filter {V} k (m : list (string * V)) :
  NoDup (fst <$> m) →
  map_delete k m
  = (List.filter (λ e, negb (String.eqb e.1 k)) m, bool_decide (k ∈ fst <$> m)).
Proof.
  induction m as [|[k' v'] m IH]; [reflexivity|]. cbn. intros Hnd.
  apply NoDup_cons in Hnd. destruct Hnd as [Hk' Hnd].
  destruct (String.eqb k' k) eqn:E; cbn [negb].
  - apply String.eqb_eq in E. subst k'.
    rewrite bool_decide_eq_true_2 by left. f_equal.
    pose proof (map_delete_absent k m Hk') as Habs. rewrite (IH Hnd) in Habs.
    now injection Habs as ->.
  - apply String.eqb_neq in E. rewrite (IH Hnd). f_equal.
    destruct (decide (k ∈ fst <$> m)) as [Hin|Hin].
    + rewrite !bool_decide_eq_true_2; [reflexivity|now right|exact Hin].
    + rewrite !bool_decide_eq_false_2; [reflexivity| |exact Hin].
      intros H. apply elem_of_cons in H. destruct H; [congruence|contradiction].
Qed.

(** X19.  Registering an alert returns the id made of the session and the
    time, files a fresh untriggered alert under it that
    [getAlertsForSession] lists for the session, and [cancelAlert] of that
    id then succeeds; when the id was not in use, the alert is filed last
    and cancelling it restores the store.  (The creation time the alert
    records is a second reading of the clock.) *)
Theorem register_then_cancel (sessionId : string) (alertIntent : Intent.Alert)
    (now now' : N) (alerts : list (string * Alert)) :
  let id := sessionId +:+ "_" +:+ pretty now in
  let fresh := mkAlert alertIntent sessionId id false now' None in
  let alerts' := (registerAlert sessionId alertIntent now now' alerts).2 in
  (registerAlert sessionId alertIntent now now' alerts).1 = id
  ∧ In (id, fresh) alerts'
  ∧ In fresh (getAlertsForSession sessionId alerts')
  ∧ cancelAlert id alerts' = ((cancelAlert id alerts).1, true)
  ∧ (id ∉ fst <$> alerts →
       fst <$> alerts' = (fst <$> alerts) ++ [id]
       ∧ cancelAlert id alerts = (alerts, false)
       ∧ cancelAlert id alerts' = (alerts, true)).
Proof.
  cbv zeta. unfold registerAlert, cancelAlert. cbn [fst snd].
  set (id := sessionId +:+ "_" +:+ pretty now).
  set (fresh := mkAlert alertIntent sessionId id false now' None).
  assert (Hin : In (id, fresh) (map_set id fresh alerts)).
  { apply list_elem_of_In, map_set_has. }
  split; [reflexivity|]. split; [exact Hin|]. split; [|split].
  - unfold getAlertsForSession. apply filter_In. split.
    + apply in_map_iff. exists (id, fresh). now split.
    + cbn. apply String.eqb_refl.
  - apply map_delete_set.
  - intros Hfresh. rewrite map_delete_set, (map_delete_absent id alerts Hfresh).
    rewrite map_set_keys, bool_decide_eq_false_2 by exact Hfresh. auto.
Qed.
End AlertMap.

Section AlertRuns.
Import JS Orchestrator.
Variable config : Config.t.
Variable text : Templates.

Lemma Forall_sublist {A} (P : A → Prop) (l1 l2 : list A) :
  sublist l1 l2 → Forall P l2 → Forall P l1.
Proof.
  induction 1 as [|x l1 l2 _ IH|x l1 l2 _ IH]; intros Hf; [constructor| |];
    apply Forall_cons in Hf; destruct Hf as [Hx Hf]; [constructor|]; auto.
Qed.

Lemma map_set_wellformed (id : string) (a : AlertEngine.Alert) alerts :
  filed (id, a) →
  NoDup (fst <$> alerts) ∧ Forall filed alerts →
  NoDup (fst <$> AlertEngine.map_set id a alerts)
  ∧ Forall filed (AlertEngine.map_set id a alerts).
Proof.
  intros Ha [Hnd Hf]. split.
  - rewrite map_set_keys. case_bool_decide; [now rewrite app_nil_r|].
    apply NoDup_app. split; [exact Hnd|]. split; [|apply NoDup_singleton].
    intros x Hx Hx'. apply list_elem_of_singleton in Hx'. now subst.
  - apply Forall_forall. intros e He. apply map_set_In in He.
    destruct He as [->|He]; [exact Ha|].
    rewrite Forall_forall in Hf. now apply Hf.
Qed.

Lemma step_wellformed w e :
  NoDup (fst <$> Server.activeAlerts w) ∧ Forall filed (Server.activeAlerts w) →
  NoDup (fst <$> Server.activeAlerts (Server.step config text w e))
  ∧ Forall filed (Server.activeAlerts (Server.step config text w e)).
Proof.
  intros Hw. destruct e as [sid msg wallet env|probe envFor now|alertId|sid i now now'];
    cbn [Server.step Server.activeAlerts].
  - exact Hw.
  - now apply poll_wellformed.
  - destruct Hw as [Hnd Hf]. unfold AlertEngine.cancelAlert.
    pose proof (map_delete_sublist alertId (Server.activeAlerts w)) as Hsub. split.
    + eapply sublist_NoDup; [exact Hnd|]. now apply fmap_sublist.
    + eapply Forall_sublist; eassumption.
  - apply map_set_wellformed; [|exact Hw]. split; [reflexivity|]. now exists now.
Qed.

(** X20.  In every state the server reaches, the alert store holds each id
    once, every alert is filed under its own id, which is made of its
    session and of a reading of the clock, and [cancelAlert] removes
    exactly the entry of the given id and reports whether there was
    one. *)
Theorem alert_store_wellformed (events : list Server.Event) :
  let alerts := Server.activeAlerts (Server.run config text events Server.initial) in
  NoDup (fst <$> alerts)
  ∧ Forall filed alerts
  ∧ ∀ alertId,
      AlertEngine.cancelAlert alertId alerts
      = (List.filter (λ e, negb (String.eqb e.1 alertId)) alerts,
         bool_decide (alertId ∈ fst <$> alerts)).
Proof.
  cbv zeta.
  assert (H : ∀ w,
    NoDup (fst <$> Server.activeAlerts w) ∧ Forall filed (Server.activeAlerts w) →
    NoDup (fst <$> Server.activeAlerts (Server.run config text events w))
    ∧ Forall filed (Server.activeAlerts (Server.run config text events w))).
  { induction events as [|e events IH]; intros w Hw; cbn; [exact Hw|].
    apply IH, step_wellformed, Hw. }
  destruct (H Server.initial) as [Hnd Hf].
  { cbn. split; [constructor|constructor]. }
  split; [exact Hnd|]. split; [exact Hf|].
  intros alertId. now apply map_delete_filter.
Qed.
End AlertRuns.

(** ** Bridge fees *)

Section FeeSummary.
Import JS AlertEngine.
Variable config : Config.t.

Lemma minimum_le x xs y : In y (x :: xs) → (minimum x xs <= y)%Q.
Proof.
  unfold minimum. induction xs as [|a xs IH]; cbn [foldr].
  - intros [<-|[]]. apply Qle_refl.
  - intros [<-|[<-|H]].
    + eapply Qle_trans; [apply Q.le_min_r|]. apply IH. now left.
    + apply Q.le_min_l.
    + eapply Qle_trans; [apply Q.le_min_r|]. apply IH. now right.
Qed.

Lemma minimum_In x xs : ∃ y, In y (x :: xs) ∧ (minimum x xs == y)%Q.
Proof.
  unfold minimum. induction xs as [|a xs IH]; cbn [foldr].
  - exists x. split; [now left|reflexivity].
  - destruct IH as (y & Hy & Heq).
    destruct (Q.min_spec a (foldr Qmin x xs)) as [[_ H]|[_ H]].
    + exists a. split; [right; now left|exact H].
    + exists y. split; [|now rewrite H].
      destruct Hy as [<-|Hy]; [now left|right; now right].
Qed.

(** The least element of a list in ascending order is its first. *)
Lemma minimum_sorted x xs :
  Forall (λ y, (x <= y)%Q) xs → (minimum x xs == x)%Q.
Proof.
  intros Hx. apply Qle_antisym; [apply minimum_le; now left|].
  destruct (minimum_In x xs) as (y & Hy & ->).
  destruct Hy as [<-|Hy]; [apply Qle_refl|].
  rewrite List.Forall_forall in Hx. now apply Hx.
Qed.

Lemma ltb_Qeq (a b t : Q) : (a == b)%Q → ltb a t = ltb b t.
Proof.
  intros Hab. unfold ltb. f_equal.
  destruct (Qle_bool t a) eqn:Ea, (Qle_bool t b) eqn:Eb; try reflexivity.
  - apply Qle_bool_iff in Ea. rewrite Hab in Ea. apply Qle_bool_iff in Ea. congruence.
  - apply Qle_bool_iff in Eb. rewrite <- Hab in Eb. apply Qle_bool_iff in Eb. congruence.
Qed.

(** The least fee reported is the fee of the best route under
    "cheapest". *)
Lemma getCurrentBridgeFees_min fromChain toChain token amount net :
  match BridgeRouter.best
          (BridgeRouter.getBestBridgeRoute config
             (BridgeRouter.mkRequest fromChain toChain token amount (Some "cheapest")) net)
  with
  | None => minFeeUSD (getCurrentBridgeFees config fromChain toChain token amount net) = None
  | Some q =>
      ∃ lo, minFeeUSD (getCurrentBridgeFees config fromChain toChain token amount net)
            = Some lo
            ∧ (lo == BridgeRouter.feeUSD q)%Q
  end.
Proof.
  unfold getCurrentBridgeFees.
  set (rq := BridgeRouter.mkRequest fromChain toChain token amount (Some "cheapest")).
  destruct (getBestBridgeRoute_ranked config rq net) as [Hall Hbest].
  pose proof (rankQuotes_sorted_by_key "cheapest" (readyQuotes config rq net)) as Hsorted.
  change (default "cheapest" (BridgeRouter.priority rq)) with "cheapest" in Hall.
  rewrite <- Hall in Hsorted. rewrite Hbest.
  destruct (BridgeRouter.all (BridgeRouter.getBestBridgeRoute config rq net))
    as [|q quotes]; [reflexivity|].
  cbn [head fmap list_fmap]. eexists. split; [reflexivity|].
  apply minimum_sorted. inversion Hsorted as [|? ? _ Hq]; subst.
  apply List.Forall_forall. intros y Hy. apply in_map_iff in Hy.
  destruct Hy as (q' & <- & Hq'). rewrite List.Forall_forall in Hq. exact (Hq q' Hq').
Qed.

(** X22.  A "fee_below" alert fires only when it should: if its check
    answers true, the alert was not yet triggered, it has a threshold,
    and the best route under "cheapest" for its chains, token and amount
    (Celo, USDC and 100 by default) has a fee strictly below that
    threshold. *)
Theorem fee_alert_fires_only_below (alert : Alert) (world : Probe) :
  Intent.condition (intent alert) = "fee_below" →
  checkPriceAlert config alert world = Ret true →
  let i := intent alert in
  let r := BridgeRouter.getBestBridgeRoute config
             (BridgeRouter.mkRequest
                (or_defaultS (Intent.alertFromChain i) "celo") (Intent.targetChain i)
                (or_defaultS (Intent.alertToken i) "USDC")
                (or_default (Intent.alertAmount i) 100) (Some "cheapest")) (net world) in
  triggered alert = false
  ∧ ∃ q t, BridgeRouter.best r = Some q ∧ Intent.threshold i = Some t
           ∧ (BridgeRouter.feeUSD q < t)%Q.
Proof.
  intros Hc. cbv zeta. unfold checkPriceAlert.
  destruct (triggered alert); [discriminate|].
  rewrite Hc. cbn [String.eqb Ascii.eqb Bool.eqb].
  pose proof (getCurrentBridgeFees_min
                (or_defaultS (Intent.alertFromChain (intent alert)) "celo")
                (Intent.targetChain (intent alert))
                (or_defaultS (Intent.alertToken (intent alert)) "USDC")
                (or_default (Intent.alertAmount (intent alert)) 100) (net world)) as H.
  destruct (BridgeRouter.best _) as [q|].
  - destruct H as (lo & -> & Hlo). unfold below.
    destruct (Intent.threshold (intent alert)) as [t|]; [|discriminate].
    intros [= Hlt]. split; [reflexivity|]. exists q, t.
    split; [reflexivity|]. split; [reflexivity|].
    rewrite (ltb_Qeq _ _ t Hlo) in Hlt. unfold ltb in Hlt.
    apply Bool.negb_true_iff in Hlt. apply Qnot_le_lt. intros Hle.
    apply Qle_bool_iff in Hle. congruence.
  - rewrite H. discriminate.
Qed.
End FeeSummary.

(** ** Service-fee payments *)

Section Payments.
Import JS X402.
Variable config : Config.t.
Variable x402 : FeeConfig.

Lemma hasRecentPayment_true sid now records :
  hasRecentPayment sid now records = true
  ↔ ∃ k r at_, records !! k = Some r ∧ sessionId r = sid ∧ paid r = true
               ∧ verifiedAt r = Some at_ ∧ (Z.of_N now - Z.of_N at_ < GRACE_PERIOD)%Z.
Proof.
  unfold hasRecentPayment. rewrite existsb_exists. split.
  - intros (r & Hin & Hr). apply in_map_iff in Hin. destruct Hin as ([k r'] & <- & Hin).
    apply list_elem_of_In, elem_of_map_to_list in Hin. cbn [snd] in *.
    apply Bool.andb_true_iff in Hr. destruct Hr as [Hr Hat].
    apply Bool.andb_true_iff in Hr. destruct Hr as [Hsid Hpaid].
    apply String.eqb_eq in Hsid.
    destruct (verifiedAt r') as [at_|] eqn:Hv; [|discriminate].
    apply Z.ltb_lt in Hat. exists k, r', at_. repeat split; assumption.
  - intros (k & r & at_ & Hk & Hsid & Hpaid & Hat & Hlt). exists r. split.
    + apply in_map_iff. exists (k, r). split; [reflexivity|].
      now apply list_elem_of_In, elem_of_map_to_list.
    + rewrite Hsid, String.eqb_refl, Hpaid, Hat. cbn. now apply Z.ltb_lt.
Qed.

(** The outcomes of a verification. *)
Lemma verifyPayment_result nonce txHash now now' ledger records :
  match records !! nonce with
  | None => verifyPayment nonce txHash now now' ledger records = (RequestNotFound, records)
  | Some record =>
      if N.ltb (expiresAt record) now
      then verifyPayment nonce txHash now now' ledger records
           = (RequestExpired, delete nonce records)
      else if paid record
      then verifyPayment nonce txHash now now' ledger records = (AlreadyVerified, records)
      else verifyPayment nonce txHash now now' ledger records
           = (TxNotFoundOrFailed, records)
           ∨ verifyPayment nonce txHash now now' ledger records = (CouldNotVerify, records)
  end.
Proof.
  unfold verifyPayment. destruct (records !! nonce) as [record|]; [|reflexivity].
  destruct (N.ltb (expiresAt record) now); [reflexivity|].
  destruct (paid record); [reflexivity|].
  destruct (receipt ledger) as [[status|]|e]; [|now left|now right].
  destruct (Z.eqb status 1); cbn [negb]; [|now left].
  destruct (tokenAddress record); now right.
Qed.

(** X23.  No payment is ever verified.  Whatever the chain shows,
    [verifyPayment] never answers with a freshly verified payment: the
    contract it asks for the Transfer events is built from an interface
    that declares none, so the request for the filter throws and the
    answer is that the payment could not be verified.  The records are
    left as they are, but for an expired request, which is deleted; and
    the answer is [verified] only for a request that is on record, not
    expired, and already marked paid. *)
Theorem verifyPayment_never_verifies (nonce txHash : string) (now now' : N)
    (ledger : Ledger) (records : gmap string PaymentRecord) :
  let r := verifyPayment nonce txHash now now' ledger records in
  (∀ record, r.1 ≠ Verified record)
  ∧ (r.2 = records ∨ (r.1 = RequestExpired ∧ r.2 = delete nonce records))
  ∧ (verified r.1 = true
     ↔ ∃ record, records !! nonce = Some record ∧ (now <= expiresAt record)%N
                 ∧ paid record = true)
  ∧ (∀ record, records !! nonce = Some record → (now <= expiresAt record)%N →
       paid record = false → receipt ledger = Ret (Some 1%Z) →
       r.1 = CouldNotVerify).
Proof.
  cbv zeta. pose proof (verifyPayment_result nonce txHash now now' ledger records) as H.
  destruct (records !! nonce) as [record|] eqn:Hrec.
  - destruct (N.ltb (expiresAt record) now) eqn:Hexp.
    + rewrite H. cbn. apply N.ltb_lt in Hexp. repeat split; try discriminate; auto.
      * intros (r & [= <-] & Hle & _). lia.
      * intros r [= <-] Hle. lia.
    + apply N.ltb_ge in Hexp. destruct (paid record) eqn:Hpaid.
      * rewrite H. cbn. repeat split; try discriminate; eauto.
        intros r [= <-] _ Hp. congruence.
      * assert (Hv : verified (verifyPayment nonce txHash now now' ledger records).1
                     = false) by (destruct H as [-> | ->]; reflexivity).
        split; [destruct H as [-> | ->]; discriminate|].
        split; [destruct H as [-> | ->]; now left|].
        split.
        { rewrite Hv. split; [discriminate|]. intros (r & [= <-] & _ & Hp). congruence. }
        intros r [= <-] _ _ Hreceipt. unfold verifyPayment.
        rewrite Hrec, Hpaid, Hreceipt. apply N.ltb_ge in Hexp. rewrite Hexp.
        cbn [Z.eqb Pos.eqb negb]. now destruct (tokenAddress record).
  - rewrite H. cbn. repeat split; try discriminate; auto.
    intros (r & Hr & _). discriminate.
Qed.

(** X24.  Verifying an expired request reports the expiry and deletes the
    request, so that every later verification of the same nonce finds no
    request, whatever transaction is shown. *)
Theorem expired_request_forgotten (nonce txHash : string) (now now' : N) (ledger : Ledger)
    (records : gmap string PaymentRecord) (record : PaymentRecord) :
  records !! nonce = Some record →
  (expiresAt record < now)%N →
  verifyPayment nonce txHash now now' ledger records
  = (RequestExpired, delete nonce records)
  ∧ ∀ txHash' later later' ledger',
      verifyPayment nonce txHash' later later' ledger' (delete nonce records)
      = (RequestNotFound, delete nonce records).
Proof.
  intros Hrec Hexp. unfold verifyPayment. split.
  - rewrite Hrec. apply N.ltb_lt in Hexp. now rewrite Hexp.
  - intros. now rewrite lookup_delete_eq.
Qed.

Lemma hasRecentPayment_none_paid sid now records :
  none_paid records → hasRecentPayment sid now records = false.
Proof.
  intros Hnone. destruct (hasRecentPayment sid now records) eqn:H; [|reflexivity].
  apply hasRecentPayment_true in H. destruct H as (k & r & at_ & Hk & _ & Hpaid & _).
  rewrite (Hnone k r Hk) in Hpaid. discriminate.
Qed.

Lemma createPaymentRequest_none_paid sid user tok t0 t1 t2 records request records' :
  createPaymentRequest config x402 sid user tok t0 t1 t2 records = Ret (request, records') →
  none_paid records → none_paid records'.
Proof.
  unfold createPaymentRequest. destruct (SERVICE_FEE_UNITS x402); [|discriminate].
  intros [= <- <-] Hnone k r Hk.
  destruct (decide (k = "x402_" +:+ sid +:+ "_" +:+ pretty t0)) as [->|Hne].
  - rewrite lookup_insert_eq in Hk. now injection Hk as <-.
  - rewrite lookup_insert_ne in Hk by congruence. exact (Hnone k r Hk).
Qed.

Lemma verifyPayment_none_paid nonce txHash now now' ledger records :
  none_paid records →
  none_paid (verifyPayment nonce txHash now now' ledger records).2
  ∧ verified (verifyPayment nonce txHash now now' ledger records).1 = false.
Proof.
  intros Hnone.
  pose proof (verifyPayment_result nonce txHash now now' ledger records) as H.
  destruct (records !! nonce) as [record|] eqn:Hrec.
  - destruct (N.ltb (expiresAt record) now).
    + rewrite H. cbn. split; [|reflexivity]. intros k r Hk.
      apply lookup_delete_Some in Hk. destruct Hk as [_ Hk]. exact (Hnone k r Hk).
    + rewrite (Hnone nonce record Hrec) in H. destruct H as [-> | ->]; now split.
  - rewrite H. now split.
Qed.

Lemma serve_none_paid call records :
  none_paid records →
  none_paid (PaymentRoutes.serve config x402 call records).2
  ∧ granted (PaymentRoutes.serve config x402 call records).1 = false.
Proof.
  intros Hnone. destruct call as [sid user tok clock t0 t1 t2|nonce txHash now now' ledger];
    cbn [PaymentRoutes.serve].
  - destruct (_ || _); [now split|].
    rewrite hasRecentPayment_none_paid by exact Hnone.
    destruct (createPaymentRequest _ _ _ _ _ _ _ _ _) as [[pr records']|e] eqn:Hc;
      [|now split].
    split; [|reflexivity]. exact (createPaymentRequest_none_paid _ _ _ _ _ _ _ _ _ Hc Hnone).
  - destruct (_ || _); [now split|].
    destruct (verifyPayment_none_paid (default "" nonce) (default "" txHash) now now'
                ledger records Hnone) as [Hn Hv].
    destruct (verifyPayment _ _ _ _ _ _) as [result records']. now split.
Qed.

Lemma serve_all_none_paid calls records :
  none_paid records →
  none_paid (PaymentRoutes.serve_all config x402 calls records).2
  ∧ Forall (λ answer, granted answer = false)
      (PaymentRoutes.serve_all config x402 calls records).1.
Proof.
  revert records. induction calls as [|call calls IH]; intros records Hnone;
    cbn [PaymentRoutes.serve_all]; [now split|].
  destruct (serve_none_paid call records Hnone) as [Hn Hg].
  destruct (PaymentRoutes.serve config x402 call records) as [answer records1].
  destruct (IH records1 Hn) as [Hn' Hf].
  destruct (PaymentRoutes.serve_all config x402 calls records1) as [answers records2].
  split; [exact Hn'|]. now constructor.
Qed.

(** X25.  The round trip of a payment, as far as it goes.  A request
    just created is on record under its nonce, unpaid, and valid for ten
    minutes; creating it does not make the session a paying one.  When
    the transaction that pays it is shown within that time, and the chain
    has a receipt for it with status 1, the answer is that the payment
    could not be verified, and the records stay as they are.  Shown after
    that time, the answer is that the request expired, and the request is
    deleted. *)
Theorem payment_request_unverifiable (sid user txHash : string) (tok : option string)
    (t0 t1 t2 now now' : N) (ledger : Ledger) (records records1 : gmap string PaymentRecord)
    (request : PaymentRecord) :
  createPaymentRequest config x402 sid user tok t0 t1 t2 records = Ret (request, records1) →
  (now <= t1 + 600000)%N →
  receipt ledger = Ret (Some 1%Z) →
  records1 !! nonce request = Some request
  ∧ paid request = false
  ∧ expiresAt request = (t1 + 600000)%N
  ∧ (∀ t, hasRecentPayment sid t records = false → hasRecentPayment sid t records1 = false)
  ∧ verifyPayment (nonce request) txHash now now' ledger records1
    = (CouldNotVerify, records1)
  ∧ ∀ later later' ledger',
      (t1 + 600000 < later)%N →
      verifyPayment (nonce request) txHash later later' ledger' records1
      = (RequestExpired, delete (nonce request) records1).
Proof.
  intros Hcreate Hnow Hreceipt. unfold createPaymentRequest in Hcreate.
  destruct (SERVICE_FEE_UNITS x402) as [units|e]; [|discriminate].
  injection Hcreate as <- <-.
  set (request := mkRecord _ _ _ _ _ _ _ _ _ _ _ _ _ _) in *.
  change ("x402_" +:+ sid +:+ "_" +:+ pretty t0) with (nonce request).
  assert (Hlookup : <[nonce request := request]> records !! nonce request = Some request)
    by apply lookup_insert_eq.
  split; [exact Hlookup|]. split; [reflexivity|]. split; [reflexivity|].
  split; [|split].
  - intros t Hold. destruct (hasRecentPayment sid t (<[nonce request := request]> records))
      eqn:Hnew; [|reflexivity].
    apply hasRecentPayment_true in Hnew.
    destruct Hnew as (k & r & at_ & Hk & Hsid & Hpaid & Hat & Hlt).
    destruct (decide (k = nonce request)) as [->|Hne].
    + rewrite Hlookup in Hk. injection Hk as <-. discriminate.
    + rewrite lookup_insert_ne in Hk by congruence.
      assert (hasRecentPayment sid t records = true)
        by (apply hasRecentPayment_true; exists k, r, at_; auto).
      congruence.
  - unfold verifyPayment. rewrite Hlookup, Hreceipt.
    change (expiresAt request) with (t1 + 10 * 60 * 1000)%N.
    replace (N.ltb (t1 + 10 * 60 * 1000) now) with false by (symmetry; apply N.ltb_ge; lia).
    cbn [paid request Z.eqb Pos.eqb negb]. now destruct (tokenAddress request).
  - intros later later' ledger' Hlater. unfold verifyPayment. rewrite Hlookup.
    change (expiresAt request) with (t1 + 10 * 60 * 1000)%N.
    replace (N.ltb (t1 + 10 * 60 * 1000) later) with true by (symmetry; apply N.ltb_lt; lia).
    reflexivity.
Qed.

(** X26.  The service fee can never be settled through the payment
    routes.  Whatever requests for payment and verifications the server
    serves, starting with no records and whatever the chain shows, no
    request on record is ever marked paid, no answer tells the caller that
    the payment is verified or that a recent payment was found, and
    [hasRecentPayment] answers false for every session at every
    time. *)
Theorem payment_never_granted (calls : list PaymentRoutes.Call) :
  let r := PaymentRoutes.serve_all config x402 calls ∅ in
  none_paid r.2
  ∧ Forall (λ answer, granted answer = false) r.1
  ∧ ∀ sid now, hasRecentPayment sid now r.2 = false.
Proof.
  cbv zeta.
  assert (Hempty : none_paid (∅ : gmap string PaymentRecord)).
  { intros k r Hk. rewrite lookup_empty in Hk. discriminate. }
  destruct (serve_all_none_paid calls ∅ Hempty) as [Hn Hf].
  split; [exact Hn|]. split; [exact Hf|].
  intros sid now. now apply hasRecentPayment_none_paid.
Qed.
End Payments.

(** ** The bridge executors and the swap router *)

Section ExecutorFacts.
Import JS Orchestrator Executors.
Variable config : Config.t.
Variable text : Templates.

Ltac chain_cases c :=
  repeat match goal with
    | |- context [String.eqb c ?s] =>
        let E := fresh "E" in
        destruct (String.eqb c s) eqn:E;
        [apply String.eqb_eq in E; subst c|]
    end.

Lemma axelarName_chains c :
  truthyS (BridgeRouter.CHAIN_IDS c ≫= BridgeRouter.axelarName) = true →
  In c ROUTED_EVM_CHAINS.
Proof.
  unfold BridgeRouter.CHAIN_IDS, ROUTED_EVM_CHAINS.
  chain_cases c; cbn; intros H; try discriminate H; tauto.
Qed.

Lemma evmId_chains c :
  truthyZ (BridgeRouter.CHAIN_IDS c ≫= BridgeRouter.evmId) = true →
  In c ROUTED_EVM_CHAINS.
Proof.
  unfold BridgeRouter.CHAIN_IDS, ROUTED_EVM_CHAINS.
  chain_cases c; cbn; intros H; try discriminate H; tauto.
Qed.

(** Whatever was dispatched went through every step of
    [processTransfer]. *)
Lemma dispatched_vetted events sid p :
  In (Dispatch sid p)
     (effects (Server.heap (Server.run config text events Server.initial))) →
  vetted config p.
Proof.
  intros Hin.
  destruct (run_safe config text events _ (initial_safe config)) as (_ & Hd & _).
  exact (Hd sid p Hin).
Qed.

(** The quote of a vetted transaction comes from the provider its
    execution method names, which knows the destination. *)
Lemma vetted_destination p :
  vetted config p →
  Intent.toChain (intent p) = Some (ChainDetector.chain (chainInfo p))
  ∧ (BridgeRouter.executionMethod (bridgeQuote p) = "axelar_gmp" →
     In (ChainDetector.chain (chainInfo p)) ROUTED_EVM_CHAINS)
  ∧ (BridgeRouter.executionMethod (bridgeQuote p) = "celer_cbridge" →
     In (ChainDetector.chain (chainInfo p)) ROUTED_EVM_CHAINS).
Proof.
  intros ((net & Hbest & _) & Hto & _). split; [exact Hto|].
  destruct (best_In config _ _ _ Hbest) as [Hin _].
  destruct (quotesOf_providers config _ _ _ Hin)
    as [(_ & H & _)|[(_ & H & _)|[(_ & H & _ & Hc)|[(_ & H & _ & Hc)|(_ & H & _)]]]];
    rewrite H; split; intros Hm; try discriminate Hm.
  - exact (axelarName_chains _ Hc).
  - exact (evmId_chains _ Hc).
Qed.

(** X27.  What happens to a dispatched Axelar transfer.  Its destination
    is one of the seven chains the bridge router knows under an Axelar
    name.  For "bnb" the executor has no name: it refuses before any
    call.  For the others, when every call succeeds, the executor
    approves the gateway, asks for the gas fee, pays it, and sends the
    token to the stored address, in this order, and returns the hash of
    the last. *)
Theorem dispatched_axelar_transfer (events : list Server.Event) (sid : string)
    (p : PendingTransaction) (amountUnits : Z) (world : AxelarWorld) :
  In (Dispatch sid p)
     (effects (Server.heap (Server.run config text events Server.initial))) →
  BridgeRouter.executionMethod (bridgeQuote p) = "axelar_gmp" →
  let c := ChainDetector.chain (chainInfo p) in
  In c ROUTED_EVM_CHAINS
  ∧ (c = "bnb" →
     executeAxelarTransfer (intent p) amountUnits world
     = (Throw "Axelar: unsupported destination bnb", []))
  ∧ (c ≠ "bnb" → ∀ fee hash,
     approveTx world = Ret () → gasFee world = Ret fee →
     gasPayTx world = Ret () → sendTx world = Ret hash →
     executeAxelarTransfer (intent p) amountUnits world
     = (Ret hash,
        [ApproveSpender AXELAR_GATEWAY_CELO amountUnits;
         EstimateGasFee (toUpperCase c);
         PayNativeGas c (Intent.toAddress (intent p)) (Intent.token (intent p))
           amountUnits fee;
         SendToken c (Intent.toAddress (intent p)) (Intent.token (intent p))
           amountUnits])).
Proof.
  intros Hin Hm c.
  destruct (vetted_destination p (dispatched_vetted _ _ _ Hin)) as (Hto & Hc & _).
  specialize (Hc Hm). fold c in Hto, Hc. split; [exact Hc|].
  unfold executeAxelarTransfer. rewrite Hto. clearbody c. split.
  - intros ->. reflexivity.
  - intros Hbnb fee hash -> -> -> ->.
    cbn in Hc. decompose [or] Hc; try contradiction; subst c;
      try reflexivity. now destruct Hbnb.
Qed.

(** X28.  What happens to a dispatched Celer transfer.  Its destination is
    one of the seven chains the bridge router knows under an EVM id.  For
    "celo" the executor has no id: it refuses before any call.  For the
    others the executor's id is the router's, and when the bridge
    address is found and every call succeeds, the executor fetches the
    address, approves it, and sends with the current time as nonce and a
    slippage of 3000, in this order. *)
Theorem dispatched_celer_transfer (events : list Server.Event) (sid : string)
    (p : PendingTransaction) (amountUnits : Z) (tokenAddress : string)
    (world : CelerWorld) :
  In (Dispatch sid p)
     (effects (Server.heap (Server.run config text events Server.initial))) →
  BridgeRouter.executionMethod (bridgeQuote p) = "celer_cbridge" →
  let c := ChainDetector.chain (chainInfo p) in
  In c ROUTED_EVM_CHAINS
  ∧ (c = "celo" →
     executeCelerTransfer (intent p) amountUnits tokenAddress world
     = (Throw "Celer: unsupported destination celo", []))
  ∧ (c ≠ "celo" →
     ∃ id, BridgeRouter.CHAIN_IDS c ≫= BridgeRouter.evmId = Some id
       ∧ ∀ bridgeAddress hash,
           transferConfigs world = Ret (Some bridgeAddress) → bridgeAddress ≠ "" →
           celerApproveTx world = Ret () → celerSendTx world = Ret hash →
           executeCelerTransfer (intent p) amountUnits tokenAddress world
           = (Ret hash,
              [GetTransferConfigs;
               ApproveSpender bridgeAddress amountUnits;
               CelerSend (Intent.toAddress (intent p)) tokenAddress amountUnits id
                 (now world) 3000])).
Proof.
  intros Hin Hm c.
  destruct (vetted_destination p (dispatched_vetted _ _ _ Hin)) as (Hto & _ & Hc).
  specialize (Hc Hm). fold c in Hto, Hc. split; [exact Hc|].
  unfold executeCelerTransfer. rewrite Hto. clearbody c. split.
  - intros ->. reflexivity.
  - intros Hcelo.
    assert (Hne : ∀ a : string, a ≠ "" → negb (truthyS (Some a)) = false).
    { intros a Ha. cbn. destruct (String.eqb a "") eqn:E; [|reflexivity].
      apply String.eqb_eq in E. contradiction. }
    cbn in Hc. decompose [or] Hc; try contradiction; subst c;
      try (now destruct Hcelo);
      (eexists; split; [reflexivity|]; intros addr hash -> Ha -> ->;
       cbn [mbind option_bind CELER_CHAIN_IDS String.eqb Ascii.eqb Bool.eqb];
       rewrite (Hne addr Ha); reflexivity).
Qed.

Lemma LZ_CHAIN_IDS_router c :
  LZ_CHAIN_IDS c = BridgeRouter.CHAIN_IDS c ≫= BridgeRouter.layerzeroId.
Proof.
  unfold LZ_CHAIN_IDS, BridgeRouter.CHAIN_IDS. chain_cases c; reflexivity.
Qed.

Lemma one_percent (a : Z) :
  (0 <= a → 100 * (a * 99 ÷ 100) <= 99 * a < 100 * (a * 99 ÷ 100) + 100)%Z.
Proof.
  intros Ha. rewrite Z.quot_div_nonneg by lia.
  pose proof (Z.div_mod (a * 99) 100 ltac:(lia)).
  pose proof (Z.mod_pos_bound (a * 99) 100 ltac:(lia)). lia.
Qed.

(** X29.  What a Stargate transfer that returns a hash has done.  The
    destination has the LayerZero id the bridge router uses, the token is
    USDC or USDT, the source chain has a router; the calls were the
    approval of that router, the encoding of the address, the fee quote,
    and one swap between the token's pool on both sides, accepting the
    amount less one percent (rounded down) at least, and paying the
    quoted fee, or 0.01 of the native coin when the quote failed. *)
Theorem stargate_transfer (intent : Intent.Transfer) (amountUnits : Z)
    (world : StargateWorld) (hash : string) (calls : list Call) :
  executeLayerZeroTransfer intent amountUnits world = (Ret hash, calls) →
  ∃ toChain dstChainId poolId router minAmount fee,
    Intent.toChain intent = Some toChain
    ∧ BridgeRouter.CHAIN_IDS toChain ≫= BridgeRouter.layerzeroId = Some dstChainId
    ∧ STARGATE_POOL_IDS (Intent.token intent) = Some poolId
    ∧ In (Intent.token intent) ["USDC"; "USDT"]
    ∧ STARGATE_ROUTERS (default "celo" (Intent.fromChain intent)) = Some router
    ∧ calls = [ApproveSpender router amountUnits;
               EncodeAddress (Intent.toAddress intent);
               QuoteLayerZeroFee dstChainId;
               StargateSwap dstChainId poolId poolId amountUnits minAmount fee]
    ∧ (0 <= amountUnits →
       100 * minAmount <= 99 * amountUnits < 100 * minAmount + 100)%Z
    ∧ (∀ quote, nativeFee world = Ret quote → fee = quote)
    ∧ (∀ e, nativeFee world = Throw e → fee = (10 ^ 16)%Z)
    ∧ swapTx world = Ret hash.
Proof.
  unfold executeLayerZeroTransfer. cbv zeta.
  destruct (Intent.toChain intent) as [toChain|] eqn:Hto; [|discriminate].
  cbn [mbind option_bind]. rewrite LZ_CHAIN_IDS_router.
  destruct (BridgeRouter.CHAIN_IDS toChain ≫= BridgeRouter.layerzeroId) as [d|] eqn:Hd;
    [|discriminate].
  destruct (STARGATE_POOL_IDS (Intent.token intent)) as [pool|] eqn:Hpool; [|discriminate].
  destruct (STARGATE_ROUTERS (default "celo" (Intent.fromChain intent))) as [router|] eqn:Hr;
    [|discriminate].
  destruct (stargateApproveTx world); [|discriminate].
  destruct (encodedAddress world); [|discriminate].
  destruct (swapTx world) as [h|] eqn:Hswap; [|discriminate].
  intros [= <- <-].
  exists toChain, d, pool, router. eexists _, _.
  split; [reflexivity|]. split; [exact Hd|]. split; [reflexivity|].
  split.
  { revert Hpool. unfold STARGATE_POOL_IDS.
    destruct (String.eqb (Intent.token intent) "USDC") eqn:E1;
      [apply String.eqb_eq in E1; rewrite E1; cbn; tauto|].
    destruct (String.eqb (Intent.token intent) "USDT") eqn:E2;
      [apply String.eqb_eq in E2; rewrite E2; cbn; tauto|discriminate]. }
  split; [reflexivity|]. split; [reflexivity|].
  split; [apply one_percent|].
  split; [intros quote ->; reflexivity|].
  split; [intros e ->; reflexivity|reflexivity].
Qed.
End ExecutorFacts.

Section SwapFacts.
Import JS SwapRouter.
Variable config : Config.t.
Variable dexConfig : DexConfig.

Lemma getMentoSwapQuote_Some fromToken toToken amount world route :
  getMentoSwapQuote config fromToken toToken amount world = Some route →
  ∃ out, mento world = Ret out
    ∧ route = mkRoute "Mento" fromToken toToken amount
                (Fin (inject_Z out / inject_Z (10 ^ 18)))
                (div (amount - inject_Z out / inject_Z (10 ^ 18)) amount)
                (Fin (amount * 0.001)) (Some (out * 99 ÷ 100)%Z).
Proof.
  unfold getMentoSwapQuote. intros H. apply catch_null_Ret in H. cbv zeta in H.
  destruct (_ || _); [discriminate|].
  destruct (mento world) as [out|]; [|discriminate].
  injection H as <-. exists out. split; reflexivity.
Qed.

Lemma get1inchSwapQuote_Some fromToken toToken amount chain world route :
  get1inchSwapQuote config dexConfig fromToken toToken amount chain world = Some route →
  dex route = "1inch" ∧ SwapRouter.fromToken route = fromToken
  ∧ SwapRouter.toToken route = toToken ∧ inputAmount route = amount
  ∧ is_Some (ONEINCH_CHAIN_IDS chain)
  ∧ (∃ key, ONEINCH_API_KEY dexConfig = Some key ∧ key ≠ "" ∧ key ≠ "YOUR_KEY_HERE")
  ∧ ∃ data, oneinch world = Ok data.
Proof.
  unfold get1inchSwapQuote. intros H. apply catch_null_Ret in H. cbv zeta in H.
  destruct (ONEINCH_CHAIN_IDS chain) as [id|] eqn:Hid; [|discriminate].
  destruct (negb (truthyZ (Some id))); [discriminate|].
  destruct (_ || _); [discriminate|].
  destruct (ONEINCH_API_KEY dexConfig) as [key|] eqn:Hkey; [|discriminate].
  destruct (negb (truthyS (Some key))) eqn:Htruthy; [discriminate|].
  destruct (bool_decide (Some key = Some "YOUR_KEY_HERE")) eqn:Hyour; [discriminate|].
  cbn [orb] in H.
  destruct (oneinch world) as [e| |data] eqn:Hreply; try discriminate.
  injection H as <-. cbn. repeat split; eauto.
  exists key. split; [reflexivity|]. split.
  - intros ->. discriminate Htruthy.
  - intros ->. rewrite bool_decide_eq_false in Hyour. now apply Hyour.
Qed.

(** X30.  Where a swap route comes from.  It repeats the tokens and the
    amount asked for.  It is Mento's only on Celo and from USDm or cUSD,
    when the broker answered with a quote: the least output the route
    accepts is that quote less one percent, rounded down.  Otherwise it
    is 1inch's, which takes a configured API key, a chain 1inch serves
    and a successful reply. *)
Theorem swap_route_origin (fromToken toToken : string) (amount : Q) (chain : option string)
    (world : World) (route : Route) :
  getSwapRoute config dexConfig fromToken toToken amount chain world = Some route →
  SwapRouter.fromToken route = fromToken ∧ SwapRouter.toToken route = toToken
  ∧ inputAmount route = amount
  ∧ ((dex route = "Mento"
      ∧ default "celo" chain = "celo" ∧ (fromToken = "USDm" ∨ fromToken = "cUSD")
      ∧ ∃ out minOut,
          mento world = Ret out
          ∧ amountOutMin route = Some minOut
          ∧ (0 <= out → 100 * minOut <= 99 * out < 100 * minOut + 100)%Z)
     ∨ (dex route = "1inch"
        ∧ is_Some (ONEINCH_CHAIN_IDS (default "celo" chain))
        ∧ (∃ key, ONEINCH_API_KEY dexConfig = Some key ∧ key ≠ ""
                  ∧ key ≠ "YOUR_KEY_HERE")
        ∧ ∃ data, oneinch world = Ok data)).
Proof.
  unfold getSwapRoute. cbv zeta.
  destruct (String.eqb (default "celo" chain) "celo"
            && (String.eqb fromToken "USDm" || String.eqb fromToken "cUSD")) eqn:Hcond.
  - destruct (getMentoSwapQuote config fromToken toToken amount world) as [r|] eqn:Hm.
    + intros [= <-]. destruct (getMentoSwapQuote_Some _ _ _ _ _ Hm) as (out & Hout & ->).
      cbn [SwapRouter.fromToken SwapRouter.toToken inputAmount dex outputAmount
           amountOutMin priceImpact].
      split; [reflexivity|]. split; [reflexivity|]. split; [reflexivity|]. left.
      apply Bool.andb_true_iff in Hcond as [Hc Hf]. apply String.eqb_eq in Hc.
      split; [reflexivity|]. split; [exact Hc|]. split.
      { apply Bool.orb_true_iff in Hf as [Hf|Hf]; apply String.eqb_eq in Hf; auto. }
      exists out. eexists. split; [exact Hout|]. split; [reflexivity|].
      apply one_percent.
    + intros H. destruct (get1inchSwapQuote_Some _ _ _ _ _ _ H) as (? & ? & ? & ? & ?).
      repeat split; try assumption. right. split; assumption.
  - intros H. destruct (get1inchSwapQuote_Some _ _ _ _ _ _ H) as (? & ? & ? & ? & ?).
    repeat split; try assumption. right. split; assumption.
Qed.
End SwapFacts.

(** ** Further scenarios *)

Section MoreScenarios.
Import JS Orchestrator Sample Cases.


(** A token named like a property every object inherits passes the
    token check: 100 "constructor" to a Solana address is valid. *)
Example inherited_name_passes_token_check :
  ∃ v, Validator.validateTransfer
         (Intent.mkTransfer (Some solana_address) "constructor" 100 (Some "celo")
            (Some "solana") (Some "cheapest") None None) (Some wormhole_fee_60) = Ret v
       ∧ Validator.valid v = true.
Proof. eexists. split; [reflexivity|]. vm_compute. reflexivity. Qed.

Lemma usdm_needs_celo_hint_witness :
  ∃ v, Validator.validateTransfer send_5_usdm_celo (Some layerzero_quote_051) = Ret v
       ∧ Validator.valid v = true
       ∧ ∃ addr raw,
           Intent.toAddress send_5_usdm_celo = Some addr
           ∧ ChainDetector.EVM (trim addr) = true
           ∧ Intent.rawMessage send_5_usdm_celo = Some raw
           ∧ includes (toLowerCase raw) "celo" = true
           ∧ includes (toLowerCase raw) "base" = false.
Proof.
  assert (H : ∃ v, Validator.validateTransfer send_5_usdm_celo (Some layerzero_quote_051)
                   = Ret v ∧ Validator.valid v = true).
  { eexists. split; [reflexivity|]. vm_compute. reflexivity. }
  destruct H as (v & Hv & Hvalid). exists v. split; [exact Hv|]. split; [exact Hvalid|].
  exact (usdm_needs_celo_hint send_5_usdm_celo (Some layerzero_quote_051) v Hv eq_refl Hvalid).
Defined.

Lemma usdm_transfer_never_confirmed_witness :
  ∃ resp,
    handleUserMessage config text "s1" msg_usdm no_wallet env_usdm empty_heap
    = (resp,
       mkHeap (<["s1" := push_history (mkTurn "user" msg_usdm)
                           (createSession "s1" no_wallet (now env_usdm))]> ∅) [])
    ∧ replyState resp ≠ awaiting_confirmation.
Proof.
  destruct (usdm_transfer_never_confirmed config text "s1" msg_usdm no_wallet env_usdm
              empty_heap send_500_usdm_solana eq_refl eq_refl eq_refl eq_refl)
    as (resp & Hrun & Hstate & _).
  exists resp. split; [exact Hrun|exact Hstate].
Defined.

Lemma layerzero_chains_always_routed_witness :
  ∃ q ql,
    BridgeRouter.best (BridgeRouter.getBestBridgeRoute config celo_to_base_100 all_down)
    = Some q
    ∧ BridgeRouter.getLayerZeroQuote celo_to_base_100 = Some ql
    ∧ In ql (BridgeRouter.all
               (BridgeRouter.getBestBridgeRoute config celo_to_base_100 all_down))
    ∧ BridgeRouter.feeUSD ql = (100 * 0.0006 + 0.45)%Q.
Proof.
  apply (layerzero_chains_always_routed config celo_to_base_100 all_down).
  - vm_compute. tauto.
  - vm_compute. tauto.
Defined.

Lemma solana_only_by_wormhole_witness :
  ∃ q, In q (BridgeRouter.all
               (BridgeRouter.getBestBridgeRoute config celo_to_solana_100
                  (BridgeRouter.mkReplies (NetError "timeout") wormhole_080
                     (NetError "timeout") (NetError "timeout"))))
       ∧ BridgeRouter.bridge q = "Wormhole"
       ∧ BridgeRouter.executionMethod q = "wormhole_ntt".
Proof.
  assert (H : ∃ q, In q (BridgeRouter.all
               (BridgeRouter.getBestBridgeRoute config celo_to_solana_100
                  (BridgeRouter.mkReplies (NetError "timeout") wormhole_080
                     (NetError "timeout") (NetError "timeout")))))
    by (vm_compute; eexists; left; reflexivity).
  destruct H as [q Hq]. exists q. split; [exact Hq|].
  destruct (solana_only_by_wormhole config celo_to_solana_100 _ q eq_refl Hq)
    as (Hb & Hm & _).
  split; [exact Hb|exact Hm].
Defined.

(** 100 USDC to Base over Axelar, confirmed: the one bridge transfer of
    the run is Axelar's, right after the approval of Axelar's gateway. *)
Lemma submitted_transfers_witness :
  ∃ m q,
    In (BridgeTransfer m q)
       (effects (Server.heap (Server.run config text axelar_events Server.initial)))
    ∧ (m = "axelar_gmp" ∨ m = "celer_cbridge")
    ∧ ∃ t1 t2 sid p spender,
        effects (Server.heap (Server.run config text axelar_events Server.initial))
        = t1 ++ submission sid p spender ++ t2
        ∧ q = bridgeQuote p
        ∧ m = BridgeRouter.executionMethod q
        ∧ default "celo" (Intent.fromChain (intent p)) = "celo"
        ∧ getBridgeContractAddress m "celo" = Some spender.
Proof.
  assert (H : ∃ m q,
    In (BridgeTransfer m q)
       (effects (Server.heap (Server.run config text axelar_events Server.initial))))
    by (vm_compute; eexists _, _; right; right; left; reflexivity).
  destruct H as (m & q & Hin). exists m, q. split; [exact Hin|].
  exact (submitted_transfers config text axelar_events m q Hin).
Defined.


Lemma sessions_at_rest_witness :
  ∃ s,
    activeSessions (Server.heap (Server.run config text axelar_events Server.initial))
      !! "s1" = Some s
    ∧ (state s = idle ∨ state s = awaiting_confirmation)
    ∧ (state s = awaiting_confirmation → is_Some (pendingTransaction s)).
Proof.
  assert (H : ∃ s,
    activeSessions (Server.heap (Server.run config text axelar_events Server.initial))
      !! "s1" = Some s) by (vm_compute; eexists; reflexivity).
  destruct H as (s & Hs). exists s. split; [exact Hs|].
  exact (sessions_at_rest config text axelar_events "s1" s Hs).
Defined.

(** "cancel" in the session awaiting confirmation. *)
Lemma cancel_moves_no_funds_witness :
  ∃ s,
    activeSessions axelar_heap !! "s1" = Some s
    ∧ handleUserMessage config text "s1" "cancel" no_wallet env_reply axelar_heap
      = (mkResponse Cancelled idle,
         mkHeap (<["s1" := set_pendingTransaction None (set_state idle s)]>
                   (activeSessions axelar_heap)) (effects axelar_heap))
    ∧ effects axelar_heap = [].
Proof.
  assert (H : ∃ s, activeSessions axelar_heap !! "s1" = Some s
                   ∧ state s = awaiting_confirmation)
    by (vm_compute; eexists; split; reflexivity).
  destruct H as (s & Hs & Haw). exists s. split; [exact Hs|].
  split; [|reflexivity].
  exact (proj1 (cancel_moves_no_funds config text "s1" "cancel" no_wallet env_reply
                  axelar_heap s Hs Haw eq_refl eq_refl)).
Defined.

(** "cancel my transfer" holds the letter y: it is taken as yes, and the
    pending transaction is dispatched. *)
Lemma yes_wins_over_no_witness :
  isNo "cancel my transfer" = true
  ∧ ∃ s p more s',
      activeSessions axelar_heap !! "s1" = Some s
      ∧ pendingTransaction s = Some p
      ∧ effects (handleUserMessage config text "s1" "cancel my transfer" no_wallet
                   env_reply axelar_heap).2
        = effects axelar_heap ++ Dispatch (sessionId s) p :: more
      ∧ activeSessions (handleUserMessage config text "s1" "cancel my transfer" no_wallet
                          env_reply axelar_heap).2 !! "s1" = Some s'
      ∧ state s' = idle.
Proof.
  split; [reflexivity|].
  assert (H : ∃ s p, activeSessions axelar_heap !! "s1" = Some s
                     ∧ state s = awaiting_confirmation
                     ∧ pendingTransaction s = Some p)
    by (vm_compute; eexists _, _; repeat split; reflexivity).
  destruct H as (s & p & Hs & Haw & Hp).
  destruct (yes_wins_over_no config text "s1" "cancel my transfer" no_wallet env_reply
              axelar_heap s p Hs Haw Hp eq_refl) as (more & s' & Heff & Hs' & Hidle).
  exists s, p, more, s'. repeat split; assumption.
Defined.

(** The session awaits the confirmation of the transfer over Axelar; the
    user asks "why?", and the transfer is dispatched. *)
Lemma stray_message_decides_witness :
  ∃ s p more s',
    activeSessions axelar_heap !! "s1" = Some s
    ∧ state s = awaiting_confirmation
    ∧ pendingTransaction s = Some p
    ∧ effects (handleUserMessage config text "s1" "why?" no_wallet env_reply axelar_heap).2
      = effects axelar_heap ++ Dispatch (sessionId s) p :: more
    ∧ activeSessions (handleUserMessage config text "s1" "why?" no_wallet env_reply
                        axelar_heap).2 !! "s1" = Some s'
    ∧ state s' = idle.
Proof.
  assert (H : ∃ s p, activeSessions axelar_heap !! "s1" = Some s
                     ∧ state s = awaiting_confirmation
                     ∧ pendingTransaction s = Some p)
    by (vm_compute; eexists _, _; repeat split; reflexivity).
  destruct H as (s & p & Hs & Haw & Hp).
  destruct (proj1 (proj2 (stray_message_decides config text "s1" no_wallet env_reply
                            axelar_heap s p Hs Haw Hp)))
    as (more & s' & Heff & Hs' & Hidle).
  exists s, p, more, s'. repeat split; assumption.
Defined.

(** The receipt for the confirmed transfer over Axelar. *)
Lemma receipt_means_submitted_witness :
  ∃ receipt p spender,
    (handleUserMessage config text "s1" "yes" no_wallet env_reply axelar_heap).1
    = mkResponse (TransferSubmitted receipt) idle
    ∧ effects (handleUserMessage config text "s1" "yes" no_wallet env_reply axelar_heap).2
      = effects axelar_heap ++ submission "s1" p spender
    ∧ txHash receipt = "0xtransfer"
    ∧ spender = "0xe432150cce91c13a887f7D836923d5597adD8E31".
Proof.
  assert (H : ∃ receipt,
    (handleUserMessage config text "s1" "yes" no_wallet env_reply axelar_heap).1
    = mkResponse (TransferSubmitted receipt) idle)
    by (vm_compute; eexists; reflexivity).
  destruct H as (receipt & Hresp).
  destruct (receipt_means_submitted config text "s1" "yes" no_wallet env_reply axelar_heap
              receipt idle Hresp)
    as (_ & _ & p & spender & s' & Hp & Ha & Heff & Htx & _).
  exists receipt, p, spender. split; [exact Hresp|].
  assert (Hsid : sessionId (default (createSession "s1" no_wallet (now env_reply))
                              (activeSessions axelar_heap !! "s1")) = "s1")
    by (vm_compute; reflexivity).
  rewrite Hsid in Heff. split; [exact Heff|].
  assert (Hp' : BridgeRouter.executionMethod (bridgeQuote p) = "axelar_gmp"
                ∧ default "celo" (Intent.fromChain (intent p)) = "celo").
  { vm_compute in Hp. injection Hp as <-. split; reflexivity. }
  destruct Hp' as [Hm Hc]. rewrite Hm, Hc in Ha. vm_compute in Ha. injection Ha as <-.
  vm_compute in Htx. injection Htx as Htx. split; [symmetry; exact Htx|reflexivity].
Defined.

(** A tick over the fee alert alone. *)
Lemma poll_triggers_exactly_witness :
  AlertEngine.activeAlerts
    (AlertEngine.poll config no_callback probe 3 [fee_entry] tt)
  = [("s1_2", AlertEngine.mark_triggered 3 fee_alert)]
  ∧ AlertEngine.calls (AlertEngine.poll config no_callback probe 3 [fee_entry] tt)
    = ["s1_2"].
Proof.
  destruct (poll_triggers_exactly config no_callback probe 3 [fee_entry] tt eq_refl)
    as [Ha Hc].
  rewrite Ha, Hc. split; vm_compute; reflexivity.
Defined.

(** The fee alert fires: the best route to Solana costs 0.80 dollars,
    below its threshold of one dollar. *)
Lemma fee_alert_fires_only_below_witness :
  AlertEngine.checkPriceAlert config fee_alert (probe "s1_2") = Ret true
  ∧ ∃ q t,
      BridgeRouter.best
        (BridgeRouter.getBestBridgeRoute config
           (BridgeRouter.mkRequest "celo" "solana" "USDC" 100 (Some "cheapest"))
           (AlertEngine.net (probe "s1_2"))) = Some q
      ∧ Intent.threshold (AlertEngine.intent fee_alert) = Some t
      ∧ (BridgeRouter.feeUSD q < t)%Q.
Proof.
  assert (Hfires : AlertEngine.checkPriceAlert config fee_alert (probe "s1_2") = Ret true)
    by (vm_compute; reflexivity).
  split; [exact Hfires|].
  exact (proj2 (fee_alert_fires_only_below config fee_alert (probe "s1_2") eq_refl Hfires)).
Defined.

(** The fee is paid on the chain and the transaction shown within the
    ten minutes: the payment cannot be verified. *)
Lemma verifyPayment_never_verifies_witness :
  (X402.verifyPayment "x402_s1_1000" "0xabc" 2000 2001 paid_ledger one_request).1
  = X402.CouldNotVerify.
Proof.
  refine (proj2 (proj2 (proj2 (verifyPayment_never_verifies "x402_s1_1000" "0xabc" 2000 2001
                                 paid_ledger one_request)))
            request_1000 eq_refl _ eq_refl eq_refl).
  cbn. lia.
Defined.

Lemma expired_request_forgotten_witness :
  X402.verifyPayment "x402_s1_1000" "0xabc" 601001 601002 paid_ledger one_request
  = (X402.RequestExpired, delete "x402_s1_1000" one_request)
  ∧ X402.verifyPayment "x402_s1_1000" "0xabc" 601003 601004 paid_ledger
      (delete "x402_s1_1000" one_request)
    = (X402.RequestNotFound, delete "x402_s1_1000" one_request).
Proof.
  destruct (expired_request_forgotten "x402_s1_1000" "0xabc" 601001 601002 paid_ledger
              one_request request_1000 eq_refl eq_refl) as [H1 H2].
  split; [exact H1|apply H2].
Defined.

(** The fee is requested at time 1000 and the paying transaction shown a
    second later: it cannot be verified, and the records stay. *)
Lemma payment_request_unverifiable_witness :
  X402.createPaymentRequest config fee "s1" "0xUSER" None 1000 1000 1000 ∅
  = Ret (request_1000, one_request)
  ∧ X402.verifyPayment "x402_s1_1000" "0xabc" 2000 2001 paid_ledger one_request
    = (X402.CouldNotVerify, one_request).
Proof.
  assert (Hcreate : X402.createPaymentRequest config fee "s1" "0xUSER" None 1000 1000 1000 ∅
                    = Ret (request_1000, one_request)) by reflexivity.
  split; [exact Hcreate|].
  refine (proj1 (proj2 (proj2 (proj2 (proj2
            (payment_request_unverifiable config fee "s1" "0xUSER" "0xabc" None
               1000 1000 1000 2000 2001 paid_ledger ∅ one_request request_1000
               Hcreate _ eq_refl)))))).
  lia.
Defined.

(** A request for the fee, then the paying transaction shown for it: the
    session is not a paying one afterwards. *)
Lemma payment_never_granted_witness :
  (PaymentRoutes.serve_all config fee pay_calls ∅).1
  = [PaymentRoutes.Requested request_1000;
     PaymentRoutes.Verification X402.CouldNotVerify]
  ∧ X402.hasRecentPayment "s1" 3000 (PaymentRoutes.serve_all config fee pay_calls ∅).2
    = false.
Proof.
  split; [reflexivity|].
  exact (proj2 (proj2 (payment_never_granted config fee pay_calls)) "s1" 3000%N).
Defined.
End MoreScenarios.

Section ExecutorScenarios.
Import JS Orchestrator Executors Sample Cases.

Lemma dispatched_axelar_transfer_witness :
  ∃ p,
    In (Dispatch "s1" p)
       (effects (Server.heap (Server.run config text axelar_events Server.initial)))
    ∧ executeAxelarTransfer (intent p) 100000000 axelar_ok
      = (Ret "0xsend",
         [ApproveSpender AXELAR_GATEWAY_CELO 100000000;
          EstimateGasFee (toUpperCase (ChainDetector.chain (chainInfo p)));
          PayNativeGas (ChainDetector.chain (chainInfo p)) (Intent.toAddress (intent p))
            (Intent.token (intent p)) 100000000 5;
          SendToken (ChainDetector.chain (chainInfo p)) (Intent.toAddress (intent p))
            (Intent.token (intent p)) 100000000]).
Proof.
  assert (H : ∃ p,
    In (Dispatch "s1" p)
       (effects (Server.heap (Server.run config text axelar_events Server.initial)))
    ∧ BridgeRouter.executionMethod (bridgeQuote p) = "axelar_gmp"
    ∧ ChainDetector.chain (chainInfo p) ≠ "bnb").
  { vm_compute. eexists. split; [left; reflexivity|]. split; [reflexivity|discriminate]. }
  destruct H as (p & Hin & Hm & Hne). exists p. split; [exact Hin|].
  exact (proj2 (proj2 (dispatched_axelar_transfer config text axelar_events "s1" p
                         100000000 axelar_ok Hin Hm))
           Hne 5%Z "0xsend" eq_refl eq_refl eq_refl eq_refl).
Defined.

Lemma dispatched_celer_transfer_witness :
  ∃ p,
    In (Dispatch "s1" p)
       (effects (Server.heap (Server.run config text celer_events Server.initial)))
    ∧ ∃ id,
        BridgeRouter.CHAIN_IDS (ChainDetector.chain (chainInfo p)) ≫= BridgeRouter.evmId
        = Some id
        ∧ executeCelerTransfer (intent p) 100000000
            "0xcebA9300f2b948710d2653dD7B07f33A8B32118C" celer_ok
          = (Ret "0xsend",
             [GetTransferConfigs;
              ApproveSpender "0xBB7684Cc5408F4DD0921E5c2Cadd547b8f1AD573" 100000000;
              CelerSend (Intent.toAddress (intent p))
                "0xcebA9300f2b948710d2653dD7B07f33A8B32118C" 100000000 id
                1700000000001 3000]).
Proof.
  assert (H : ∃ p,
    In (Dispatch "s1" p)
       (effects (Server.heap (Server.run config text celer_events Server.initial)))
    ∧ BridgeRouter.executionMethod (bridgeQuote p) = "celer_cbridge"
    ∧ ChainDetector.chain (chainInfo p) ≠ "celo").
  { vm_compute. eexists. split; [left; reflexivity|]. split; [reflexivity|discriminate]. }
  destruct H as (p & Hin & Hm & Hne). exists p. split; [exact Hin|].
  destruct (proj2 (proj2 (dispatched_celer_transfer config text celer_events "s1" p
                            100000000 "0xcebA9300f2b948710d2653dD7B07f33A8B32118C"
                            celer_ok Hin Hm)) Hne) as (id & Hid & Hrun).
  exists id. split; [exact Hid|].
  apply Hrun; [reflexivity|discriminate|reflexivity|reflexivity].
Defined.

(** 100 USDC from Celo to Base over Stargate while the fee quote fails:
    the swap accepts 99 USDC at least and pays the estimate. *)
Lemma stargate_transfer_witness :
  ∃ router minAmount fee,
    (executeLayerZeroTransfer send_100_usdc_base 100000000 stargate_no_quote).2
    = [ApproveSpender router 100000000;
       EncodeAddress (Some evm_address);
       QuoteLayerZeroFee 184;
       StargateSwap 184 1 1 100000000 minAmount fee]
    ∧ (100 * minAmount <= 99 * 100000000 < 100 * minAmount + 100)%Z
    ∧ fee = (10 ^ 16)%Z.
Proof.
  destruct (stargate_transfer send_100_usdc_base 100000000 stargate_no_quote "0xswap" _
              eq_refl)
    as (toChain & d & pool & router & minAmount & fee
        & Hto & Hd & Hpool & _ & _ & Hcalls & Hmin & _ & Hfee & _).
  injection Hto as <-. injection Hd as <-. injection Hpool as <-.
  exists router, minAmount, fee. split; [exact Hcalls|].
  split; [apply Hmin; lia|exact (Hfee "call revert" eq_refl)].
Defined.

(** 500 USDm to USDC on Celo with no 1inch key: the route is Mento's, and
    it accepts 494.505 at least for the 499.5 quoted. *)
Lemma swap_route_origin_witness :
  ∃ route,
    SwapRouter.getSwapRoute config_usdm no_key "USDm" "USDC" 500 None mento_4995
    = Some route
    ∧ SwapRouter.dex route = "Mento"
    ∧ SwapRouter.amountOutMin route = Some 494505000000000000000%Z.
Proof.
  assert (H : ∃ route,
    SwapRouter.getSwapRoute config_usdm no_key "USDm" "USDC" 500 None mento_4995
    = Some route) by (eexists; reflexivity).
  destruct H as (route & Hroute).
  destruct (swap_route_origin config_usdm no_key "USDm" "USDC" 500 None mento_4995 route
              Hroute) as (_ & _ & _ & [Hmento|H1inch]).
  - destruct Hmento as (Hdex & _ & _ & out & minOut & Hout & Hmin & Hbound).
    exists route. split; [exact Hroute|]. split; [exact Hdex|].
    rewrite Hmin. f_equal. injection Hout as <-.
    specialize (Hbound ltac:(lia)). lia.
  - exfalso. destruct H1inch as (_ & _ & (key & Hkey & _) & _). discriminate Hkey.
Defined.
End ExecutorScenarios.
